(* ===== verification/_CoqProject ===== *)
-Q . S2P
Prelude.v
JsString.v
JsNumber.v
Dates.v
Format.v
Page.v
Totals.v
Ledger.v
Html.v
Navigation.v
Export.v
App.v
Refinement.v
Liveness.v
Tables.v
Subtotal.v
