(* ===== verification/Prelude.v ===== *)
(** * A verification library for HVF_invoice, [src/script.js]

    The program is a browser invoice builder, one script.  The user types
    line items into a form; "Add Item" (lines 72-111) validates them,
    renders a row into [#itemsPreviewTable] and re-runs [updateTotals]
    (lines 16-61), which re-reads every row's amount cell, writes the
    subtotal, tax and total, and copies the rows into [#invoiceTable]
    padded to five; "Preview" (114-140) copies the client fields, the
    invoice number, today's date and a due date ten days later into the
    invoice view, re-runs [updateTotals] and shows the preview; "Back"
    (143-151) shows the form; "Download" (154-225) re-runs [updateTotals],
    saves six layout properties, switches to a print layout, waits 1500 ms,
    asks the external html2pdf library to save the invoice and, if that
    promise fulfils, restores the layout.  The state is the DOM, the
    console and the window's scroll position, plus the closure variable
    [itemCount]; [formatNumber] and [formatDate] (1-13) are the only pure
    helpers.

    ** Files, in dependency order

    - [Prelude] (this file): JS strings as lists of UTF-16 code units and
      the literal notation [«"..."»] (scope [js_scope]); the state and
      exception monad [js_m] in which every handler is written (a thrown
      [TypeError] is an [outcome], the state reached so far is kept);
      tactics ([inv], [zlia], [zcase]); the hint databases [invoice] and
      [invoice_rw]; shared lemmas on lists and [Z].
    - [JsString]: [String.prototype.trim], [padStart], the global
      character-class [replace] of line 22 and the comma regex of line 12,
      modelled as the positions where [\B] and its lookahead hold
      ([insert_commas_from]); [String(n)] of integers ([dec_digits]).
      Theorems: the regex equals a reference grouping by threes; stripping
      the commas it inserts gives the digits back; decimal digits and
      their value are inverse.
    - [JsNumber]: JS numbers as binary64 values of the Standard Library's
      axiom-free [SpecFloat] (precision 53, emax 1024): [parseFloat] with
      correct rounding of the decimal literal, [+], [*], [<=], [x || 0],
      [Number.prototype.toFixed] (half up on the exact value, [>= 1e21]
      falls back to [Number::toString]) and the shortest round-trip
      [Number::toString] of ECMA-262 6.1.6.1.20.
    - [Dates]: the ECMA-262 day, year and month algorithms behind
      [getDate], [getMonth], [getFullYear] and [setDate], in a [Section]
      over the host's time zone ([time_zone]: the two offset functions
      of [LocalTime] and [UTC], so daylight saving included); [due_date]
      is lines 124-126.
    - [Format]: [formatNumber] and [formatDate].
    - [Page]: the DOM the handlers touch, as a [Record] ([text] of the
      elements by id, inline [style] properties, the rows of the two
      tables, the alerts shown, the console entries logged, the scroll
      position), [app_state] (page plus [itemCount]), and
      the interface [TotalsRenderer]: the frame laws of [updateTotals]
      that the handlers' theorems are proved against.
    - [Totals]: [updateTotals], its loop as a monadic fold that logs one
      console entry per row ([sum_rows_log], equal to the pure [sum_rows]
      plus its log), its [TotalsRenderer] instance, and what it writes on
      every branch (TypeError on a row without a fifth cell).
    - [Ledger]: "Add Item", the specification's abstract ledger
      ([spec_addItem] on a list of [line_item]s) and the refinement
      relation [ledger_rel] between them.
    - [Navigation]: "Preview" and "Back", and the display mode read off
      the two display styles: Editing when the form is shown and the
      preview hidden (or neither style set yet), Previewing when the
      preview is shown and the form hidden, no mode otherwise.
    - [Export]: "Download" split at its two [await]s: [download_start]
      (its log line, [updateTotals], the print layout and the scroll to
      the top, up to the timer), [opt], and [finish_download] (the
      restore and the "PDF saved" log line, after html2pdf).
    - [App]: the event system.  A [system] is the page state plus the
      suspended downloads ([pending]: waiting for the timer, or for
      html2pdf) and the list of (options, page) html2pdf was asked to
      render.  [step] handles one event: typing into a form field, one of
      the four clicks, a timer firing, an html2pdf promise settling
      (fulfilled or rejected, the environment's choice).  [reachable] is
      its closure from the initial page.
    - [Html]: the template literals of lines 51-57 and 93-99 as strings,
      and the part of the HTML standard's fragment parsing (in a [tr])
      that turns them into cells: the tokenizer's states for text, tags
      and their attributes, comments, RAWTEXT, RCDATA, PLAINTEXT and
      script data, numeric references and five named ones, and the "in
      row" and "in cell" insertion modes; inputs outside that subset
      give [None].
    - [Refinement]: the specification's machine (ledger, item fields,
      reported validation errors) stepped by the same events, and the
      simulation relation [spec_rel] between it and the page.
    - [Liveness]: the environment's events (timers, html2pdf
      settlements), the weight of the suspended downloads, and the
      inductive [eventually] (as in coqutil's small-step combinators).
    - [Tables]: with the script's own [updateTotals], the invariant of
      the two tables and of every page handed to html2pdf.
    - [Subtotal]: [Refinement] and [Tables] composed: [#subtotal] as a
      function of the specification's ledger ([ledger_subtotal]).

    ** What is proved

    - Ledger: "Add Item" refines [spec_addItem] (success, capacity,
      empty-field and non-positive errors), and a run of valid entries
      appends rows in order; a full ledger only raises the capacity alert.
    - Invariants of reachable states, by induction on [reachable]:
      [itemCount] counts the rows, at most five, each with a fifth cell;
      hence no handler that calls [updateTotals] ever throws.
    - Totals: on readable rows [updateTotals] writes [formatNumber] of the
      in-order sum, of the tax and of the total; a NaN tax counts as 0;
      the invoice table holds exactly five rows; a short row throws.  The
      amount re-read from a rendered cell is the amount rounded half up to
      cents ([amount_text_roundtrip]), so the subtotal is a sum of
      rounded amounts, not the exact sum the specification states.  The
      console gains one "Amount:" entry per row read, in table order.
    - Formatting: [formatNumber] of a finite number below 1e21 is its
      sign, comma-grouped integer part and two rounded decimals; the due
      date is exactly ten local calendar days later across month and year
      ends, at the same local clock time, in any zone (a change of
      offset in between only moves the elapsed time); MakeDay's
      closed form finds the first of the month.
    - Display mode: over every run from the initial page the page shows
      exactly one of the form and the preview, and which one follows the
      specification's Editing/Previewing machine on the same events;
      Preview then Back keeps the ledger; Preview fills the view.
    - Download: an uninterrupted, fulfilled download restores the six
      saved properties, leaves the window at the top and logs "PDF
      saved"; a rejected one, or two overlapping ones, leave the
      print layout on the page; rows added during the wait are exported.
    - Refinement over whole runs: every run from the initial page shows
      the state the specification's machine reaches on the same events
      (rows, [itemCount], item fields, alerts), so every reachable page
      shows at most five valid items.
    - Tables and export: every row of both tables has five cells; the
      invoice table mirrors the item rows padded to five and [#subtotal]
      shows their sum in every reachable state after the first
      [updateTotals]; every page handed to html2pdf is in that state with
      the options of lines 195-211, but whatever tax is typed during the
      wait, its total is the one computed at the click.  In every reachable state [#subtotal] shows
      [formatNumber] of the specification's ledger's amounts, each
      rendered and re-read, summed in ledger order.
    - Termination and liveness: each timer or html2pdf event removes one
      unit of the downloads' weight, so a run of them is exactly as long
      as the weight it removes, and once the user stops clicking every
      suspended download finishes in every order of those events.
    - Markup: for a product and grade without CR or NUL, whose [&] and
      [<] start no reference or markup ([Salt & Pepper <5kg]), the row markup
      parses to exactly the cells of [render_row]; for all plain strings,
      a product [a</td><td>b] gives a six-cell row whose fifth cell is
      the quantity, and a product ending in an unterminated quoted
      attribute swallows the grade cell, leaving four cells on which
      [updateTotals] throws.
    - Strings: [formatNumber] prints only digits, [,.-+e] and the letters
      of [Infinity]/[NaN]; its comma regex equals the usual grouping of
      a head of one to three digits and groups of three.

    ** Fuel and bounds

    [dec_digits n] runs [log2 n + 1] steps, at least the number of decimal
    digits of [n] ([digit_fuel_bound]).  [Number::toString] corrects the
    estimated decimal exponent at most 8 times (the estimate
    [(log2 m + e) * 0.30103 + 1] is off by at most two), tries 16 digit
    counts from 1 and then takes 17 (17 significant digits always
    round-trip in binary64), and strips at most 20 trailing zeros (a
    17-digit significand has fewer).  These bounds are arithmetic facts
    the printing functions rely on; the theorems on [toFixed] and
    [formatNumber] below 1e21 do not go through [Number::toString].
    Integers are [Z]; JS numbers stay binary64, so overflow to Infinity and rounding are the code's.

    ** Not modelled

    The HTML parser beyond the subset of [Html]: the more than two
    thousand names of the standard's table of named references beyond
    the five the templates use (data the browser carries, not part of
    the script),
    [template], [select], SVG and MathML content, nested tables, and
    elements foster-parented between cells; [parse_row_html] answers
    [None] on them, and the rest of the development keeps a row as the
    texts of its cells; how the console prints its entries and the user's own
    scrolling (the page keeps the entries and the position the script
    sets); the rendering html2pdf does (only the options and
    the page it is handed, and whether its promise fulfils, are visible
    to the script); the time-zone database itself (a zone is any pair
    of offset functions); and
    [index.html] and its CSS (the elements the script looks up are
    assumed present; the initial page [App.init_page] is modelled from
    the specification).
*)

From Stdlib Require Import String Ascii ZArith List Lia Bool.
Import ListNotations.

(** ** JavaScript strings

    A JS string is a sequence of UTF-16 code units; we keep each unit as a
    [Z] in [0, 65535].  Literals of the development are written with ASCII
    [string]s and converted by [js_of_string]. *)

Definition jsstr := list Z.

Fixpoint js_of_string (s : string) : jsstr :=
  match s with
  | EmptyString => []
  | String a r => Z.of_nat (nat_of_ascii a) :: js_of_string r
  end.

Declare Scope js_scope.
Delimit Scope js_scope with js.
Notation "« s »" := (js_of_string s%string) (format "« s »") : js_scope.

(** Code units the script names. *)
Definition cu_comma : Z := 44.
Definition cu_dot : Z := 46.
Definition cu_minus : Z := 45.
Definition cu_plus : Z := 43.
Definition cu_zero : Z := 48.
Definition cu_naira : Z := 8358.   (** U+20A6, the character [₦] *)
Definition cu_nbsp : Z := 160.     (** U+00A0, the entity [&nbsp;] *)

(** ** The handlers' effects: state and JavaScript exceptions

    A handler runs to completion on the page state; a statement that
    throws (a [TypeError] on [undefined]) abandons the rest of the handler
    but keeps every write made before it, as the browser does. *)

Inductive js_error :=
  | TypeError (what : jsstr).

Inductive outcome (A : Type) :=
  | Normal (a : A)
  | Thrown (e : js_error).
Arguments Normal {A} a.
Arguments Thrown {A} e.

Definition js_m (S A : Type) := S -> outcome A * S.

Section Monad.
Context {S : Type}.

Definition ret {A} (a : A) : js_m S A := fun s => (Normal a, s).

Definition bind {A B} (c : js_m S A) (k : A -> js_m S B) : js_m S B :=
  fun s => match c s with
           | (Normal a, s') => k a s'
           | (Thrown e, s') => (Thrown e, s')
           end.

Definition get : js_m S S := fun s => (Normal s, s).
Definition put (s : S) : js_m S unit := fun _ => (Normal tt, s).
Definition modify (f : S -> S) : js_m S unit := fun s => (Normal tt, f s).
Definition throw {A} (e : js_error) : js_m S A := fun s => (Thrown e, s).

(** The final state of a run, whatever its outcome. *)
Definition exec {A} (c : js_m S A) (s : S) : S := snd (c s).
End Monad.

Notation "x <- c ;; k" := (bind c (fun x => k))
  (at level 61, c at next level, right associativity) : js_scope.
Notation "c ;; k" := (bind c (fun _ => k))
  (at level 61, right associativity) : js_scope.

Section MonadLaws.
Context {S A B : Type}.

Lemma bind_ret_l (a : A) (k : A -> js_m S B) s : bind (ret a) k s = k a s.
Proof. reflexivity. Qed.

Lemma bind_normal (c : js_m S A) (k : A -> js_m S B) s a s' :
  c s = (Normal a, s') -> bind c k s = k a s'.
Proof. intros H. unfold bind. now rewrite H. Qed.

Lemma bind_thrown (c : js_m S A) (k : A -> js_m S B) s e s' :
  c s = (Thrown e, s') -> bind c k s = (Thrown e, s').
Proof. intros H. unfold bind. now rewrite H. Qed.
Lemma exec_bind (c : js_m S A) (k : A -> js_m S B) s :
  exec (bind c k) s = match c s with
                      | (Normal a, s') => exec (k a) s'
                      | (Thrown _, s') => s'
                      end.
Proof. unfold exec, bind. destruct (c s) as [[a|e] s']; reflexivity. Qed.

Lemma exec_modify (f : S -> S) s : exec (modify f) s = f s.
Proof. reflexivity. Qed.
End MonadLaws.

(** ** Tactics *)

Ltac inv H := inversion H; subst; clear H.

(** [lia] of this Rocq does not read [/] and [mod]: name the quotient and
    remainder of each division first. *)
Ltac zlia := Z.to_euclidean_division_equations; lia.

(** Case on the boolean integer tests of a goal, keeping the fact. *)
Ltac zcase :=
  match goal with
  | |- context [Z.leb ?a ?b] => destruct (Z.leb_spec a b)
  | |- context [Z.ltb ?a ?b] => destruct (Z.ltb_spec a b)
  | |- context [Z.eqb ?a ?b] => destruct (Z.eqb_spec a b)
  | H : context [Z.leb ?a ?b] |- _ => destruct (Z.leb_spec a b)
  | H : context [Z.ltb ?a ?b] |- _ => destruct (Z.ltb_spec a b)
  | H : context [Z.eqb ?a ?b] |- _ => destruct (Z.eqb_spec a b)
  end.

(** ** Shared lemmas on lists and integers *)

Create HintDb invoice discriminated.
Create Rewrite HintDb invoice_rw.

Lemma filter_all {A} (f : A -> bool) (l : list A) :
  Forall (fun x => f x = true) l -> filter f l = l.
Proof. induction 1 as [|x l Hx _ IH]; simpl; [reflexivity|]. now rewrite Hx, IH. Qed.

Lemma filter_none {A} (f : A -> bool) (l : list A) :
  Forall (fun x => f x = false) l -> filter f l = [].
Proof. induction 1 as [|x l Hx _ IH]; simpl; [reflexivity|]. now rewrite Hx. Qed.

Lemma Forall_last {A} (P : A -> Prop) l d : Forall P l -> P d -> P (last l d).
Proof.
  intros Hl Hd. induction Hl as [|x l Hx Hl IH]; [assumption|].
  destruct l as [|y l]; [assumption|]. exact IH.
Qed.

Lemma Z_div_mod_10 (n : Z) : (n = 10 * (n / 10) + n mod 10)%Z.
Proof. apply Z.div_mod. discriminate. Qed.

#[export] Hint Resolve filter_all filter_none : invoice.
#[export] Hint Rewrite length_app repeat_length filter_app app_assoc : invoice_rw.
