(* ===== verification/JsString.v ===== *)
(** * JavaScript string primitives called by [src/script.js]

    [String.prototype.trim], [padStart] with a one-unit filler, the global
    [replace] of a character class by the empty string (line 22), the
    comma-grouping regex [/\B(?=(\d{3})+(?!\d))/g] of [formatNumber]
    (line 12), and the decimal text of a non-negative integer.  Strings are
    lists of UTF-16 code units (see [Prelude]). *)

From Stdlib Require Import String ZArith List Lia Bool.
From S2P Require Import Prelude.
Import ListNotations.
Local Open Scope Z_scope.
Local Open Scope js_scope.

(** ** Character classes *)

(** WhiteSpace and LineTerminator code points of ECMA-262 (12.2, 12.3):
    the units [trim] removes, [parseFloat] skips and the regex class [\s]
    matches. *)
Definition is_js_space (c : Z) : bool :=
  (c =? 9) || (c =? 10) || (c =? 11) || (c =? 12) || (c =? 13) || (c =? 32)
  || (c =? 160) || (c =? 5760) || ((8192 <=? c) && (c <=? 8202))
  || (c =? 8232) || (c =? 8233) || (c =? 8239) || (c =? 8287)
  || (c =? 12288) || (c =? 65279).

(** [\d] *)
Definition is_digit (c : Z) : bool := (48 <=? c) && (c <=? 57).

(** [\w] without the [u] flag: [A-Za-z0-9_]. *)
Definition is_word_char (c : Z) : bool :=
  is_digit c || ((65 <=? c) && (c <=? 90)) || ((97 <=? c) && (c <=? 122)) || (c =? 95).

(** ** trim, padStart, replace *)

Fixpoint trim_start (s : jsstr) : jsstr :=
  match s with
  | [] => []
  | c :: r => if is_js_space c then trim_start r else s
  end.

Definition trim_end (s : jsstr) : jsstr := rev (trim_start (rev s)).

(** [s.trim()] *)
Definition trim (s : jsstr) : jsstr := trim_end (trim_start s).

(** Whether [s] begins with [p]. *)
Fixpoint starts_with (p s : jsstr) : bool :=
  match p, s with
  | [], _ => true
  | c :: p', c' :: s' => (c =? c') && starts_with p' s'
  | _ :: _, [] => false
  end.

(** ToBoolean of a string is false only for the empty string: [!s],
    [s || d]. *)
Definition str_falsy (s : jsstr) : bool :=
  match s with [] => true | _ => false end.

(** Equality of strings, [===]. *)
Fixpoint str_eqb (s t : jsstr) : bool :=
  match s, t with
  | [], [] => true
  | c :: s', d :: t' => (c =? d) && str_eqb s' t'
  | _, _ => false
  end.

(** [s.padStart(n, fill)] for a filler of one code unit. *)
Definition padStart (n : nat) (fill : Z) (s : jsstr) : jsstr :=
  if (length s <? n)%nat then repeat fill (n - length s) ++ s else s.

(** [s.replace(/[cls]/g, '')]: every unit of the class is dropped. *)
Definition replace_class_all (cls : Z -> bool) (s : jsstr) : jsstr :=
  filter (fun c => negb (cls c)) s.

(** The class [[₦,\s]] of line 22. *)
Definition amount_junk (c : Z) : bool :=
  (c =? cu_naira) || (c =? cu_comma) || is_js_space c.

(** ** The thousands separator regex of [formatNumber]

    [s.replace(/\B(?=(\d{3})+(?!\d))/g, ',')].  Every match is empty, so
    the global replace tries each position [0 .. length s] of the original
    string once and inserts a comma at the positions that match.  At a
    position, [\B] holds when the units on both sides are alike for [\w]
    (the start of the string counts as a non-word unit), and the lookahead
    holds when the run of digits that follows is a positive multiple of
    three long: [(\d{3})+] backtracks over whole groups and [(?!\d)] then
    needs the run to end. *)

Fixpoint digit_run (s : jsstr) : nat :=
  match s with
  | c :: r => if is_digit c then S (digit_run r) else O
  | [] => O
  end.

Definition groups_ahead (s : jsstr) : bool :=
  (0 <? digit_run s)%nat && (digit_run s mod 3 =? 0)%nat.

Definition word_before (prev : option Z) : bool :=
  match prev with Some c => is_word_char c | None => false end.

Definition word_after (s : jsstr) : bool :=
  match s with c :: _ => is_word_char c | [] => false end.

Definition comma_match_at (prev : option Z) (s : jsstr) : bool :=
  Bool.eqb (word_before prev) (word_after s) && groups_ahead s.

Fixpoint insert_commas_from (prev : option Z) (s : jsstr) : jsstr :=
  match s with
  | [] => if comma_match_at prev [] then [cu_comma] else []
  | c :: r =>
      (if comma_match_at prev s then [cu_comma] else [])
        ++ c :: insert_commas_from (Some c) r
  end.

Definition group_thousands (s : jsstr) : jsstr := insert_commas_from None s.

(** ** Decimal text of an integer

    The digits of [n >= 0], most significant first, computed with fuel:
    [n] has at most [log2 n + 1] decimal digits, the fuel given. *)

Fixpoint digits_fuel (fuel : nat) (n : Z) (acc : jsstr) : jsstr :=
  match fuel with
  | O => acc
  | S f =>
      if n <? 10 then (cu_zero + n) :: acc
      else digits_fuel f (n / 10) ((cu_zero + n mod 10) :: acc)
  end.

Definition digit_fuel (n : Z) : nat := S (Z.to_nat (Z.log2 n)).

Definition dec_digits (n : Z) : jsstr := digits_fuel (digit_fuel n) n [].

(** [String(z)] for an integer [z]. *)
Definition int_to_js (z : Z) : jsstr :=
  if z <? 0 then cu_minus :: dec_digits (- z) else dec_digits z.

(** The value of a run of digit units, as [parseFloat] reads it. *)
Definition digit_val (c : Z) : Z := c - cu_zero.

Definition digits_step (acc c : Z) : Z := acc * 10 + digit_val c.

Definition digits_value (ds : jsstr) : Z := fold_left digits_step ds 0.

(** ** Decimal digits: fuel, unfolding equation, value *)

Section DecimalDigits.

Lemma digits_fuel_app f n acc t :
  digits_fuel f n (acc ++ t) = digits_fuel f n acc ++ t.
Proof.
  revert n acc. induction f as [|f IH]; intros n acc; simpl; [reflexivity|].
  destruct (n <? 10); [reflexivity|]. apply (IH _ (_ :: acc)).
Qed.

Lemma pow10_succ (f : nat) : 10 ^ Z.of_nat (S f) = 10 * 10 ^ Z.of_nat f.
Proof. rewrite Nat2Z.inj_succ, Z.pow_succ_r by lia. reflexivity. Qed.

Lemma div10_bound n f :
  0 <= n < 10 ^ Z.of_nat (S f) -> 0 <= n / 10 < 10 ^ Z.of_nat f.
Proof.
  rewrite pow10_succ. intros [H0 H1]. split.
  - apply Z.div_pos; lia.
  - apply Z.div_lt_upper_bound; lia.
Qed.

Lemma digits_fuel_indep f g n acc :
  0 <= n < 10 ^ Z.of_nat f -> 0 <= n < 10 ^ Z.of_nat g ->
  (1 <= f)%nat -> (1 <= g)%nat ->
  digits_fuel f n acc = digits_fuel g n acc.
Proof.
  revert g n acc. induction f as [|f IH]; intros g n acc Hf Hg Hf1 Hg1; [lia|].
  destruct g as [|g]; [lia|]. simpl. destruct (Z.ltb_spec n 10); [reflexivity|].
  assert (Hf' := div10_bound _ _ Hf). assert (Hg' := div10_bound _ _ Hg).
  apply IH; try assumption.
  - destruct f; [simpl in Hf; lia | lia].
  - destruct g; [simpl in Hg; lia | lia].
Qed.

Lemma digit_fuel_bound n : 0 <= n -> 0 <= n < 10 ^ Z.of_nat (digit_fuel n).
Proof.
  intros Hn. unfold digit_fuel. split; [assumption|].
  rewrite Nat2Z.inj_succ, Z2Nat.id by (apply Z.log2_nonneg).
  destruct (Z.eq_dec n 0) as [->|Hn0]; [simpl; lia|].
  apply Z.lt_le_trans with (2 ^ Z.succ (Z.log2 n)).
  - apply Z.log2_spec. lia.
  - apply Z.pow_le_mono_l. split; [lia|lia].
Qed.

(** The unfolding equation of [dec_digits]: the last digit is [n mod 10]. *)
Lemma dec_digits_eq n :
  0 <= n ->
  dec_digits n = if n <? 10 then [cu_zero + n]
                 else dec_digits (n / 10) ++ [cu_zero + n mod 10].
Proof.
  intros Hn. assert (Hb := digit_fuel_bound n Hn). unfold dec_digits in *.
  destruct (digit_fuel n) as [|k] eqn:Ek; [unfold digit_fuel in Ek; lia|].
  cbn [digits_fuel]. destruct (Z.ltb_spec n 10); [reflexivity|].
  pose proof (digits_fuel_app k (n / 10) [] [cu_zero + n mod 10]) as E.
  cbn [app] in E. rewrite E. f_equal.
  assert (Hd : 0 <= n / 10) by (apply Z.div_pos; lia).
  apply digits_fuel_indep.
  - apply div10_bound. assumption.
  - apply digit_fuel_bound. assumption.
  - destruct k; [simpl in Hb; lia | lia].
  - unfold digit_fuel. lia.
Qed.

Lemma digits_value_app l1 l2 :
  digits_value (l1 ++ l2) = fold_left digits_step l2 (digits_value l1).
Proof. unfold digits_value. apply fold_left_app. Qed.

Lemma digits_fuel_value f n acc :
  0 <= n < 10 ^ Z.of_nat f -> (1 <= f)%nat ->
  digits_value (digits_fuel f n acc) = fold_left digits_step acc n.
Proof.
  revert n acc. induction f as [|f IH]; intros n acc Hn Hf; [lia|].
  cbn [digits_fuel]. destruct (Z.ltb_spec n 10).
  - unfold digits_value. cbn [fold_left]. f_equal.
    unfold digits_step, digit_val. lia.
  - rewrite IH.
    + cbn [fold_left]. f_equal. unfold digits_step, digit_val. clear. zlia.
    + apply div10_bound. assumption.
    + destruct f; [simpl in Hn; lia | lia].
Qed.

(** Reading back the printed digits gives the number. *)
Lemma digits_value_dec n : 0 <= n -> digits_value (dec_digits n) = n.
Proof.
  intros Hn. unfold dec_digits. rewrite digits_fuel_value; [reflexivity| |].
  - apply digit_fuel_bound. assumption.
  - unfold digit_fuel. lia.
Qed.

Lemma is_digit_of_val d : 0 <= d < 10 -> is_digit (cu_zero + d) = true.
Proof.
  intros Hd. unfold is_digit, cu_zero.
  apply andb_true_intro. split; apply Z.leb_le; lia.
Qed.

Lemma digits_fuel_digits f n acc :
  0 <= n -> Forall (fun c => is_digit c = true) acc ->
  Forall (fun c => is_digit c = true) (digits_fuel f n acc).
Proof.
  revert n acc. induction f as [|f IH]; intros n acc Hn Hacc; simpl; [assumption|].
  assert (Hm : 0 <= n mod 10 < 10) by (apply Z.mod_pos_bound; lia).
  destruct (Z.ltb_spec n 10).
  - constructor; [apply is_digit_of_val; lia | assumption].
  - apply IH; [apply Z.div_pos; lia|].
    constructor; [apply is_digit_of_val; assumption | assumption].
Qed.

Lemma dec_digits_digits n :
  0 <= n -> Forall (fun c => is_digit c = true) (dec_digits n).
Proof. intros Hn. apply digits_fuel_digits; [assumption | constructor]. Qed.

Lemma dec_digits_nonempty n : 0 <= n -> dec_digits n <> [].
Proof.
  intros Hn. rewrite dec_digits_eq by assumption.
  destruct (n <? 10); [discriminate|]. now destruct (dec_digits (n / 10)).
Qed.
End DecimalDigits.

(** ** The thousands separator on a run of digits

    The reference grouping [group3]: a comma before every digit that is
    followed by a positive multiple of three digits, never before the
    first digit. *)

Fixpoint sep_groups (ds : jsstr) : jsstr :=
  match ds with
  | [] => []
  | d :: r => (if (length ds mod 3 =? 0)%nat then [cu_comma] else []) ++ d :: sep_groups r
  end.

Definition group3 (ds : jsstr) : jsstr :=
  match ds with
  | [] => []
  | d :: r => d :: sep_groups r
  end.

Section Grouping.
Variable t : jsstr.
(** What follows the digits does not start with a digit (a [.], or the
    end of the string). *)
Hypothesis t_no_digit : digit_run t = O.

Lemma digit_run_digits ds :
  Forall (fun c => is_digit c = true) ds -> digit_run (ds ++ t) = length ds.
Proof.
  induction 1 as [|d r Hd _ IH]; [exact t_no_digit|]. simpl. now rewrite Hd, IH.
Qed.

Lemma last_cons {A} (x : A) r p : last (x :: r) p = last r x.
Proof.
  revert x p. induction r as [|y r IH]; intros x p; [reflexivity|].
  change (last (x :: y :: r) p) with (last (y :: r) p). rewrite !IH. reflexivity.
Qed.

Lemma digit_word c : is_digit c = true -> is_word_char c = true.
Proof. unfold is_word_char. intros ->. reflexivity. Qed.

Lemma insert_commas_after_word p ds :
  is_word_char p = true -> Forall (fun c => is_digit c = true) ds ->
  insert_commas_from (Some p) (ds ++ t)
  = sep_groups ds ++ insert_commas_from (Some (last ds p)) t.
Proof.
  intros Hp Hds. revert p Hp. induction Hds as [|d r Hd Hr IH]; intros p Hp; [reflexivity|].
  cbn [app insert_commas_from sep_groups]. rewrite IH by (apply digit_word; assumption).
  unfold comma_match_at, groups_ahead. cbn [word_before word_after].
  rewrite Hp, (digit_word d Hd). cbn [Bool.eqb andb].
  change (d :: r ++ t) with ((d :: r) ++ t).
  rewrite (digit_run_digits (d :: r)) by (constructor; assumption).
  rewrite last_cons, <- app_assoc. reflexivity.
Qed.

(** The regex inserts exactly the commas of [group3] into a run of
    digits that starts the string or follows a non-word unit. *)
Lemma insert_commas_digits prev ds d :
  word_before prev = false -> Forall (fun c => is_digit c = true) (d :: ds) ->
  insert_commas_from prev (d :: ds ++ t)
  = group3 (d :: ds) ++ insert_commas_from (Some (last (d :: ds) d)) t.
Proof.
  intros Hprev Hds. inv Hds.
  cbn [insert_commas_from group3]. unfold comma_match_at at 1.
  rewrite Hprev. cbn [word_after]. rewrite (digit_word d) by assumption.
  cbn [Bool.eqb andb app]. rewrite insert_commas_after_word by (auto using digit_word).
  rewrite last_cons. reflexivity.
Qed.
End Grouping.

(** Two fraction digits after the point get no comma. *)
Lemma insert_commas_fraction2 p a b :
  is_word_char p = true -> is_digit a = true -> is_digit b = true ->
  insert_commas_from (Some p) [cu_dot; a; b] = [cu_dot; a; b].
Proof.
  intros Hp Ha Hb. unfold insert_commas_from, comma_match_at, groups_ahead.
  cbn [word_before word_after digit_run]. rewrite Hp, Ha, Hb, (digit_word a Ha), (digit_word b Hb).
  reflexivity.
Qed.

(** ** The regex against the usual grouping

    The grouping a programmer writes by hand: a head of one to three
    digits, then groups of three, each after a comma. *)

Fixpoint chunks3 (l : jsstr) : list jsstr :=
  match l with
  | a :: b :: c :: r => [a; b; c] :: chunks3 r
  | [] => []
  | _ => [l]
  end.

Definition group_ref (ds : jsstr) : jsstr :=
  let h := S ((length ds - 1) mod 3) in
  firstn h ds ++ concat (map (cons cu_comma) (chunks3 (skipn h ds))).

Lemma mod3_shift n k : (n mod 3 = 0 -> (k + n) mod 3 = k mod 3)%nat.
Proof. intros H. rewrite Nat.Div0.add_mod, H, Nat.add_0_r. apply Nat.Div0.mod_mod. Qed.

Lemma sep_groups_threes k l :
  length l = (3 * k)%nat -> sep_groups l = concat (map (cons cu_comma) (chunks3 l)).
Proof.
  revert l. induction k as [|k IH]; intros l Hl; [destruct l; [reflexivity | discriminate]|].
  destruct l as [|a [|b [|c r]]]; cbn [length] in Hl; try lia.
  assert (Hr : length r = (3 * k)%nat) by lia.
  assert (Hm : (length r mod 3 = 0)%nat) by (rewrite Hr, Nat.mul_comm; apply Nat.Div0.mod_mul).
  cbn [sep_groups chunks3 map concat length].
  replace (S (S (S (length r)))) with (3 + length r)%nat by lia.
  replace (S (S (length r))) with (2 + length r)%nat by lia.
  replace (S (length r)) with (1 + length r)%nat by lia.
  rewrite !(mod3_shift (length r)) by exact Hm. cbn. rewrite (IH r Hr). reflexivity.
Qed.

Lemma sep_groups_short e l :
  (length l mod 3 = 0)%nat -> sep_groups (e :: l) = e :: sep_groups l.
Proof.
  intros Hm. cbn [sep_groups length]. replace (S (length l)) with (1 + length l)%nat by lia.
  rewrite mod3_shift by exact Hm. reflexivity.
Qed.

Lemma sep_groups_short2 e f l :
  (length l mod 3 = 0)%nat -> sep_groups (e :: f :: l) = e :: f :: sep_groups l.
Proof.
  intros Hm.
  change (sep_groups (e :: f :: l))
    with ((if (length (e :: f :: l) mod 3 =? 0)%nat then [cu_comma] else []) ++ e :: sep_groups (f :: l)).
  rewrite (sep_groups_short f l Hm). cbn [length].
  replace (S (S (length l))) with (2 + length l)%nat by lia.
  rewrite mod3_shift by exact Hm. reflexivity.
Qed.

Lemma group3_ref ds : group3 ds = group_ref ds.
Proof.
  destruct ds as [|d r]; [reflexivity|]. unfold group3, group_ref. cbn [length].
  replace (S (length r) - 1)%nat with (length r) by lia.
  assert (Hk : length r = (3 * (length r / 3) + length r mod 3)%nat) by (apply Nat.div_mod; lia).
  assert (Hlt : (length r mod 3 < 3)%nat) by (apply Nat.mod_upper_bound; lia).
  set (k := (length r / 3)%nat) in Hk.
  destruct (length r mod 3)%nat as [|[|[|m]]] eqn:Em; [| | |lia].
  - cbn [firstn skipn app]. rewrite (sep_groups_threes k r) by lia. reflexivity.
  - destruct r as [|e r]; [discriminate|]. cbn [length] in Hk.
    assert (Hr : length r = (3 * k)%nat) by lia.
    cbn [firstn skipn app]. rewrite sep_groups_short, (sep_groups_threes k r) by
      (rewrite ?Hr, ?(Nat.mul_comm 3 k); try apply Nat.Div0.mod_mul; lia).
    reflexivity.
  - destruct r as [|e [|f r]]; [discriminate | discriminate|]. cbn [length] in Hk.
    assert (Hr : length r = (3 * k)%nat) by lia.
    cbn [firstn skipn app]. rewrite sep_groups_short2, (sep_groups_threes k r) by
      (rewrite ?Hr, ?(Nat.mul_comm 3 k); try apply Nat.Div0.mod_mul; lia).
    reflexivity.
Qed.

(** C32: on a run of digits the regex of [formatNumber] inserts the
    commas of the usual grouping: a head of one to three digits, then
    groups of three, each after a comma. *)
Theorem group_thousands_reference ds :
  Forall (fun c => is_digit c = true) ds -> group_thousands ds = group_ref ds.
Proof.
  intros Hds. rewrite <- group3_ref. destruct ds as [|d ds]; [reflexivity|].
  unfold group_thousands. rewrite <- (app_nil_r ds).
  rewrite (insert_commas_digits [] eq_refl None ds d eq_refl Hds).
  rewrite app_nil_r. cbn [insert_commas_from]. unfold comma_match_at, groups_ahead.
  cbn [digit_run Nat.ltb Nat.leb]. rewrite !andb_false_r. apply app_nil_r.
Qed.

Lemma group_thousands_reference_witness :
  Forall (fun c => is_digit c = true) «"1234567"»
  /\ group_thousands «"1234567"» = group_ref «"1234567"».
Proof.
  assert (H : Forall (fun c => is_digit c = true) «"1234567"») by (repeat constructor).
  split; [exact H | exact (group_thousands_reference _ H)].
Defined.

(** Dropping the class [[₦,\s]] undoes the inserted commas. *)
Lemma strip_insert_commas prev s :
  replace_class_all amount_junk (insert_commas_from prev s)
  = replace_class_all amount_junk s.
Proof.
  revert prev. induction s as [|c r IH]; intros prev; cbn [insert_commas_from].
  - destruct (comma_match_at prev []); reflexivity.
  - unfold replace_class_all in *. rewrite filter_app. cbn [filter].
    rewrite IH. destruct (comma_match_at prev (c :: r)); reflexivity.
Qed.

(** ** Trimming before stripping white space changes nothing *)

Section StripTrim.
Variable cls : Z -> bool.
Hypothesis cls_space : forall c, is_js_space c = true -> cls c = true.

Lemma strip_trim_start s :
  replace_class_all cls (trim_start s) = replace_class_all cls s.
Proof.
  unfold replace_class_all. induction s as [|c r IH]; [reflexivity|]. cbn [trim_start].
  destruct (is_js_space c) eqn:E; [|reflexivity].
  cbn [filter]. rewrite (cls_space c E). exact IH.
Qed.

Lemma strip_rev s : replace_class_all cls (rev s) = rev (replace_class_all cls s).
Proof.
  unfold replace_class_all. induction s as [|c r IH]; [reflexivity|].
  cbn [rev filter]. rewrite filter_app, IH. cbn [filter].
  destruct (negb (cls c)); [reflexivity|]. apply app_nil_r.
Qed.

Lemma strip_trim s : replace_class_all cls (trim s) = replace_class_all cls s.
Proof.
  unfold trim, trim_end. rewrite strip_rev, strip_trim_start, <- strip_rev, rev_involutive.
  apply strip_trim_start.
Qed.
End StripTrim.

Lemma amount_junk_space c : is_js_space c = true -> amount_junk c = true.
Proof. intros H. unfold amount_junk. rewrite H. apply orb_true_r. Qed.
