(* ===== verification/JsNumber.v ===== *)
(** * JavaScript numbers

    A JS Number is an IEEE 754 binary64 value.  We use the Standard
    Library's executable and axiom-free specification [SpecFloat] with
    precision 53 and [emax] 1024, so sums, products and comparisons round
    exactly as the browser does.  On top of it: [parseFloat] (ECMA-262
    21.1.2.12), the falsy test behind [x || 0], [Number.prototype.toFixed]
    (21.1.3.3) and [Number::toString] (6.1.6.1.20). *)

From Stdlib Require Import String ZArith List Lia Bool SpecFloat.
From S2P Require Import Prelude JsString.
Import ListNotations.
Local Open Scope Z_scope.
Local Open Scope js_scope.

Definition prec : Z := 53.
Definition emax : Z := 1024.

Definition num := spec_float.

Definition pzero : num := S754_zero false.

(** [x + y], [x * y], [x <= y], [x < y] on Numbers. *)
Definition num_add (x y : num) : num := SFadd prec emax x y.
Definition num_mul (x y : num) : num := SFmul prec emax x y.
Definition num_le (x y : num) : bool := SFleb x y.
Definition num_lt (x y : num) : bool := SFltb x y.

(** ToBoolean: [NaN], [+0] and [-0] are falsy. *)
Definition to_boolean (x : num) : bool :=
  match x with
  | S754_zero _ | S754_nan => false
  | _ => true
  end.

(** [x || 0] *)
Definition or_zero (x : num) : num := if to_boolean x then x else pzero.

Definition num_eqb (x y : num) : bool :=
  match x, y with
  | S754_zero a, S754_zero b | S754_infinity a, S754_infinity b => Bool.eqb a b
  | S754_nan, S754_nan => true
  | S754_finite a m e, S754_finite b m' e' =>
      Bool.eqb a b && Pos.eqb m m' && Z.eqb e e'
  | _, _ => false
  end.

(** ** Rounding a decimal value

    The Number value of [(-1)^neg * m * 10^e10] (m >= 0), rounded to
    nearest, ties to even.  A positive power of ten makes an integer; a
    negative one divides [m * 2^-k] by [5^k] with the library's division
    core, which yields the quotient and its rounding location. *)
Definition round_decimal (neg : bool) (m e10 : Z) : num :=
  if m =? 0 then S754_zero neg
  else if 0 <=? e10 then binary_normalize prec emax (cond_Zopp neg (m * 10 ^ e10)) 0 neg
  else let '(q, e, l) := SFdiv_core_binary prec emax m 0 (5 ^ (- e10)) (- e10) in
       binary_round_aux prec emax neg q e l.

(** ** parseFloat

    [parseFloat(s)] skips leading white space and reads the longest prefix
    that is a StrDecimalLiteral: a sign, then [Infinity] or digits with an
    optional point, fraction and exponent.  No such prefix gives NaN. *)

Fixpoint take_digits (s : jsstr) : jsstr * jsstr :=
  match s with
  | c :: r => if is_digit c then let '(ds, rest) := take_digits r in (c :: ds, rest) else ([], s)
  | [] => ([], [])
  end.

(** The value of an ExponentPart at the head of [s], 0 when there is none:
    [e] or [E], an optional sign, at least one digit. *)
Definition parse_exponent (s : jsstr) : Z :=
  match s with
  | c :: r =>
      if (c =? 101) || (c =? 69) then
        let '(neg, r') := match r with
                          | c' :: r'' => if c' =? cu_plus then (false, r'')
                                         else if c' =? cu_minus then (true, r'') else (false, r)
                          | [] => (false, r)
                          end in
        match fst (take_digits r') with
        | [] => 0
        | ds => if neg then - digits_value ds else digits_value ds
        end
      else 0
  | [] => 0
  end.

Definition str_unsigned_decimal (neg : bool) (s : jsstr) : option num :=
  if starts_with «"Infinity"» s then Some (S754_infinity neg)
  else
    let '(int_ds, r1) := take_digits s in
    match r1 with
    | c :: r2 =>
        if c =? cu_dot then
          let '(frac_ds, r3) := take_digits r2 in
          match int_ds, frac_ds with
          | [], [] => None
          | _, _ => Some (round_decimal neg (digits_value (int_ds ++ frac_ds))
                                        (parse_exponent r3 - Z.of_nat (length frac_ds)))
          end
        else match int_ds with
             | [] => None
             | _ => Some (round_decimal neg (digits_value int_ds) (parse_exponent r1))
             end
    | [] => match int_ds with
            | [] => None
            | _ => Some (round_decimal neg (digits_value int_ds) 0)
            end
    end.

Definition parseFloat (s : jsstr) : num :=
  let t := trim_start s in
  let lit := match t with
             | c :: r => if c =? cu_plus then str_unsigned_decimal false r
                         else if c =? cu_minus then str_unsigned_decimal true r
                         else str_unsigned_decimal false t
             | [] => None
             end in
  match lit with Some v => v | None => S754_nan end.

(** ** Number::toString

    For a finite positive [x = m * 2^e], ECMA-262 asks for the fewest
    decimal digits [s] (k of them) and an exponent [n] such that
    [s * 10^(n-k)] converts back to [x], the closest such [s] when there
    are two, the even one on a tie.  We find the decimal exponent [p]
    of [x] ([10^(p-1) <= x < 10^p]); for [k = 1, 2, ...] the only
    candidates are the [k]-digit truncation [s0] of [x] and [s0 + 1],
    because rounding to binary64 is monotone.  Seventeen digits always
    suffice for binary64. *)

(** [m * 2^e] against [s * 10^q], exactly. *)
Definition cmp_dec (m e s q : Z) : comparison :=
  Z.compare (m * 2 ^ Z.max e 0 * 10 ^ Z.max (- q) 0)
            (s * 10 ^ Z.max q 0 * 2 ^ Z.max (- e) 0).

(** [floor (m * 2^e / 10^q)] *)
Definition floor_scaled (m e q : Z) : Z :=
  (m * 2 ^ Z.max e 0 * 10 ^ Z.max (- q) 0) / (10 ^ Z.max q 0 * 2 ^ Z.max (- e) 0).

(** The decimal exponent, from an estimate by [log10 2 ~ 0.30103]
    corrected by exact comparisons. *)
Fixpoint fix_dec_exponent (fuel : nat) (m e p : Z) : Z :=
  match fuel with
  | O => p
  | S f =>
      match cmp_dec m e 1 p, cmp_dec m e 1 (p - 1) with
      | Lt, Lt => fix_dec_exponent f m e (p - 1)
      | Lt, _ => p
      | _, _ => fix_dec_exponent f m e (p + 1)
      end
  end.

Definition dec_exponent (m e : Z) : Z :=
  fix_dec_exponent 8 m e (((Z.log2 m + e) * 30103) / 100000 + 1).

Definition roundtrips (m : positive) (e s q : Z) : bool :=
  num_eqb (round_decimal false s q) (S754_finite false m e).

(** Of [s0 * 10^q] and [(s0+1) * 10^q], the one nearer to [m * 2^e],
    the even one on a tie. *)
Definition nearer (m e s0 q : Z) : Z :=
  match cmp_dec (2 * m) e (2 * s0 + 1) q with
  | Lt => s0
  | Gt => s0 + 1
  | Eq => if Z.even s0 then s0 else s0 + 1
  end.

Fixpoint shortest (fuel : nat) (k : Z) (m : positive) (e p : Z) : Z * Z :=
  let q := p - k in
  let s0 := floor_scaled (Zpos m) e q in
  match fuel with
  | O => (nearer (Zpos m) e s0 q, q)
  | S f =>
      let ok0 := roundtrips m e s0 q in
      let ok1 := roundtrips m e (s0 + 1) q in
      if ok0 && ok1 then (nearer (Zpos m) e s0 q, q)
      else if ok0 then (s0, q)
      else if ok1 then (s0 + 1, q)
      else shortest f (k + 1) m e p
  end.

(** Drop the trailing zeros of [s] (its value [s * 10^q] kept). *)
Fixpoint strip_zeros (fuel : nat) (s q : Z) : Z * Z :=
  match fuel with
  | O => (s, q)
  | S f => if (0 <? s) && (s mod 10 =? 0) then strip_zeros f (s / 10) (q + 1) else (s, q)
  end.

(** The digits [ds] of [s] and [n] laid out as 6.1.6.1.20 step 6 to 12. *)
Definition layout_decimal (ds : jsstr) (n : Z) : jsstr :=
  let k := Z.of_nat (length ds) in
  if (k <=? n) && (n <=? 21) then ds ++ repeat cu_zero (Z.to_nat (n - k))
  else if (0 <? n) && (n <=? 21) then
    firstn (Z.to_nat n) ds ++ cu_dot :: skipn (Z.to_nat n) ds
  else if (-6 <? n) && (n <=? 0) then
    [cu_zero; cu_dot] ++ repeat cu_zero (Z.to_nat (- n)) ++ ds
  else
    let exp := (if n - 1 <? 0 then cu_minus else cu_plus) :: dec_digits (Z.abs (n - 1)) in
    match ds with
    | [d] => d :: 101 :: exp
    | d :: rest => d :: cu_dot :: rest ++ 101 :: exp
    | [] => []
    end.

Definition finite_to_string (m : positive) (e : Z) : jsstr :=
  let p := dec_exponent (Zpos m) e in
  let '(s, q) := shortest 16 1 m e p in
  let '(s, q) := strip_zeros 20 s q in
  let ds := dec_digits s in
  layout_decimal ds (q + Z.of_nat (length ds)).

Definition number_to_string (x : num) : jsstr :=
  match x with
  | S754_nan => «"NaN"»
  | S754_zero _ => «"0"»
  | S754_infinity s => (if s then [cu_minus] else []) ++ «"Infinity"»
  | S754_finite s m e => (if s then [cu_minus] else []) ++ finite_to_string m e
  end.

(** ** Number.prototype.toFixed(f)

    The integer [n] nearest to [x * 10^f] (the larger on a tie), printed
    with at least [f + 1] digits and a point before the last [f]; a
    magnitude of [10^21] or more is printed by [Number::toString]. *)

(** [n] for [|x| = m * 2^e]: round half up of [m * 2^e * 10^f]. *)
Definition scaled_round (m e : Z) (f : nat) : Z :=
  if 0 <=? e then m * 2 ^ e * 10 ^ Z.of_nat f
  else (2 * m * 10 ^ Z.of_nat f + 2 ^ (- e)) / (2 * 2 ^ (- e)).

Definition fixed_digits (n : Z) (f : nat) : jsstr :=
  let m := dec_digits n in
  let m := if (length m <=? f)%nat then repeat cu_zero (f + 1 - length m) ++ m else m in
  match f with
  | O => m
  | _ => firstn (length m - f) m ++ cu_dot :: skipn (length m - f) m
  end.

Definition at_least_1e21 (m e : Z) : bool :=
  match cmp_dec m e 1 21 with Lt => false | _ => true end.

Definition toFixed (f : nat) (x : num) : jsstr :=
  match x with
  | S754_nan | S754_infinity _ => number_to_string x
  | S754_zero _ => fixed_digits 0 f
  | S754_finite s m e =>
      (if s then [cu_minus] else [])
        ++ (if at_least_1e21 (Zpos m) e then number_to_string (S754_finite false m e)
            else fixed_digits (scaled_round (Zpos m) e f) f)
  end.

(** ** parseFloat on the text [toFixed(2)] prints *)

Section ParseFixed.

Lemma digit_not_space c : is_digit c = true -> is_js_space c = false.
Proof.
  unfold is_digit, is_js_space. intros H. apply andb_prop in H as [H1 H2].
  apply Z.leb_le in H1. apply Z.leb_le in H2.
  repeat (apply orb_false_intro); try (apply Z.eqb_neq; lia).
  apply andb_false_intro1. apply Z.leb_gt. lia.
Qed.

Lemma digit_neq c k : is_digit c = true -> (k < 48 \/ 57 < k) -> (k =? c) = false.
Proof.
  unfold is_digit. intros H Hk. apply andb_prop in H as [H1 H2].
  apply Z.leb_le in H1. apply Z.leb_le in H2. apply Z.eqb_neq. lia.
Qed.

Lemma take_digits_app ds t :
  Forall (fun c => is_digit c = true) ds -> digit_run t = O ->
  take_digits (ds ++ t) = (ds, t).
Proof.
  intros Hds Ht. induction Hds as [|d r Hd _ IH].
  - destruct t as [|c t]; [reflexivity|]. cbn [app take_digits digit_run] in *.
    destruct (is_digit c); [discriminate|reflexivity].
  - cbn [app take_digits]. rewrite Hd, IH. reflexivity.
Qed.

Lemma starts_with_infinity_digit d rest :
  is_digit d = true -> starts_with «"Infinity"» (d :: rest) = false.
Proof.
  intros H. change «"Infinity"» with [73; 110; 102; 105; 110; 105; 116; 121].
  cbn [starts_with]. rewrite (digit_neq d 73 H) by lia. reflexivity.
Qed.

(** [parseFloat] of [-ddd.dd] or [ddd.dd] is the decimal [ddddd / 100]
    rounded to binary64. *)
Lemma parseFloat_fixed2 (neg : bool) d ds a b :
  Forall (fun c => is_digit c = true) (d :: ds) -> is_digit a = true -> is_digit b = true ->
  parseFloat ((if neg then [cu_minus] else []) ++ (d :: ds) ++ [cu_dot; a; b])
  = round_decimal neg (digits_value (d :: ds ++ [a; b])) (-2).
Proof.
  intros Hds Ha Hb. assert (Hd : is_digit d = true) by (inversion Hds; assumption).
  assert (Hunsigned : str_unsigned_decimal neg ((d :: ds) ++ [cu_dot; a; b])
                      = Some (round_decimal neg (digits_value (d :: ds ++ [a; b])) (-2))).
  { unfold str_unsigned_decimal.
    cbn [app]. rewrite starts_with_infinity_digit by assumption.
    change (d :: ds ++ [cu_dot; a; b]) with ((d :: ds) ++ [cu_dot; a; b]).
    rewrite take_digits_app by (assumption || reflexivity).
    cbn [take_digits]. rewrite Ha, Hb. reflexivity. }
  cbn [app] in Hunsigned. unfold parseFloat. destruct neg; cbn [app trim_start].
  - replace (is_js_space cu_minus) with false by reflexivity.
    replace (cu_minus =? cu_plus) with false by reflexivity.
    replace (cu_minus =? cu_minus) with true by reflexivity.
    rewrite Hunsigned. reflexivity.
  - rewrite (digit_not_space d Hd), (Z.eqb_sym d cu_plus), (Z.eqb_sym d cu_minus),
      (digit_neq d cu_plus), (digit_neq d cu_minus)
      by (assumption || (unfold cu_plus, cu_minus; lia)).
    rewrite Hunsigned. reflexivity.
Qed.
End ParseFixed.

(** ** Comparisons with zero *)

Lemma or_zero_not_nan x : or_zero x <> S754_nan.
Proof. destruct x; cbn; discriminate. Qed.

(** For a number that is not NaN, [!(x <= 0)] is [0 < x]. *)
Lemma num_not_le_zero x : x <> S754_nan -> negb (num_le x pzero) = num_lt pzero x.
Proof. destruct x as [[]|[]| |[] m e]; intros H; try reflexivity. contradiction. Qed.

Lemma num_le_zero_iff x : x <> S754_nan -> num_le x pzero = negb (num_lt pzero x).
Proof. intros H. rewrite <- (num_not_le_zero x H). apply Bool.negb_involutive_reverse. Qed.

(** ** The characters of printed numbers

    [Number::toString] and [toFixed] print only digits, [.], [-], [+],
    [e] and the letters of [Infinity] and [NaN]; [formatNumber] adds
    commas. *)

Definition numeral_char (c : Z) : bool :=
  is_digit c || existsb (Z.eqb c) «",.-+eInfityNa"».

Section Numerals.

Lemma Forall_firstn_of {A} (P : A -> Prop) n l : Forall P l -> Forall P (firstn n l).
Proof. revert l. induction n as [|n IH]; intros [|x l] H; cbn; try constructor; inv H; auto. Qed.

Lemma Forall_skipn_of {A} (P : A -> Prop) n l : Forall P l -> Forall P (skipn n l).
Proof. revert l. induction n as [|n IH]; intros [|x l] H; cbn; try constructor; inv H; auto. Qed.

Lemma digits_numeral ds : Forall (fun c => is_digit c = true) ds -> Forall (fun c => numeral_char c = true) ds.
Proof. apply Forall_impl. intros c H. unfold numeral_char. rewrite H. reflexivity. Qed.

Lemma dec_digits_numeral n : 0 <= n -> Forall (fun c => numeral_char c = true) (dec_digits n).
Proof. intros Hn. apply digits_numeral, dec_digits_digits, Hn. Qed.

Lemma numeral_lit s : forallb numeral_char s = true -> Forall (fun c => numeral_char c = true) s.
Proof. intros H. apply Forall_forall. intros c Hc. exact (proj1 (forallb_forall _ _) H c Hc). Qed.

Lemma numeral_repeat c k : numeral_char c = true -> Forall (fun c => numeral_char c = true) (repeat c k).
Proof. intros H. apply Forall_forall. intros x Hx. apply repeat_spec in Hx. subst x. exact H. Qed.

Lemma scaled_round_nonneg m e f : 0 <= m -> 0 <= scaled_round m e f.
Proof.
  intros Hm. unfold scaled_round. destruct (Z.leb_spec 0 e).
  - assert (0 <= 2 ^ e) by (apply Z.pow_nonneg; lia).
    assert (0 <= 10 ^ Z.of_nat f) by (apply Z.pow_nonneg; lia). nia.
  - assert (0 < 2 ^ (- e)) by (apply Z.pow_pos_nonneg; lia).
    assert (0 <= 10 ^ Z.of_nat f) by (apply Z.pow_nonneg; lia).
    apply Z.div_pos; nia.
Qed.


Lemma floor_scaled_nonneg m e q : 0 <= m -> 0 <= floor_scaled m e q.
Proof.
  intros Hm. unfold floor_scaled.
  assert (0 < 2 ^ Z.max e 0) by (apply Z.pow_pos_nonneg; lia).
  assert (0 < 10 ^ Z.max (- q) 0) by (apply Z.pow_pos_nonneg; lia).
  assert (0 < 10 ^ Z.max q 0) by (apply Z.pow_pos_nonneg; lia).
  assert (0 < 2 ^ Z.max (- e) 0) by (apply Z.pow_pos_nonneg; lia).
  apply Z.div_pos; nia.
Qed.

Lemma nearer_nonneg m e s0 q : 0 <= s0 -> 0 <= nearer m e s0 q.
Proof. intros H. unfold nearer. destruct (cmp_dec _ _ _ _); [destruct (Z.even s0)|..]; lia. Qed.

Lemma shortest_nonneg fuel k m e p : 0 <= fst (shortest fuel k m e p).
Proof.
  revert k. induction fuel as [|f IH]; intros k; cbn [shortest];
    pose proof (floor_scaled_nonneg (Zpos m) e (p - k) ltac:(lia)) as H0.
  - apply nearer_nonneg, H0.
  - destruct (roundtrips _ _ _ _), (roundtrips _ _ _ _); cbn [andb fst];
      solve [apply nearer_nonneg, H0 | lia | apply IH].
Qed.

Lemma strip_zeros_nonneg f s q : 0 <= s -> 0 <= fst (strip_zeros f s q).
Proof.
  revert s q. induction f as [|f IH]; intros s q Hs; cbn [strip_zeros]; [exact Hs|].
  destruct (_ && _); [apply IH; apply Z.div_pos; lia | exact Hs].
Qed.

Lemma layout_numeral ds n :
  Forall (fun c => numeral_char c = true) ds -> Forall (fun c => numeral_char c = true) (layout_decimal ds n).
Proof.
  intros Hds. unfold layout_decimal.
  assert (Hexp : Forall (fun c => numeral_char c = true)
                   ((if n - 1 <? 0 then cu_minus else cu_plus) :: dec_digits (Z.abs (n - 1)))).
  { constructor; [destruct (n - 1 <? 0); reflexivity | apply dec_digits_numeral; lia]. }
  destruct (_ && _); [apply Forall_app; split; [exact Hds | apply numeral_repeat; reflexivity]|].
  destruct (_ && _); [apply Forall_app; split; [apply Forall_firstn_of, Hds|];
                      constructor; [reflexivity | apply Forall_skipn_of, Hds]|].
  destruct (_ && _); [apply Forall_app; split; [repeat constructor|];
                      apply Forall_app; split; [apply numeral_repeat; reflexivity | exact Hds]|].
  destruct ds as [|d [|d' rest]]; [constructor| |].
  - inv Hds. constructor; [assumption|]. constructor; [reflexivity | exact Hexp].
  - inv Hds. constructor; [assumption|]. constructor; [reflexivity|].
    apply Forall_app. split; [assumption|]. constructor; [reflexivity | exact Hexp].
Qed.

Lemma number_to_string_numeral x : Forall (fun c => numeral_char c = true) (number_to_string x).
Proof.
  destruct x as [s|s| |s m e]; cbn [number_to_string]; try (apply numeral_lit; reflexivity).
  - apply Forall_app. split; [destruct s; repeat constructor | apply numeral_lit; reflexivity].
  - apply Forall_app. split; [destruct s; repeat constructor|].
    unfold finite_to_string.
    pose proof (shortest_nonneg 16 1 m e (dec_exponent (Zpos m) e)) as Hs.
    destruct (shortest _ _ _ _ _) as [s1 q1]. cbn [fst] in Hs.
    pose proof (strip_zeros_nonneg 20 s1 q1 Hs) as Hz.
    destruct (strip_zeros _ _ _) as [s2 q2]. cbn [fst] in Hz.
    apply layout_numeral, dec_digits_numeral, Hz.
Qed.

Lemma fixed_digits_numeral n f : 0 <= n -> Forall (fun c => numeral_char c = true) (fixed_digits n f).
Proof.
  intros Hn. unfold fixed_digits.
  assert (Hm : Forall (fun c => numeral_char c = true)
                 (if (length (dec_digits n) <=? f)%nat
                  then repeat cu_zero (f + 1 - length (dec_digits n)) ++ dec_digits n
                  else dec_digits n)).
  { destruct (_ <=? _)%nat; [apply Forall_app; split; [apply numeral_repeat; reflexivity|]|];
      apply dec_digits_numeral, Hn. }
  destruct f as [|f]; [exact Hm|].
  apply Forall_app. split; [apply Forall_firstn_of, Hm|]. constructor; [reflexivity | apply Forall_skipn_of, Hm].
Qed.

Lemma toFixed_numeral f x : Forall (fun c => numeral_char c = true) (toFixed f x).
Proof.
  destruct x as [s|s| |s m e]; cbn [toFixed];
    try apply number_to_string_numeral; [apply fixed_digits_numeral; lia|].
  apply Forall_app. split; [destruct s; repeat constructor|].
  destruct (at_least_1e21 _ _); [apply number_to_string_numeral|].
  apply fixed_digits_numeral, scaled_round_nonneg. lia.
Qed.
End Numerals.
