(* ===== verification/Dates.v ===== *)
(** * Date arithmetic of ECMA-262 (21.4.1) behind [getDate], [getMonth],
    [getFullYear] and [setDate]

    The "Preview" handler (lines 123-129) takes [new Date()], copies it,
    calls [dueDate.setDate(today.getDate() + 10)] and prints both with
    [formatDate].  A time value is an integer number of milliseconds since
    the epoch, or NaN for an invalid date ([None]).  All of them are exact
    in binary64, so integers stand for them here.  The host's time zone
    is a pair of offset functions, as ECMA-262 leaves it to the host:
    the offset in force at a UTC instant ([LocalTime]) and the one a
    local time is read with ([UTC]); daylight-saving changes are any two
    such functions, a fixed offset is [fixed_zone]. *)

From Stdlib Require Import ZArith List Lia Bool.
From S2P Require Import Prelude.
Import ListNotations.
Local Open Scope Z_scope.

Definition msPerDay : Z := 86400000.

(** [Day(t)] and [TimeWithinDay(t)] *)
Definition day_of (t : Z) : Z := t / msPerDay.
Definition time_within_day (t : Z) : Z := t mod msPerDay.

(** [DaysInYear(y)] and [DayFromYear(y)] *)
Definition DaysInYear (y : Z) : Z :=
  if negb (y mod 4 =? 0) then 365
  else if negb (y mod 100 =? 0) then 366
  else if negb (y mod 400 =? 0) then 365
  else 366.

Definition DayFromYear (y : Z) : Z :=
  365 * (y - 1970) + (y - 1969) / 4 - (y - 1901) / 100 + (y - 1601) / 400.

(** [YearFromTime], on a day number: the largest [y] whose first day is
    not after [d].  The estimate [1970 + 400 d / 146097] is off by at most
    one year, which the two tests correct. *)
Definition year_from_day (d : Z) : Z :=
  let y0 := 1970 + (400 * d) / 146097 in
  if d <? DayFromYear y0 then y0 - 1
  else if DayFromYear (y0 + 1) <=? d then y0 + 1
  else y0.

(** [InLeapYear] as 0 or 1. *)
Definition leap_of (y : Z) : Z := DaysInYear y - 365.

(** Days of the year before month [m] (0 = January): the thresholds of
    [MonthFromTime] and the offsets of [DateFromTime]. *)
Definition month_start (leap m : Z) : Z :=
  match m with
  | 0 => 0 | 1 => 31 | 2 => 59 + leap | 3 => 90 + leap | 4 => 120 + leap
  | 5 => 151 + leap | 6 => 181 + leap | 7 => 212 + leap | 8 => 243 + leap
  | 9 => 273 + leap | 10 => 304 + leap | 11 => 334 + leap | _ => 365 + leap
  end.

(** [MonthFromTime] from [DayWithinYear] [w]. *)
Definition month_of_dwy (leap w : Z) : Z :=
  if w <? month_start leap 1 then 0
  else if w <? month_start leap 2 then 1
  else if w <? month_start leap 3 then 2
  else if w <? month_start leap 4 then 3
  else if w <? month_start leap 5 then 4
  else if w <? month_start leap 6 then 5
  else if w <? month_start leap 7 then 6
  else if w <? month_start leap 8 then 7
  else if w <? month_start leap 9 then 8
  else if w <? month_start leap 10 then 9
  else if w <? month_start leap 11 then 10
  else 11.

Definition year_of_day (d : Z) : Z := year_from_day d.
Definition dwy_of_day (d : Z) : Z := d - DayFromYear (year_from_day d).
Definition month_of_day (d : Z) : Z :=
  month_of_dwy (leap_of (year_from_day d)) (dwy_of_day d).
(** [DateFromTime] *)
Definition date_of_day (d : Z) : Z :=
  dwy_of_day d - month_start (leap_of (year_from_day d)) (month_of_day d) + 1.

(** [MakeDay(year, month, date)]: the first day of month [month mod 12]
    of year [year + floor(month / 12)], plus [date - 1] days.
    [MakeDate(day, time)] and [TimeClip]. *)
Definition make_day (year month date : Z) : Z :=
  let ym := year + month / 12 in
  let mn := month mod 12 in
  DayFromYear ym + month_start (leap_of ym) mn + date - 1.

Definition make_date (day time : Z) : Z := day * msPerDay + time.

Definition time_clip (t : Z) : option Z :=
  if Z.abs t <=? 8640000000000000 then Some t else None.

(** ** Date objects in the host's time zone *)

(** [LocalTZA(t, true)] and [LocalTZA(t, false)] of 21.4.1.25 (in
    current editions, the offset of the named zone at the instant [t],
    and at the instant a local time [t] is disambiguated to), in
    milliseconds. *)
Record time_zone := mk_tz {
  offset_at_utc : Z -> Z;
  offset_at_local : Z -> Z
}.

Definition fixed_zone (o : Z) : time_zone := mk_tz (fun _ => o) (fun _ => o).
Definition utc : time_zone := fixed_zone 0.

Section LocalTime.
Variable tz : time_zone.

(** [LocalTime(t)] and [UTC(t)] of 21.4.1.26-27. *)
Definition local_time (t : Z) : Z := t + offset_at_utc tz t.
Definition utc_of_local (t : Z) : Z := t - offset_at_local tz t.

(** [d.getDate()], [d.getMonth()], [d.getFullYear()]: NaN on an
    invalid date. *)
Definition getDate (tv : option Z) : option Z :=
  option_map (fun t => date_of_day (day_of (local_time t))) tv.
Definition getMonth (tv : option Z) : option Z :=
  option_map (fun t => month_of_day (day_of (local_time t))) tv.
Definition getFullYear (tv : option Z) : option Z :=
  option_map (fun t => year_of_day (day_of (local_time t))) tv.

(** [d.setDate(dt)] (21.4.4.20), the new time value. *)
Definition setDate (tv : option Z) (dt : option Z) : option Z :=
  match tv, dt with
  | Some t0, Some dt =>
      let t := local_time t0 in
      let d := day_of t in
      let newDate := make_date (make_day (year_of_day d) (month_of_day d) dt)
                               (time_within_day t) in
      time_clip (utc_of_local newDate)
  | _, _ => None
  end.

(** [today.getDate() + 10] is NaN when [today] is. *)
Definition due_date (today : option Z) : option Z :=
  setDate today (option_map (fun d => d + 10) (getDate today)).
End LocalTime.

(** ** The calendar: years, months, round trip *)

(** Split a goal on the twelve values of a month index. *)
Ltac month_enum m Hm :=
  let H := fresh "Hm" in
  assert (H : m = 0 \/ m = 1 \/ m = 2 \/ m = 3 \/ m = 4 \/ m = 5 \/ m = 6 \/ m = 7
              \/ m = 8 \/ m = 9 \/ m = 10 \/ m = 11) by lia;
  repeat (destruct H as [H|H]; [subst m|]); [..|subst m].

Section Calendar.

Lemma DaysInYear_cases y : DaysInYear y = 365 \/ DaysInYear y = 366.
Proof. unfold DaysInYear. repeat destruct (_ =? _); simpl; auto. Qed.

Lemma leap_of_bounds y : 0 <= leap_of y <= 1.
Proof. unfold leap_of. destruct (DaysInYear_cases y); lia. Qed.

(** The leap-year rule of [DaysInYear] agrees with the day count of
    [DayFromYear]. *)
Lemma DayFromYear_succ y : DayFromYear (y + 1) = DayFromYear y + DaysInYear y.
Proof.
  unfold DayFromYear, DaysInYear.
  destruct (Z.eqb_spec (y mod 4) 0), (Z.eqb_spec (y mod 100) 0), (Z.eqb_spec (y mod 400) 0);
    cbn [negb]; zlia.
Qed.

Lemma DayFromYear_mono y y' : y < y' -> DayFromYear y < DayFromYear y'.
Proof. unfold DayFromYear. intros. zlia. Qed.

Lemma year_estimate_low d : DayFromYear (1970 + (400 * d) / 146097 - 1) <= d.
Proof. unfold DayFromYear. zlia. Qed.

Lemma year_estimate_high d : d < DayFromYear (1970 + (400 * d) / 146097 + 2).
Proof. unfold DayFromYear. zlia. Qed.

(** [year_from_day d] is the year that contains day [d]. *)
Lemma year_from_day_spec d :
  DayFromYear (year_from_day d) <= d < DayFromYear (year_from_day d + 1).
Proof.
  unfold year_from_day. set (y0 := 1970 + (400 * d) / 146097).
  pose proof (year_estimate_low d). pose proof (year_estimate_high d).
  fold y0 in H, H0.
  destruct (Z.ltb_spec d (DayFromYear y0)).
  - replace (y0 - 1 + 1) with y0 by lia. lia.
  - destruct (Z.leb_spec (DayFromYear (y0 + 1)) d).
    + replace (y0 + 1 + 1) with (y0 + 2) by lia. lia.
    + lia.
Qed.

(** Only one year contains a day. *)
Lemma year_from_day_unique d y :
  DayFromYear y <= d < DayFromYear (y + 1) -> year_from_day d = y.
Proof.
  intros Hy. pose proof (year_from_day_spec d) as Hs.
  destruct (Z.lt_trichotomy (year_from_day d) y) as [Hlt|[Heq|Hgt]]; [|assumption|].
  - assert (DayFromYear (year_from_day d + 1) <= DayFromYear y).
    { destruct (Z.eq_dec (year_from_day d + 1) y) as [->|Hne]; [lia|].
      apply Z.lt_le_incl, DayFromYear_mono. lia. }
    lia.
  - assert (DayFromYear (y + 1) <= DayFromYear (year_from_day d)).
    { destruct (Z.eq_dec (y + 1) (year_from_day d)) as [->|Hne]; [lia|].
      apply Z.lt_le_incl, DayFromYear_mono. lia. }
    lia.
Qed.

Lemma dwy_bounds d :
  0 <= dwy_of_day d < 365 + leap_of (year_from_day d).
Proof.
  unfold dwy_of_day, leap_of. pose proof (year_from_day_spec d).
  rewrite DayFromYear_succ in H. lia.
Qed.

(** [MonthFromTime] picks the month whose days contain [w]. *)
Lemma month_of_dwy_spec leap w :
  0 <= leap <= 1 -> 0 <= w < 365 + leap ->
  0 <= month_of_dwy leap w <= 11
  /\ month_start leap (month_of_dwy leap w) <= w < month_start leap (month_of_dwy leap w + 1).
Proof.
  intros Hl Hw. assert (Hl' : leap = 0 \/ leap = 1) by lia.
  destruct Hl' as [->| ->]; unfold month_of_dwy; cbn [month_start Z.add Pos.add];
    repeat zcase; cbn; lia.
Qed.

Lemma month_start_mod m leap : 0 <= m < 12 -> month_start leap (m mod 12) = month_start leap m.
Proof. intros Hm. now rewrite Z.mod_small by lia. Qed.

(** Round trip: [MakeDay] of the year, month and date of a day is that
    day. *)
Lemma make_day_of_day d :
  make_day (year_of_day d) (month_of_day d) (date_of_day d) = d.
Proof.
  unfold make_day, date_of_day, month_of_day, year_of_day.
  pose proof (dwy_bounds d) as Hw. pose proof (leap_of_bounds (year_from_day d)) as Hl.
  destruct (month_of_dwy_spec _ _ Hl Hw) as [Hm _].
  rewrite Z.div_small, Z.add_0_r, month_start_mod by lia.
  unfold dwy_of_day. lia.
Qed.

(** C33: the closed form of [MakeDay] is the day the specification asks
    it to find: for a month [m] in [0..11] of year [y], the day's year
    is [y], its month [m] and its date [1]. *)
Lemma make_day_first_of_month y m :
  0 <= m < 12 ->
  year_of_day (make_day y m 1) = y /\ month_of_day (make_day y m 1) = m
  /\ date_of_day (make_day y m 1) = 1.
Proof.
  intros Hm. unfold make_day. rewrite Z.div_small, Z.add_0_r, Z.mod_small by lia.
  pose proof (leap_of_bounds y) as Hl. pose proof (DayFromYear_succ y) as Hs.
  assert (Hst : 0 <= month_start (leap_of y) m < 365 + leap_of y).
  { unfold leap_of in *. month_enum m Hm; cbn [month_start]; lia. }
  assert (Hy : year_from_day (DayFromYear y + month_start (leap_of y) m + 1 - 1) = y).
  { apply year_from_day_unique. unfold leap_of in *. lia. }
  unfold date_of_day, year_of_day, month_of_day, dwy_of_day. rewrite Hy.
  replace (DayFromYear y + month_start (leap_of y) m + 1 - 1 - DayFromYear y)
    with (month_start (leap_of y) m) by lia.
  assert (Hmo : forall l, 0 <= l <= 1 -> month_of_dwy l (month_start l m) = m).
  { intros l Hl0. assert (Hl1 : l = 0 \/ l = 1) by lia.
    destruct Hl1 as [-> | ->]; month_enum m Hm; reflexivity. }
  rewrite (Hmo _ Hl).
  repeat split; lia.
Qed.
End Calendar.

(** ** The due date *)

Lemma make_day_add_date y m dt k : make_day y m (dt + k) = make_day y m dt + k.
Proof. unfold make_day. lia. Qed.

(** [MakeDate] of the day and time of a local time value is that value. *)
Lemma make_date_day_time t : make_date (day_of t) (time_within_day t) = t.
Proof. unfold make_date, day_of, time_within_day, msPerDay. zlia. Qed.

(** [d.setDate(d.getDate() + k)] moves the local time of [d] by [k]
    whole days of 86,400,000 ms, whatever month it lands in, and reads
    the result back as a local time. *)
Lemma setDate_add_days (tz : time_zone) (t k : Z) :
  setDate tz (Some t) (option_map (fun d => d + k) (getDate tz (Some t)))
  = time_clip (utc_of_local tz (local_time tz t + k * msPerDay)).
Proof.
  unfold getDate, setDate. cbn [option_map].
  rewrite make_day_add_date, make_day_of_day. f_equal. f_equal.
  pose proof (make_date_day_time (local_time tz t)) as H.
  unfold make_date in *. lia.
Qed.

(** In a zone of fixed offset that is [k] days of 86,400,000 ms. *)
Lemma setDate_add_days_fixed (o t k : Z) :
  setDate (fixed_zone o) (Some t) (option_map (fun d => d + k) (getDate (fixed_zone o) (Some t)))
  = time_clip (t + k * msPerDay).
Proof. rewrite setDate_add_days. unfold utc_of_local, local_time. cbn. f_equal. lia. Qed.

(** C19: [dueDate.setDate(today.getDate() + 10)] gives a valid date whose
    local calendar day is exactly ten days after today's, across month
    and year ends alike, at the same local clock time, in any time zone,
    daylight-saving changes included: provided that clock time exists on
    the due day (it is not skipped by a change of offset) and the result
    lies in the range [TimeClip] allows. *)
Theorem due_date_ten_days_later (tz : time_zone) (t : Z) :
  let L := local_time tz t + 10 * msPerDay in
  offset_at_utc tz (utc_of_local tz L) = offset_at_local tz L ->
  Z.abs (utc_of_local tz L) <= 8640000000000000 ->
  exists u, due_date tz (Some t) = Some u
    /\ day_of (local_time tz u) = day_of (local_time tz t) + 10
    /\ time_within_day (local_time tz u) = time_within_day (local_time tz t).
Proof.
  intros L Hoff Hclip. subst L. exists (utc_of_local tz (local_time tz t + 10 * msPerDay)). split.
  - unfold due_date. rewrite setDate_add_days. unfold time_clip. apply Z.leb_le in Hclip.
    rewrite Hclip. reflexivity.
  - assert (HL : local_time tz (utc_of_local tz (local_time tz t + 10 * msPerDay))
                 = local_time tz t + 10 * msPerDay).
    { unfold local_time at 1. rewrite Hoff. unfold utc_of_local. lia. }
    rewrite HL. unfold day_of, time_within_day, msPerDay. split; zlia.
Qed.

(** A zone that moves its clocks forward one hour at the instant [T]
    (local times from [T] on are read with the new offset). *)
Definition dst_zone (T : Z) : time_zone :=
  mk_tz (fun u => if u <? T then 0 else 3600000) (fun l => if l <? T then 0 else 3600000).

(** Across the change the due date is ten calendar days later, but only
    nine days and 23 hours of elapsed time. *)
Example due_date_dst_shift :
  due_date (dst_zone (5 * msPerDay)) (Some 0) = Some (10 * msPerDay - 3600000).
Proof. vm_compute. reflexivity. Qed.

Lemma due_date_ten_days_later_witness :
  let tz := dst_zone (5 * msPerDay) in
  let L := local_time tz 0 + 10 * msPerDay in
  (offset_at_utc tz (utc_of_local tz L) = offset_at_local tz L
   /\ Z.abs (utc_of_local tz L) <= 8640000000000000)
  /\ exists u, due_date tz (Some 0) = Some u
       /\ day_of (local_time tz u) = day_of (local_time tz 0) + 10
       /\ time_within_day (local_time tz u) = time_within_day (local_time tz 0).
Proof.
  intros tz L.
  assert (H1 : offset_at_utc tz (utc_of_local tz L) = offset_at_local tz L) by (vm_compute; reflexivity).
  assert (H2 : Z.abs (utc_of_local tz L) <= 8640000000000000) by (vm_compute; discriminate).
  split; [split; assumption | exact (due_date_ten_days_later tz 0 H1 H2)].
Defined.

Lemma make_day_first_of_month_witness :
  (0 <= 1 < 12)
  /\ year_of_day (make_day 2024 1 1) = 2024 /\ month_of_day (make_day 2024 1 1) = 1
  /\ date_of_day (make_day 2024 1 1) = 1.
Proof.
  assert (H : 0 <= 1 < 12) by lia.
  split; [exact H | exact (make_day_first_of_month 2024 1 H)].
Defined.
