(* ===== verification/Format.v ===== *)
(** * [formatNumber] and [formatDate] (src/script.js lines 1-13)

    [formatNumber(n)] is [n.toFixed(2)] with the comma-grouping regex
    applied; [formatDate(d)] prints [DD/MM/YYYY] from the local date. *)

From Stdlib Require Import String ZArith List Lia Bool SpecFloat.
From S2P Require Import Prelude JsString JsNumber Dates.
Import ListNotations.
Local Open Scope Z_scope.
Local Open Scope js_scope.

(** [number.toFixed(2).toString().replace(/\B(?=(\d{3})+(?!\d))/g, ',')] *)
Definition formatNumber (x : num) : jsstr := group_thousands (toFixed 2 x).

(** [String(v)] of an integral Number, or of NaN. *)
Definition num_text (v : option Z) : jsstr :=
  match v with Some z => int_to_js z | None => «"NaN"» end.

Definition cu_slash : Z := 47.

(** [formatDate(date)], in the time zone [tz]. *)
Definition formatDate (tz : time_zone) (date : option Z) : jsstr :=
  let day := padStart 2 cu_zero (num_text (getDate tz date)) in
  let month := padStart 2 cu_zero
                 (num_text (option_map (fun m => m + 1) (getMonth tz date))) in
  let year := num_text (getFullYear tz date) in
  day ++ [cu_slash] ++ month ++ [cu_slash] ++ year.

(** ** toFixed(2) on a finite number *)

Definition digit_unit (n : Z) : Z := cu_zero + n mod 10.

Lemma dec_digits_two_last n :
  100 <= n ->
  dec_digits n = dec_digits (n / 100) ++ [digit_unit (n / 10); digit_unit n].
Proof.
  intros Hn. rewrite dec_digits_eq by lia. destruct (Z.ltb_spec n 10); [lia|].
  rewrite (dec_digits_eq (n / 10)) by (apply Z.div_pos; lia).
  destruct (Z.ltb_spec (n / 10) 10) as [H1|H1]; [zlia|].
  rewrite Z.div_div by lia. rewrite <- app_assoc. reflexivity.
Qed.

(** [fixed_digits n 2] is the integer part [n / 100], a point and the
    two last digits of [n] (zeros when [n] is small). *)
Lemma fixed_digits_2 n :
  0 <= n ->
  fixed_digits n 2 = dec_digits (n / 100) ++ [cu_dot; digit_unit (n / 10); digit_unit n].
Proof.
  intros Hn. unfold fixed_digits, digit_unit.
  destruct (Z.ltb_spec n 100) as [Hs|Hb].
  - rewrite (Z.div_small n 100) by lia.
    rewrite dec_digits_eq by lia. destruct (Z.ltb_spec n 10).
    + rewrite Z.div_small, (Z.mod_small n) by lia. reflexivity.
    + rewrite (dec_digits_eq (n / 10)) by (apply Z.div_pos; lia).
      assert (Hq : n / 10 < 10) by (apply Z.div_lt_upper_bound; lia).
      destruct (Z.ltb_spec (n / 10) 10); [|lia].
      rewrite (Z.mod_small (n / 10)) by (split; [apply Z.div_pos|]; lia). reflexivity.
  - rewrite dec_digits_two_last by lia. unfold digit_unit.
    set (q := dec_digits (n / 100)).
    assert (Hq : (1 <= length q)%nat).
    { destruct q eqn:E; [|simpl; lia]. exfalso.
      apply (dec_digits_nonempty (n / 100)); [apply Z.div_pos; lia | exact E]. }
    cbv zeta. rewrite !length_app. cbn [length].
    destruct (Nat.leb_spec (length q + 2) 2); [lia|].
    rewrite !length_app. cbn [length]. replace (length q + 2 - 2)%nat with (length q) by lia.
    rewrite firstn_app, skipn_app, Nat.sub_diag, firstn_all, skipn_all.
    rewrite app_nil_r. reflexivity.
Qed.

Lemma digit_unit_digit n : is_digit (digit_unit n) = true.
Proof. apply is_digit_of_val. apply Z.mod_pos_bound. lia. Qed.

(** The grouping regex on [digits . d d]: commas in the integer part only. *)
Lemma group_digits_point prev ds a b :
  word_before prev = false -> Forall (fun c => is_digit c = true) ds -> ds <> [] ->
  is_digit a = true -> is_digit b = true ->
  insert_commas_from prev (ds ++ [cu_dot; a; b]) = group3 ds ++ [cu_dot; a; b].
Proof.
  intros Hp Hds Hne Ha Hb. destruct ds as [|d ds]; [contradiction|].
  rewrite <- app_comm_cons, insert_commas_digits by (reflexivity || assumption).
  f_equal. apply insert_commas_fraction2; [|assumption|assumption].
  apply digit_word. apply (Forall_last (fun c => is_digit c = true)); [assumption|].
  inv Hds. assumption.
Qed.

(** [toFixed(2)] of a finite number below [10^21] in magnitude. *)
Lemma toFixed2_finite s m e :
  at_least_1e21 (Zpos m) e = false ->
  let n := scaled_round (Zpos m) e 2 in
  toFixed 2 (S754_finite s m e)
  = (if s then [cu_minus] else [])
      ++ dec_digits (n / 100) ++ [cu_dot; digit_unit (n / 10); digit_unit n].
Proof.
  intros Hsmall n. unfold toFixed. rewrite Hsmall. fold n.
  rewrite fixed_digits_2 by (apply scaled_round_nonneg; lia). reflexivity.
Qed.

(** C11: [formatNumber] of a finite number below [10^21] in magnitude is
    its sign, the integer part of [n / 100] with a comma before every
    group of three digits counted from the point, a point and the last
    two digits of [n], where [n] is [|x| * 100] rounded half up. *)
Theorem formatNumber_finite s m e :
  at_least_1e21 (Zpos m) e = false ->
  let n := scaled_round (Zpos m) e 2 in
  formatNumber (S754_finite s m e)
  = (if s then [cu_minus] else [])
      ++ group3 (dec_digits (n / 100)) ++ [cu_dot; digit_unit (n / 10); digit_unit n].
Proof.
  intros Hsmall n. unfold formatNumber. rewrite toFixed2_finite by assumption. fold n.
  assert (Hn : 0 <= n) by (apply scaled_round_nonneg; lia).
  assert (Hq : 0 <= n / 100) by (apply Z.div_pos; lia).
  unfold group_thousands.
  destruct s; cbn [app].
  - cbn [insert_commas_from]. unfold comma_match_at at 1. cbn [word_before word_after].
    unfold groups_ahead. cbn [digit_run].
    replace (is_digit cu_minus) with false by reflexivity.
    replace (is_word_char cu_minus) with false by reflexivity.
    cbn [Bool.eqb Nat.ltb Nat.leb andb app].
    f_equal. apply group_digits_point; auto using dec_digits_digits, dec_digits_nonempty, digit_unit_digit.
  - apply group_digits_point; auto using dec_digits_digits, dec_digits_nonempty, digit_unit_digit.
Qed.

(** The example of the specification: an invoice dated 25/12/2024
    (noon UTC, 13:00 in Lagos, UTC+1 all year) shows the due date
    04/01/2025, across the year end. *)
Example formatDate_due_rollover :
  let today := Some (make_date (make_day 2024 11 25) 43200000) in
  let lagos := fixed_zone 3600000 in
  formatDate lagos today = «"25/12/2024"» /\ formatDate lagos (due_date lagos today) = «"04/01/2025"».
Proof. vm_compute. split; reflexivity. Qed.

(** Adding [+0] never changes what [formatNumber] prints: only [-0]
    changes (to [+0]), and both print [0.00]. *)
Lemma formatNumber_add_pzero x : formatNumber (num_add x pzero) = formatNumber x.
Proof. destruct x as [[]|[]| |[] m e]; reflexivity. Qed.

Lemma insert_commas_numeral prev s :
  Forall (fun c => numeral_char c = true) s ->
  Forall (fun c => numeral_char c = true) (insert_commas_from prev s).
Proof.
  revert prev. induction s as [|c r IH]; intros prev H; cbn [insert_commas_from].
  - destruct (comma_match_at _ _); repeat constructor.
  - inv H. apply Forall_app. split; [destruct (comma_match_at _ _); repeat constructor|].
    constructor; [assumption | apply IH; assumption].
Qed.

(** C31: whatever the number, [formatNumber] prints only digits, commas,
    [.], [-], [+], [e] and the letters of [Infinity] and [NaN]: no
    character that HTML markup or an entity could start with. *)
Theorem formatNumber_numerals x : Forall (fun c => numeral_char c = true) (formatNumber x).
Proof. apply insert_commas_numeral, toFixed_numeral. Qed.

Lemma formatNumber_finite_witness :
  at_least_1e21 (Zpos 5429388417957888) (-42) = false
  /\ let n := scaled_round (Zpos 5429388417957888) (-42) 2 in
     formatNumber (S754_finite false 5429388417957888 (-42))
     = [] ++ group3 (dec_digits (n / 100)) ++ [cu_dot; digit_unit (n / 10); digit_unit n].
Proof.
  assert (H : at_least_1e21 (Zpos 5429388417957888) (-42) = false) by reflexivity.
  split; [exact H | exact (formatNumber_finite false _ _ H)].
Defined.
