(* ===== verification/Page.v ===== *)
(** * The page: the DOM state the script reads and writes

    The elements the handlers touch, by their [id]s in [src/script.js]:
    the form fields (read through [.value]), the invoice's text spans
    (written through [.textContent]), the inline styles the handlers set,
    the rows of [#itemsPreviewTable] and of the [tbody] of [#invoiceTable]
    (each row as the text of its cells, [row.children[i].textContent]),
    the [alert] messages shown, the entries written to the console by
    [console.log] (lines 24, 155, 224) and the scroll position set by
    [window.scrollTo] (line 191).  The closure variable [itemCount] of
    the [DOMContentLoaded] callback is part of the application state.

    The interface [TotalsRenderer] is what the handlers need of
    [updateTotals]; [Totals] implements it. *)

From Stdlib Require Import String ZArith List Lia Bool.
From S2P Require Import Prelude JsString JsNumber.
Import ListNotations.
Local Open Scope Z_scope.
Local Open Scope js_scope.

(** Elements whose [.value] or [.textContent] the script uses. *)
Inductive elem :=
  | productInput | gradeInput | unitPriceInput | quantityInput | taxInput
  | clientNameInput | clientAddressInput | clientPhoneInput | invoiceNumberInput
  | subtotal | tax | total
  | clientName | clientAddress | clientPhone | invoiceNo | invoiceDate | dueDate.

Scheme Equality for elem.

(** Inline style properties the handlers set ([element.style.prop], and
    [body.className]). *)
Inductive style_key :=
  | StepClientDisplay | StepPreviewDisplay
  | BodyDisplay | BodyAlignItems | BodyJustifyContent
  | BodyClassName | BodyPadding | BodyMargin
  | InvoiceWidth | InvoiceMargin | InvoicePadding.

Scheme Equality for style_key.

(** A table row: the text of its cells, [row.children] in order. *)
Definition row := list jsstr.

(** An argument of [console.log]: the script logs strings and numbers. *)
Inductive log_arg := LogStr (s : jsstr) | LogNum (x : num).

(** One call of [console.log], its arguments in order. *)
Definition log_entry := list log_arg.

Record page := mk_page {
  text : elem -> jsstr;
  style : style_key -> jsstr;
  items_table : list row;
  invoice_table : option (list row);
  alerts : list jsstr;
  console : list log_entry;
  scroll : Z * Z
}.

Definition set_text (e : elem) (v : jsstr) (p : page) : page :=
  mk_page (fun e' => if elem_beq e e' then v else text p e')
          (style p) (items_table p) (invoice_table p) (alerts p)
          (console p) (scroll p).

Definition set_style (k : style_key) (v : jsstr) (p : page) : page :=
  mk_page (text p) (fun k' => if style_key_beq k k' then v else style p k')
          (items_table p) (invoice_table p) (alerts p)
          (console p) (scroll p).

(** [tbody.appendChild(row)] on [#itemsPreviewTable]. *)
Definition append_item_row (r : row) (p : page) : page :=
  mk_page (text p) (style p) (items_table p ++ [r]) (invoice_table p) (alerts p)
          (console p) (scroll p).

Definition set_invoice_rows (rs : list row) (p : page) : page :=
  mk_page (text p) (style p) (items_table p) (Some rs) (alerts p)
          (console p) (scroll p).

(** [alert(msg)] *)
Definition push_alert (msg : jsstr) (p : page) : page :=
  mk_page (text p) (style p) (items_table p) (invoice_table p) (alerts p ++ [msg])
          (console p) (scroll p).

(** [console.log(args...)] *)
Definition console_log (args : log_entry) (p : page) : page :=
  mk_page (text p) (style p) (items_table p) (invoice_table p) (alerts p)
          (console p ++ [args]) (scroll p).

(** [window.scrollTo(x, y)] *)
Definition scroll_to (x y : Z) (p : page) : page :=
  mk_page (text p) (style p) (items_table p) (invoice_table p) (alerts p) (console p) (x, y).

(** The three spans [updateTotals] writes. *)
Definition is_totals_span (e : elem) : bool :=
  match e with subtotal | tax | total => true | _ => false end.

(** A row [updateTotals] can read: it has a fifth cell. *)
Definition row_ok (r : row) : Prop := (5 <= length r)%nat.

(** ** What the handlers need of [updateTotals]

    It leaves the item rows, every text but the three totals, the styles
    and the alerts as they are, and it does not throw on rows that all
    have a fifth cell. *)
Class TotalsRenderer := {
  render_totals : js_m page unit;
  render_items : forall p, items_table (exec render_totals p) = items_table p;
  render_text : forall p e, is_totals_span e = false -> text (exec render_totals p) e = text p e;
  render_style : forall p, style (exec render_totals p) = style p;
  render_alerts : forall p, alerts (exec render_totals p) = alerts p;
  render_normal : forall p, Forall row_ok (items_table p) -> fst (render_totals p) = Normal tt
}.

(** ** Setter lemmas *)

Lemma text_set_text_eq e v p : text (set_text e v p) e = v.
Proof. unfold set_text. cbn. destruct e; reflexivity. Qed.

Lemma text_set_text_ne e e' v p : e <> e' -> text (set_text e v p) e' = text p e'.
Proof.
  intros H. unfold set_text. cbn. destruct (elem_beq e e') eqn:E; [|reflexivity].
  apply internal_elem_dec_bl in E. contradiction.
Qed.

Lemma style_set_style_eq k v p : style (set_style k v p) k = v.
Proof. unfold set_style. cbn. destruct k; reflexivity. Qed.

Lemma style_set_style_ne k k' v p : k <> k' -> style (set_style k v p) k' = style p k'.
Proof.
  intros H. unfold set_style. cbn. destruct (style_key_beq k k') eqn:E; [|reflexivity].
  apply internal_style_key_dec_bl in E. contradiction.
Qed.

#[export] Hint Rewrite text_set_text_eq style_set_style_eq : invoice_rw.

(** ** The application state: the page and the closure variable
    [itemCount] (line 68). *)
Record app_state := mk_app { pg : page; itemCount : Z }.

(** Run a computation on the page alone. *)
Definition on_page {A} (c : js_m page A) : js_m app_state A :=
  fun a => let '(o, p) := c (pg a) in (o, mk_app p (itemCount a)).

(** [alert(msg)] from a handler. *)
Definition alert (msg : jsstr) : js_m app_state unit :=
  modify (fun a => mk_app (push_alert msg (pg a)) (itemCount a)).

(** A page with the given field texts and item rows, no style set, an
    empty [#invoiceTable], no alert, an empty console, scrolled to the
    top: the fixture of the examples. *)
Definition fixture_page (fields : elem -> jsstr) (rows : list row) : page :=
  mk_page fields (fun _ => []) rows (Some []) [] [] (0, 0).

(** Rewrite reads of texts and styles through the setters. *)
Ltac page_simpl :=
  repeat (rewrite text_set_text_eq || rewrite text_set_text_ne by discriminate
          || rewrite style_set_style_eq || rewrite style_set_style_ne by discriminate).
