(* ===== verification/Totals.v ===== *)
(** * [updateTotals] (src/script.js lines 16-61)

    The subtotal is re-read from the text of the fifth cell of every row
    of [#itemsPreviewTable]: trimmed, stripped of [₦], commas and white
    space, parsed by [parseFloat], [|| 0].  The tax is [parseFloat] of the
    tax field [|| 0]; the total their sum.  The three are written through
    [formatNumber].  When the page has an [#invoiceTable], its body is
    replaced by copies of the item rows followed by blank rows up to five
    rows.  Each row read logs [Amount:], its trimmed text, [→] and the
    amount to the console (line 24).  A row without a fifth cell makes
    [row.children[4].textContent] throw a [TypeError]: the rows before it
    have been logged, nothing else is written.  The [tbody] of
    [#invoiceTable] is assumed to exist. *)

From Stdlib Require Import String ZArith List Lia Bool SpecFloat.
From S2P Require Import Prelude JsString JsNumber Format Page.
Import ListNotations.
Local Open Scope Z_scope.
Local Open Scope js_scope.

(** Lines 20-23: the amount of a row, from its cell text. *)
Definition amount_of_text (amountText : jsstr) : num :=
  or_zero (parseFloat (replace_class_all amount_junk (trim amountText))).

Definition no_fifth_cell : js_error :=
  TypeError «"Cannot read properties of undefined (reading 'textContent')"».

(** Lines 17-26: [subtotal += amount] over the rows, in order: the
    value.  [sum_rows_log] below is the loop with its console output. *)
Fixpoint sum_rows (rows : list row) (acc : num) : outcome num :=
  match rows with
  | [] => Normal acc
  | r :: rs =>
      match nth_error r 4 with
      | None => Thrown no_fifth_cell
      | Some amountText => sum_rows rs (num_add acc (amount_of_text amountText))
      end
  end.

(** Line 24: [console.log('Amount:', amountText, '→', amount)]. *)
Definition amount_log (cell : jsstr) : log_entry :=
  [LogStr «"Amount:"»; LogStr (trim cell); LogStr [8594]; LogNum (amount_of_text cell)].

(** Lines 18-26: the [forEach] loop, logging each row it reads. *)
Fixpoint sum_rows_log (rows : list row) (acc : num) : js_m page num :=
  match rows with
  | [] => ret acc
  | r :: rs =>
      match nth_error r 4 with
      | None => throw no_fifth_cell
      | Some cell =>
          modify (console_log (amount_log cell)) ;;
          sum_rows_log rs (num_add acc (amount_of_text cell))
      end
  end.

(** The entries the loop logs: one per row, up to the first row without
    a fifth cell. *)
Fixpoint amount_logs (rows : list row) : list log_entry :=
  match rows with
  | [] => []
  | r :: rs => match nth_error r 4 with None => [] | Some cell => amount_log cell :: amount_logs rs end
  end.

Definition log_all (es : list log_entry) (p : page) : page :=
  mk_page (text p) (style p) (items_table p) (invoice_table p) (alerts p) (console p ++ es) (scroll p).

(** Lines 50-57: a row of five [&nbsp;] cells. *)
Definition placeholder_row : row := repeat [cu_nbsp] 5.

(** Lines 36-59. *)
Definition copy_to_invoice (p : page) : page :=
  match invoice_table p with
  | None => p
  | Some _ =>
      let copied := items_table p in
      let emptyRowsNeeded := 5 - Z.of_nat (length copied) in
      set_invoice_rows (copied ++ repeat placeholder_row (Z.to_nat emptyRowsNeeded)) p
  end.

Definition updateTotals : js_m page unit :=
  p0 <- get ;;
  sub <- sum_rows_log (items_table p0) pzero ;;
  p <- get ;;
  let tx := or_zero (parseFloat (text p taxInput)) in
  let tot := num_add sub tx in
  put (set_text total (formatNumber tot)
         (set_text tax (formatNumber tx)
            (set_text subtotal (formatNumber sub) p))) ;;
  modify copy_to_invoice.

(** ** The loop: its value and its log *)

Lemma log_all_app es es' p : log_all es' (log_all es p) = log_all (es ++ es') p.
Proof. unfold log_all. cbn. rewrite app_assoc. reflexivity. Qed.

Lemma sum_rows_log_run rows acc p :
  sum_rows_log rows acc p = (sum_rows rows acc, log_all (amount_logs rows) p).
Proof.
  revert acc p. induction rows as [|r rs IH]; intros acc p; cbn [sum_rows_log sum_rows amount_logs].
  - unfold ret, log_all. rewrite app_nil_r. destruct p; reflexivity.
  - destruct (nth_error r 4) as [cell|].
    + unfold bind, modify. rewrite IH. f_equal. unfold log_all, console_log. cbn.
      rewrite <- app_assoc. reflexivity.
    + unfold throw, log_all. rewrite app_nil_r. destruct p; reflexivity.
Qed.

(** The page after the loop has logged the rows it read. *)
Definition logged (p : page) : page := log_all (amount_logs (items_table p)) p.

(** ** [updateTotals] implements [TotalsRenderer] *)

Lemma sum_rows_ok rows acc :
  Forall row_ok rows -> exists v, sum_rows rows acc = Normal v.
Proof.
  revert acc. induction rows as [|r rs IH]; intros acc H; [exists acc; reflexivity|].
  apply Forall_cons_iff in H as [Hr Hrs]. cbn [sum_rows].
  destruct (nth_error r 4) eqn:E; [apply IH; assumption|].
  apply nth_error_None in E. unfold row_ok in *. lia.
Qed.

(** The run of [updateTotals] when the rows sum to [sub]. *)
Lemma updateTotals_run p sub :
  sum_rows (items_table p) pzero = Normal sub ->
  updateTotals p =
  (Normal tt,
   copy_to_invoice
     (set_text total (formatNumber (num_add sub (or_zero (parseFloat (text p taxInput)))))
        (set_text tax (formatNumber (or_zero (parseFloat (text p taxInput))))
           (set_text subtotal (formatNumber sub) (logged p))))).
Proof. intros H. unfold updateTotals, bind, get. rewrite sum_rows_log_run, H. reflexivity. Qed.

Lemma updateTotals_thrown p e :
  sum_rows (items_table p) pzero = Thrown e -> updateTotals p = (Thrown e, logged p).
Proof. intros H. unfold updateTotals, bind, get. rewrite sum_rows_log_run, H. reflexivity. Qed.

Lemma updateTotals_cases p :
  (exists sub, sum_rows (items_table p) pzero = Normal sub /\
     updateTotals p = (Normal tt,
       copy_to_invoice
         (set_text total (formatNumber (num_add sub (or_zero (parseFloat (text p taxInput)))))
            (set_text tax (formatNumber (or_zero (parseFloat (text p taxInput))))
               (set_text subtotal (formatNumber sub) (logged p))))))
  \/ (exists e, updateTotals p = (Thrown e, logged p)).
Proof.
  destruct (sum_rows (items_table p) pzero) as [sub|e] eqn:E.
  - left. exists sub. split; [reflexivity|]. apply updateTotals_run. assumption.
  - right. exists e. apply updateTotals_thrown. assumption.
Qed.

Lemma copy_to_invoice_frame p :
  items_table (copy_to_invoice p) = items_table p /\ text (copy_to_invoice p) = text p
  /\ style (copy_to_invoice p) = style p /\ alerts (copy_to_invoice p) = alerts p.
Proof. unfold copy_to_invoice. destruct (invoice_table p); repeat split. Qed.

Ltac totals_frame p :=
  unfold exec; destruct (updateTotals_cases p) as [[sub [_ ->]]|[err ->]]; cbn [snd];
  [pose proof (copy_to_invoice_frame
     (set_text total (formatNumber (num_add sub (or_zero (parseFloat (text p taxInput)))))
        (set_text tax (formatNumber (or_zero (parseFloat (text p taxInput))))
           (set_text subtotal (formatNumber sub) (logged p))))) as (Hi & Ht & Hs & Ha) | ].

#[export] Instance updateTotals_renderer : TotalsRenderer.
Proof.
  refine {| render_totals := updateTotals |}.
  - intros p. totals_frame p; [rewrite Hi|]; reflexivity.
  - intros p e He. totals_frame p; [|reflexivity]. rewrite Ht.
    rewrite !text_set_text_ne; [reflexivity| | |]; intros Heq; subst e; discriminate He.
  - intros p. totals_frame p; [rewrite Hs|]; reflexivity.
  - intros p. totals_frame p; [rewrite Ha|]; reflexivity.
  - intros p Hok. destruct (sum_rows_ok _ pzero Hok) as [sub Hs].
    rewrite (updateTotals_run _ _ Hs). reflexivity.
Defined.

(** ** Reading back a rendered amount *)

Lemma digit_val_unit k : digit_val (digit_unit k) = k mod 10.
Proof. unfold digit_val, digit_unit. lia. Qed.

Lemma digit_not_junk c : is_digit c = true -> amount_junk c = false.
Proof.
  intros H. unfold amount_junk. rewrite digit_not_space by assumption.
  rewrite !(Z.eqb_sym c). rewrite !digit_neq by (assumption || (unfold cu_naira, cu_comma; lia)).
  reflexivity.
Qed.

(** The digits of [n / 100] followed by the two last digits of [n] read
    back as [n]. *)
Lemma digits_value_cents n :
  0 <= n ->
  digits_value (dec_digits (n / 100) ++ [digit_unit (n / 10); digit_unit n]) = n.
Proof.
  intros Hn. rewrite digits_value_app, digits_value_dec by (apply Z.div_pos; lia).
  cbn [fold_left]. unfold digits_step. rewrite !digit_val_unit. zlia.
Qed.

(** C10: the amount [updateTotals] reads back from a cell rendered as
    [₦ + formatNumber(x)] is the binary64 number nearest to [x] rounded
    half up to cents ([n / 100] with [n = round(|x| * 100)]), for every
    finite [x] below [10^21] in magnitude: the subtotal is a sum of
    rounded amounts. *)
Theorem amount_text_roundtrip s m e :
  at_least_1e21 (Zpos m) e = false ->
  amount_of_text (cu_naira :: formatNumber (S754_finite s m e))
  = or_zero (round_decimal s (scaled_round (Zpos m) e 2) (-2)).
Proof.
  intros Hsmall. unfold amount_of_text. f_equal.
  rewrite strip_trim by exact amount_junk_space.
  unfold formatNumber, group_thousands, replace_class_all. cbn [filter].
  replace (amount_junk cu_naira) with true by reflexivity. cbn [negb].
  fold (replace_class_all amount_junk (insert_commas_from None (toFixed 2 (S754_finite s m e)))).
  rewrite strip_insert_commas, toFixed2_finite by assumption.
  set (n := scaled_round (Zpos m) e 2).
  assert (Hn : 0 <= n) by (apply scaled_round_nonneg; lia).
  assert (Hdig := dec_digits_digits (n / 100) (Z.div_pos n 100 Hn ltac:(lia))).

  destruct (dec_digits (n / 100)) as [|d ds] eqn:Eq.
  { exfalso. apply (dec_digits_nonempty (n / 100)); [apply Z.div_pos; lia | exact Eq]. }
  unfold replace_class_all. rewrite filter_all.
  - rewrite parseFloat_fixed2 by (assumption || apply digit_unit_digit).
    change (d :: ds ++ ?t) with ((d :: ds) ++ t). rewrite <- Eq, digits_value_cents by assumption.
    reflexivity.
  - apply Forall_app. split; [destruct s; repeat constructor|].
    apply Forall_app. split.
    + apply (Forall_impl _ (fun c H => f_equal negb (digit_not_junk c H))). exact Hdig.
    + repeat constructor; cbn [negb]; rewrite ?digit_not_junk by apply digit_unit_digit; reflexivity.
Qed.

(** ** What [updateTotals] writes *)

(** The subtotal of lines 17-26 over rows that all have a fifth cell. *)
Definition subtotal_of (rows : list row) : num :=
  fold_left (fun acc (r : row) => num_add acc (amount_of_text (nth 4 r []))) rows pzero.

Lemma sum_rows_fold rows acc :
  Forall row_ok rows ->
  sum_rows rows acc
  = Normal (fold_left (fun acc (r : row) => num_add acc (amount_of_text (nth 4 r []))) rows acc).
Proof.
  revert acc. induction rows as [|r rs IH]; intros acc H; [reflexivity|].
  apply Forall_cons_iff in H as [Hr Hrs]. cbn [sum_rows fold_left].
  destruct (nth_error r 4) as [txt|] eqn:E.
  - rewrite (nth_error_nth r 4 [] E). apply IH. assumption.
  - apply nth_error_None in E. unfold row_ok in Hr. lia.
Qed.

(** On readable rows, the texts [updateTotals] leaves: the three spans
    set from the in-order subtotal and the tax field. *)
Lemma updateTotals_text p :
  Forall row_ok (items_table p) ->
  let sub := subtotal_of (items_table p) in
  let tx := or_zero (parseFloat (text p taxInput)) in
  fst (updateTotals p) = Normal tt
  /\ text (exec updateTotals p)
     = text (set_text total (formatNumber (num_add sub tx))
              (set_text tax (formatNumber tx) (set_text subtotal (formatNumber sub) p))).
Proof.
  intros Hok sub tx. unfold exec.
  rewrite (updateTotals_run p sub) by (apply sum_rows_fold; assumption). cbn [fst snd].
  split; [reflexivity|]. rewrite (proj1 (proj2 (copy_to_invoice_frame _))). reflexivity.
Qed.

(** On readable rows, the invoice table [updateTotals] leaves: the item
    rows, then [5 - n] blank rows. *)
Lemma updateTotals_invoice p old :
  Forall row_ok (items_table p) -> invoice_table p = Some old ->
  invoice_table (exec updateTotals p)
  = Some (items_table p ++ repeat placeholder_row (Z.to_nat (5 - Z.of_nat (length (items_table p))))).
Proof.
  intros Hok Hinv. unfold exec.
  rewrite (updateTotals_run p (subtotal_of (items_table p))) by (apply sum_rows_fold; assumption).
  cbn [snd]. unfold copy_to_invoice. cbn [invoice_table set_text logged log_all]. rewrite Hinv. reflexivity.
Qed.

(** The loop stops at the first row without a fifth cell. *)
Lemma sum_rows_short rows acc :
  Exists (fun r => (length r < 5)%nat) rows -> sum_rows rows acc = Thrown no_fifth_cell.
Proof.
  intros Hex. revert acc.
  induction Hex as [r rs Hr|r rs _ IH]; intros acc; cbn [sum_rows].
  - replace (nth_error r 4) with (@None jsstr) by (symmetry; apply nth_error_None; lia).
    reflexivity.
  - destruct (nth_error r 4); [apply IH | reflexivity].
Qed.

(** Whatever the rows, [updateTotals] adds to the console exactly the
    entries of the rows its loop read. *)
Lemma updateTotals_console_logged p :
  console (exec updateTotals p) = console p ++ amount_logs (items_table p).
Proof.
  unfold exec. destruct (updateTotals_cases p) as [[sub [_ ->]]|[err ->]]; cbn [snd];
    [unfold copy_to_invoice; destruct (invoice_table _)|]; reflexivity.
Qed.

Lemma amount_logs_map rows :
  Forall row_ok rows -> amount_logs rows = map (fun r : row => amount_log (nth 4 r [])) rows.
Proof.
  induction rows as [|r rs IH]; intros H; [reflexivity|].
  apply Forall_cons_iff in H as [Hr Hrs]. cbn [amount_logs map].
  destruct (nth_error r 4) as [txt|] eqn:E.
  - rewrite (nth_error_nth r 4 [] E), IH by exact Hrs. reflexivity.
  - apply nth_error_None in E. unfold row_ok in Hr. lia.
Qed.

(** C12: on rows that all have a fifth cell [updateTotals] completes and
    writes [formatNumber] of the subtotal (the rows' amounts added in
    order from 0), of the tax ([parseFloat] of the tax field, [|| 0]) and
    of their sum into [#subtotal], [#tax] and [#total]. *)
Theorem updateTotals_totals p :
  Forall row_ok (items_table p) ->
  let sub := subtotal_of (items_table p) in
  let tx := or_zero (parseFloat (text p taxInput)) in
  fst (updateTotals p) = Normal tt
  /\ text (exec updateTotals p) subtotal = formatNumber sub
  /\ text (exec updateTotals p) tax = formatNumber tx
  /\ text (exec updateTotals p) total = formatNumber (num_add sub tx).
Proof.
  intros Hok sub tx. destruct (updateTotals_text p Hok) as [Hn Ht]. rewrite Ht.
  repeat split; [exact Hn | ..]; rewrite ?text_set_text_ne by discriminate; apply text_set_text_eq.
Qed.

(** C15: a row without a fifth cell makes [updateTotals] throw before it
    writes any total or invoice row: the page only gains the console
    entries of the rows read before that row. *)
Theorem updateTotals_short_row p :
  Exists (fun r => (length r < 5)%nat) (items_table p) ->
  updateTotals p = (Thrown no_fifth_cell, logged p).
Proof.
  intros Hex. apply updateTotals_thrown, sum_rows_short, Hex.
Qed.

(** C13: when the page has an [#invoiceTable] and at most five item rows,
    its body ends up with exactly five rows: copies of the item rows in
    order, then blank rows. *)
Theorem updateTotals_invoice_rows p old :
  Forall row_ok (items_table p) -> invoice_table p = Some old ->
  (length (items_table p) <= 5)%nat ->
  exists rs, invoice_table (exec updateTotals p) = Some rs
    /\ length rs = 5%nat /\ firstn (length (items_table p)) rs = items_table p
    /\ Forall (fun r => r = placeholder_row) (skipn (length (items_table p)) rs).
Proof.
  intros Hok Hinv Hlen. rewrite (updateTotals_invoice p old Hok Hinv).
  eexists. split; [reflexivity|]. rewrite length_app, repeat_length.
  rewrite firstn_app, skipn_app, Nat.sub_diag, firstn_all, skipn_all, app_nil_r. cbn [firstn skipn].
  split; [lia|]. split; [rewrite ?app_nil_r; reflexivity|].
  cbn [app]. apply Forall_forall. intros r Hr. apply repeat_spec in Hr. exact Hr.
Qed.

(** C14: a tax field that does not parse as a number counts as 0: the
    invoice shows a tax of [0.00] and a total equal to the subtotal. *)
Theorem updateTotals_bad_tax p :
  Forall row_ok (items_table p) -> parseFloat (text p taxInput) = S754_nan ->
  text (exec updateTotals p) tax = «"0.00"»
  /\ text (exec updateTotals p) total = text (exec updateTotals p) subtotal.
Proof.
  intros Hok Hnan. rewrite (proj2 (updateTotals_text p Hok)).
  rewrite !text_set_text_ne, !text_set_text_eq by discriminate.
  rewrite Hnan. cbn [or_zero to_boolean].
  split; [reflexivity | apply formatNumber_add_pzero].
Qed.

(** C35: on rows that all have a fifth cell, [updateTotals] appends to
    the console one entry per row of the items table, in table order:
    ["Amount:"], the trimmed text of the row's fifth cell, ["→"] and the
    number that text parses to, the very number the loop adds to the
    subtotal. *)
Theorem updateTotals_console p :
  Forall row_ok (items_table p) ->
  console (exec updateTotals p)
  = console p ++ map (fun r : row => [LogStr «"Amount:"»; LogStr (trim (nth 4 r []));
                                      LogStr [8594]; LogNum (amount_of_text (nth 4 r []))])
                     (items_table p).
Proof. intros Hok. rewrite updateTotals_console_logged, amount_logs_map by exact Hok. reflexivity. Qed.

Lemma updateTotals_bad_tax_witness :
  let p := mk_page (fun e => if elem_beq e taxInput then «"abc"» else [])
                   (fun _ => []) [] None [] [] (0, 0) in
  (Forall row_ok (items_table p) /\ parseFloat (text p taxInput) = S754_nan)
  /\ text (exec updateTotals p) tax = «"0.00"»
  /\ text (exec updateTotals p) total = text (exec updateTotals p) subtotal.
Proof.
  intros p. assert (H : Forall row_ok (items_table p) /\ parseFloat (text p taxInput) = S754_nan)
    by (split; [constructor | vm_compute; reflexivity]).
  split; [exact H | apply (updateTotals_bad_tax p (proj1 H) (proj2 H))].
Defined.

(** The example of the specification: rows of [₦100.00] and
    [₦250.50] with the tax field [25] give a subtotal of [350.50], a tax
    of [25.00] and a total of [375.50]. *)
Example updateTotals_spec_example :
  let row1 := [«"Maize"»; «"A"»; cu_naira :: «"50.00"»; «"2"»; cu_naira :: «"100.00"»] in
  let row2 := [«"Soya"»; «"B"»; cu_naira :: «"250.50"»; «"1"»; cu_naira :: «"250.50"»] in
  let p := mk_page (fun e => if elem_beq e taxInput then «"25"» else [])
                   (fun _ => []) [row1; row2] None [] [] (0, 0) in
  text (exec updateTotals p) subtotal = «"350.50"»
  /\ text (exec updateTotals p) tax = «"25.00"»
  /\ text (exec updateTotals p) total = «"375.50"».
Proof. vm_compute. repeat split. Qed.

(** A negative tax is not rejected (an instance of [updateTotals_totals]): the tax field [-5] on a ledger
    of [₦100.00] shows a tax of [-5.00] and a total of [95.00] below the
    subtotal, where the specification's TotalsSnapshot has a tax of at
    least zero. *)
Example updateTotals_negative_tax :
  let row1 := [«"Maize"»; «"A"»; cu_naira :: «"50.00"»; «"2"»; cu_naira :: «"100.00"»] in
  let p := mk_page (fun e => if elem_beq e taxInput then «"-5"» else [])
                   (fun _ => []) [row1] None [] [] (0, 0) in
  text (exec updateTotals p) subtotal = «"100.00"»
  /\ text (exec updateTotals p) tax = «"-5.00"»
  /\ text (exec updateTotals p) total = «"95.00"».
Proof. vm_compute. repeat split. Qed.

Lemma amount_text_roundtrip_witness :
  at_least_1e21 (Zpos 5429388417957888) (-42) = false
  /\ amount_of_text (cu_naira :: formatNumber (S754_finite false 5429388417957888 (-42)))
     = or_zero (round_decimal false (scaled_round (Zpos 5429388417957888) (-42) 2) (-2)).
Proof.
  assert (H : at_least_1e21 (Zpos 5429388417957888) (-42) = false) by reflexivity.
  split; [exact H | exact (amount_text_roundtrip false _ _ H)].
Defined.

(** A row as "Add Item" renders it. *)
Definition sample_row : row :=
  [«"Maize"»; «"A"»; cu_naira :: «"50.00"»; «"2"»; cu_naira :: «"100.00"»].

Lemma updateTotals_totals_witness :
  let p := fixture_page (fun _ => «"7.5"») [sample_row] in
  Forall row_ok (items_table p)
  /\ let sub := subtotal_of (items_table p) in
     let tx := or_zero (parseFloat (text p taxInput)) in
     fst (updateTotals p) = Normal tt
     /\ text (exec updateTotals p) subtotal = formatNumber sub
     /\ text (exec updateTotals p) tax = formatNumber tx
     /\ text (exec updateTotals p) total = formatNumber (num_add sub tx).
Proof.
  intros p. assert (H : Forall row_ok (items_table p)) by (repeat constructor).
  split; [exact H | exact (updateTotals_totals p H)].
Defined.

Lemma updateTotals_short_row_witness :
  let p := fixture_page (fun _ => []) [sample_row; [«"x"»]] in
  Exists (fun r => (length r < 5)%nat) (items_table p)
  /\ updateTotals p = (Thrown no_fifth_cell, logged p).
Proof.
  intros p. assert (H : Exists (fun r => (length r < 5)%nat) (items_table p))
    by (apply Exists_cons_tl, Exists_cons_hd; cbn; lia).
  split; [exact H | exact (updateTotals_short_row p H)].
Defined.

Lemma updateTotals_invoice_rows_witness :
  let p := fixture_page (fun _ => []) [sample_row] in
  (Forall row_ok (items_table p) /\ invoice_table p = Some [] /\ (length (items_table p) <= 5)%nat)
  /\ exists rs, invoice_table (exec updateTotals p) = Some rs
       /\ length rs = 5%nat /\ firstn (length (items_table p)) rs = items_table p
       /\ Forall (fun r => r = placeholder_row) (skipn (length (items_table p)) rs).
Proof.
  intros p. assert (H1 : Forall row_ok (items_table p)) by (repeat constructor).
  assert (H2 : invoice_table p = Some []) by reflexivity.
  assert (H3 : (length (items_table p) <= 5)%nat) by (cbn; lia).
  split; [auto | exact (updateTotals_invoice_rows p [] H1 H2 H3)].
Defined.

Lemma updateTotals_console_witness :
  let p := fixture_page (fun _ => []) [sample_row; sample_row] in
  Forall row_ok (items_table p)
  /\ console (exec updateTotals p)
     = console p ++ map (fun r : row => [LogStr «"Amount:"»; LogStr (trim (nth 4 r []));
                                         LogStr [8594]; LogNum (amount_of_text (nth 4 r []))])
                        (items_table p).
Proof.
  intros p. assert (H : Forall row_ok (items_table p)) by (repeat constructor).
  split; [exact H | exact (updateTotals_console p H)].
Defined.
