(* ===== verification/Ledger.v ===== *)
(** * The "Add Item" handler (src/script.js lines 72-111)

    Guarded by the capacity check on [itemCount], then by the field
    checks; on success it appends one row to [#itemsPreviewTable],
    increments [itemCount], clears the four item fields and calls
    [updateTotals].  The handler is written against the [TotalsRenderer]
    interface of [Page]; its theorems hold for any implementation of it.

    The cells are set through [innerHTML] with the product and grade
    interpolated unescaped; the HTML parser is not modelled, so a cell's
    text is the interpolated string, which is what the browser shows when
    the string contains no markup ([<], [&]). *)

From Stdlib Require Import String ZArith List Lia Bool SpecFloat.
From S2P Require Import Prelude JsString JsNumber Format Page Totals.
Import ListNotations.
Local Open Scope Z_scope.
Local Open Scope js_scope.

(** [const maxItems = 5] (line 69) *)
Definition maxItems : Z := 5.

(** Lines 93-99: the cells of a new row. *)
Definition render_row (product grade : jsstr) (unitPrice quantity amount : num) : row :=
  [product; grade; cu_naira :: formatNumber unitPrice; number_to_string quantity;
   cu_naira :: formatNumber amount].

(** Lines 105-108. *)
Definition clear_item_inputs (p : page) : page :=
  set_text quantityInput [] (set_text unitPriceInput []
    (set_text gradeInput [] (set_text productInput [] p))).

Definition msg_max_items : jsstr := «"Maximum 5 items allowed."».
Definition msg_invalid : jsstr := «"Please fill all fields with valid numbers."».

Section AddItem.
Context `{R : TotalsRenderer}.

Definition addItem_click : js_m app_state unit :=
  a <- get ;;
  if maxItems <=? itemCount a then alert msg_max_items
  else
    let p := pg a in
    let product := trim (text p productInput) in
    let grade := trim (text p gradeInput) in
    let unitPrice := or_zero (parseFloat (text p unitPriceInput)) in
    let quantity := or_zero (parseFloat (text p quantityInput)) in
    if str_falsy product || str_falsy grade
       || num_le unitPrice pzero || num_le quantity pzero
    then alert msg_invalid
    else
      let amount := num_mul unitPrice quantity in
      put (mk_app (clear_item_inputs
                     (append_item_row (render_row product grade unitPrice quantity amount) p))
                  (itemCount a + 1)) ;;
      on_page render_totals.
End AddItem.

(** ** The abstract ledger of the specification

    A line item, the three validation errors, and [addItem] on a list of
    at most five items: it fails on a full ledger, on an empty product or
    grade, on a unit price or quantity that is not above zero, and
    otherwise appends the item. *)

Record line_item := mk_item {
  li_product : jsstr; li_grade : jsstr; li_unitPrice : num; li_quantity : num
}.

Definition li_amount (i : line_item) : num := num_mul (li_unitPrice i) (li_quantity i).

Inductive validation_error := EmptyField | NonPositiveValue | CapacityExceeded.

Definition spec_addItem (ledger : list line_item) (i : line_item)
  : list line_item + validation_error :=
  if (5 <=? length ledger)%nat then inr CapacityExceeded
  else if str_falsy (li_product i) || str_falsy (li_grade i) then inr EmptyField
  else if negb (num_lt pzero (li_unitPrice i)) || negb (num_lt pzero (li_quantity i))
  then inr NonPositiveValue
  else inl (ledger ++ [i]).

(** The item the form describes, read as lines 78-81 read it. *)
Definition form_item (p : page) : line_item :=
  mk_item (trim (text p productInput)) (trim (text p gradeInput))
          (or_zero (parseFloat (text p unitPriceInput)))
          (or_zero (parseFloat (text p quantityInput))).

Definition item_row (i : line_item) : row :=
  render_row (li_product i) (li_grade i) (li_unitPrice i) (li_quantity i) (li_amount i).

(** The message the page shows for an error: the code does not tell an
    empty field from a non-positive number. *)
Definition error_message (e : validation_error) : jsstr :=
  match e with CapacityExceeded => msg_max_items | _ => msg_invalid end.

(** The page shows the ledger: one rendered row per item, in order, and
    [itemCount] is their number. *)
Definition ledger_rel (l : list line_item) (a : app_state) : Prop :=
  items_table (pg a) = map item_row l /\ itemCount a = Z.of_nat (length l).

(** ** Runs of the handler *)

Section AddItemRuns.
Context `{R : TotalsRenderer}.

Lemma on_page_exec {A} (c : js_m page A) a :
  exec (on_page c) a = mk_app (exec c (pg a)) (itemCount a).
Proof. unfold on_page, exec. destruct (c (pg a)). reflexivity. Qed.

Lemma addItem_full a :
  maxItems <= itemCount a ->
  addItem_click a = (Normal tt, mk_app (push_alert msg_max_items (pg a)) (itemCount a)).
Proof.
  intros H. unfold addItem_click, bind, get. destruct (Z.leb_spec maxItems (itemCount a)); [|lia].
  reflexivity.
Qed.

Definition form_invalid (p : page) : bool :=
  str_falsy (trim (text p productInput)) || str_falsy (trim (text p gradeInput))
  || num_le (or_zero (parseFloat (text p unitPriceInput))) pzero
  || num_le (or_zero (parseFloat (text p quantityInput))) pzero.

Lemma addItem_invalid a :
  itemCount a < maxItems -> form_invalid (pg a) = true ->
  addItem_click a = (Normal tt, mk_app (push_alert msg_invalid (pg a)) (itemCount a)).
Proof.
  intros H Hinv. unfold addItem_click, bind, get. destruct (Z.leb_spec maxItems (itemCount a)); [lia|].
  unfold form_invalid in Hinv. cbv zeta. rewrite Hinv. reflexivity.
Qed.

Lemma addItem_valid a :
  itemCount a < maxItems -> form_invalid (pg a) = false ->
  addItem_click a =
  on_page render_totals
    (mk_app (clear_item_inputs (append_item_row (item_row (form_item (pg a))) (pg a)))
            (itemCount a + 1)).
Proof.
  intros H Hinv. unfold addItem_click, bind, get, put. destruct (Z.leb_spec maxItems (itemCount a)); [lia|].
  unfold form_invalid in Hinv. cbv zeta. rewrite Hinv. reflexivity.
Qed.

Lemma clear_append_items r p :
  items_table (clear_item_inputs (append_item_row r p)) = items_table p ++ [r]
  /\ alerts (clear_item_inputs (append_item_row r p)) = alerts p.
Proof. split; reflexivity. Qed.

(** The spec's validation agrees with the code's single test. *)
Lemma spec_form_invalid l p :
  (length l < 5)%nat ->
  (exists e, spec_addItem l (form_item p) = inr e /\ e <> CapacityExceeded)
  <-> form_invalid p = true.
Proof.
  intros Hl. unfold spec_addItem, form_invalid, form_item. cbn [li_product li_grade li_unitPrice li_quantity].
  destruct (Nat.leb_spec 5 (length l)); [lia|].
  rewrite !num_le_zero_iff by apply or_zero_not_nan.
  destruct (str_falsy _ || str_falsy _); cbn [orb].
  - split; [reflexivity|]. intros _. exists EmptyField. split; [reflexivity|discriminate].
  - destruct (negb _ || negb _); cbn.
    + split; [reflexivity|]. intros _. exists NonPositiveValue. split; [reflexivity|discriminate].
    + split; [intros (e & He & _); discriminate | discriminate].
Qed.

Lemma spec_form_valid l p :
  (length l < 5)%nat -> form_invalid p = false ->
  spec_addItem l (form_item p) = inl (l ++ [form_item p]).
Proof.
  intros Hl Hv. destruct (spec_addItem l (form_item p)) as [l'|e] eqn:E.
  - revert E. unfold spec_addItem. destruct (Nat.leb_spec 5 (length l)); [lia|].
    destruct (_ || _); [discriminate|]. destruct (_ || _); [discriminate|].
    intros Heq. inv Heq. reflexivity.
  - assert (He : e <> CapacityExceeded).
    { revert E. unfold spec_addItem. destruct (Nat.leb_spec 5 (length l)); [lia|].
      destruct (_ || _); [intros Heq; inv Heq; discriminate|].
      destruct (_ || _); [intros Heq; inv Heq; discriminate | discriminate]. }
    exfalso. assert (form_invalid p = true) by (apply (spec_form_invalid l p Hl); eauto).
    congruence.
Qed.

(** The handler reads only the four item fields. *)
Lemma form_reads_fields p q :
  (forall e, is_totals_span e = false -> text p e = text q e) ->
  form_invalid p = form_invalid q /\ form_item p = form_item q.
Proof.
  intros H. unfold form_invalid, form_item.
  rewrite (H productInput), (H gradeInput), (H unitPriceInput), (H quantityInput) by reflexivity.
  split; reflexivity.
Qed.

(** A valid form on a ledger with room: one more row, counted, no
    alert. *)
Lemma addItem_valid_exec a :
  itemCount a < maxItems -> form_invalid (pg a) = false ->
  items_table (pg (exec addItem_click a)) = items_table (pg a) ++ [item_row (form_item (pg a))]
  /\ itemCount (exec addItem_click a) = itemCount a + 1
  /\ alerts (pg (exec addItem_click a)) = alerts (pg a).
Proof.
  intros Hlt Hf. unfold exec. rewrite addItem_valid by assumption.
  fold (exec (on_page render_totals)
    (mk_app (clear_item_inputs (append_item_row (item_row (form_item (pg a))) (pg a)))
            (itemCount a + 1))).
  rewrite on_page_exec. cbn [pg itemCount]. rewrite render_items, render_alerts.
  split; [reflexivity|]. split; reflexivity.
Qed.

(** Every run of "Add Item" either leaves the ledger as it is or
    appends the form's row and counts it. *)
Lemma addItem_cases a :
  (items_table (pg (exec addItem_click a)) = items_table (pg a)
   /\ itemCount (exec addItem_click a) = itemCount a)
  \/ (itemCount a < maxItems
      /\ items_table (pg (exec addItem_click a)) = items_table (pg a) ++ [item_row (form_item (pg a))]
      /\ itemCount (exec addItem_click a) = itemCount a + 1
      /\ fst (addItem_click a) = fst (render_totals
           (clear_item_inputs (append_item_row (item_row (form_item (pg a))) (pg a))))).
Proof.
  destruct (Z.ltb_spec (itemCount a) maxItems) as [Hlt|Hge].
  - destruct (form_invalid (pg a)) eqn:Hf.
    + left. unfold exec. rewrite addItem_invalid by assumption. split; reflexivity.
    + right. destruct (addItem_valid_exec a Hlt Hf) as (Hi & Hc & _).
      split; [assumption|]. split; [exact Hi|]. split; [exact Hc|].
      rewrite addItem_valid by assumption. unfold on_page. destruct (render_totals _); reflexivity.
  - left. unfold exec. rewrite addItem_full by lia. split; reflexivity.
Qed.

(** "Add Item" sets no style. *)
Lemma addItem_style a : style (pg (exec addItem_click a)) = style (pg a).
Proof.
  destruct (Z.ltb_spec (itemCount a) maxItems) as [Hlt|Hge].
  - destruct (form_invalid (pg a)) eqn:Hf.
    + unfold exec. rewrite addItem_invalid by assumption. reflexivity.
    + unfold exec. rewrite addItem_valid by assumption.
      fold (exec (on_page render_totals)
        (mk_app (clear_item_inputs (append_item_row (item_row (form_item (pg a))) (pg a)))
                (itemCount a + 1))).
      rewrite on_page_exec. cbn [pg]. rewrite render_style. reflexivity.
  - unfold exec. rewrite addItem_full by lia. reflexivity.
Qed.

(** On rows [updateTotals] can read, "Add Item" does not throw. *)
Lemma addItem_normal a :
  Forall row_ok (items_table (pg a)) -> fst (addItem_click a) = Normal tt.
Proof.
  intros Hok. destruct (Z.ltb_spec (itemCount a) maxItems) as [Hlt|Hge].
  - destruct (form_invalid (pg a)) eqn:Hf.
    + rewrite addItem_invalid by assumption. reflexivity.
    + rewrite addItem_valid by assumption. unfold on_page. cbn [pg].
      pose proof (render_normal (clear_item_inputs (append_item_row (item_row (form_item (pg a))) (pg a))))
        as Hn.
      rewrite (proj1 (clear_append_items _ _)) in Hn.
      destruct (render_totals _) as [o p'] eqn:E. cbn [fst] in *. apply Hn.
      apply Forall_app. split; [assumption|]. repeat constructor.
  - rewrite addItem_full by lia. reflexivity.
Qed.
End AddItemRuns.

(** ** The handler refines the abstract ledger *)

(** The four item fields of the form, in the order lines 78-81 read
    them. *)
Definition item_inputs (p : page) : list jsstr :=
  [text p productInput; text p gradeInput; text p unitPriceInput; text p quantityInput].

Section AddItemRefinement.
Context `{R : TotalsRenderer}.

(** One run of "Add Item" on a page that shows the ledger [l]: what the
    page shows afterwards, the alerts, and the four item fields (cleared
    on success, untouched on an error). *)
Lemma addItem_outcome l a :
  ledger_rel l a ->
  let a' := exec addItem_click a in
  match spec_addItem l (form_item (pg a)) with
  | inl l' => ledger_rel l' a' /\ alerts (pg a') = alerts (pg a)
              /\ item_inputs (pg a') = [[]; []; []; []]
  | inr err => ledger_rel l a' /\ alerts (pg a') = alerts (pg a) ++ [error_message err]
               /\ item_inputs (pg a') = item_inputs (pg a)
  end.
Proof.
  intros [Hrows Hcount] a'. subst a'. destruct (Z.ltb_spec (itemCount a) maxItems) as [Hlt|Hge].
  - assert (Hl : (length l < 5)%nat) by (unfold maxItems in Hlt; lia).
    destruct (form_invalid (pg a)) eqn:Hf.
    + destruct (proj2 (spec_form_invalid l (pg a) Hl) Hf) as (e & -> & He).
      unfold exec. rewrite addItem_invalid by assumption. cbn.
      split; [split; assumption|]. split; [|reflexivity].
      destruct e; [reflexivity | reflexivity | contradiction].
    + rewrite spec_form_valid by assumption.
      unfold exec. rewrite addItem_valid by assumption. fold (exec (on_page render_totals)
        (mk_app (clear_item_inputs (append_item_row (item_row (form_item (pg a))) (pg a)))
                (itemCount a + 1))).
      rewrite on_page_exec. cbn [pg itemCount].
      unfold ledger_rel, item_inputs. cbn [pg itemCount].
      rewrite render_items, render_alerts, !render_text by reflexivity.
      rewrite (proj1 (clear_append_items _ _)), (proj2 (clear_append_items _ _)).
      rewrite map_app, Hrows, length_app. repeat split. cbn [length]. lia.
  - assert (Hl : (5 <= length l)%nat) by (unfold maxItems in Hge; lia).
    unfold spec_addItem. destruct (Nat.leb_spec 5 (length l)); [|lia].
    unfold exec. rewrite addItem_full by assumption. cbn. repeat split; assumption.
Qed.

(** C1: "Add Item" implements the specification's [addItem] on the
    ledger the page shows: on success the page shows the ledger with the
    form's item appended and no alert; on each of the three errors the
    page still shows the old ledger and one more alert, with the
    message of that error. *)
Theorem addItem_refines l a :
  ledger_rel l a ->
  let a' := exec addItem_click a in
  match spec_addItem l (form_item (pg a)) with
  | inl l' => ledger_rel l' a' /\ alerts (pg a') = alerts (pg a)
  | inr err => ledger_rel l a' /\ alerts (pg a') = alerts (pg a) ++ [error_message err]
  end.
Proof.
  intros Hrel a'. pose proof (addItem_outcome l a Hrel) as H. cbv zeta in H.
  destruct (spec_addItem l (form_item (pg a))); tauto.
Qed.
End AddItemRefinement.

(** A form describing [Maize], grade [A], [50] a unit, quantity [2]. *)
Definition sample_fields (e : elem) : jsstr :=
  match e with
  | productInput => «" Maize "» | gradeInput => «"A"»
  | unitPriceInput => «"50"» | quantityInput => «"2"»
  | _ => []
  end.

Lemma addItem_refines_witness :
  let a := mk_app (fixture_page sample_fields []) 0 in
  ledger_rel [] a
  /\ let a' := exec addItem_click a in
     match spec_addItem [] (form_item (pg a)) with
     | inl l' => ledger_rel l' a' /\ alerts (pg a') = alerts (pg a)
     | inr err => ledger_rel [] a' /\ alerts (pg a') = alerts (pg a) ++ [error_message err]
     end.
Proof.
  intros a. assert (H : ledger_rel [] a) by (split; reflexivity).
  split; [exact H | exact (addItem_refines [] a H)].
Defined.
