(* ===== verification/Html.v ===== *)
(** * The markup written through [innerHTML]

    Two handlers build table rows by assigning a template literal to
    [row.innerHTML]: "Add Item" (lines 93-99) with the product, grade,
    unit price, quantity and amount interpolated, and [updateTotals]
    (lines 51-57) with five [&nbsp;] cells.  The rest of the development
    models a row as the texts of its cells ([Page.row]).  This file
    models the markup itself and the part of the HTML parser that turns
    it into cells, and shows the two models agree.

    The parser follows the HTML standard's fragment parsing with a [tr]
    context, on a subset: input preprocessing of CR; the tokenizer states
    Data, TagOpen, EndTagOpen, TagName, the attribute states of a tag
    (names and values skipped, a quoted value opened only after [=]),
    the markup declaration, comment and bogus comment states (DOCTYPE
    and CDATA read as the standard reads them outside foreign content),
    the RAWTEXT, RCDATA, PLAINTEXT and script data states the raw-text
    elements switch to, and the character reference states (returning to Data or
    RCDATA): an [&] before anything but a letter, a digit or [#]
    is a literal ampersand, numeric references (decimal and hexadecimal,
    with the standard's replacements of 0, surrogates, values past
    U+10FFFF and the C1 controls) are decoded to UTF-16, and so are the
    named references [&nbsp;], [&amp;], [&lt;], [&gt;] and [&quot;]; the
    tree construction modes "in row" and "in cell", where a [td] or [th]
    start tag opens a cell, the matching end tag or a [tr]-like start tag
    closes it, other tags inside a cell add no text ([textarea], [pre]
    and [listing] drop a line feed that follows them), the text inside a
    cell is its [textContent], and text between cells is a text node of
    the row, not one of its [children].  What falls outside the subset
    (the other names of the standard's table of named references,
    [template], [select], SVG and MathML,
    nested tables, an element created between cells by a start tag or
    by [</p>] or [</br>]) makes [parse_row_html] return [None] rather
    than guess.

    The theorems: when the product and the grade contain no CR or NUL,
    and no [&] or [<] that starts a reference or markup ([plain_text]),
    the row's
    markup parses to exactly the cells [render_row]
    gives (so the cell model of [Ledger] is the browser's); for all
    plain strings [a], [b] and grade [g], a product [a</td><td>b] gives
    the six cells [a; b; g; price; quantity; amount], so [updateTotals]
    reads the quantity as the amount; and a product [a] followed by an
    unterminated quoted attribute swallows the grade cell's start tag,
    leaving four cells on which [updateTotals] throws.  Examples show
    the blank row parsing to [placeholder_row] and an unterminated
    comment leaving one empty cell.  A quote opens an
    attribute value only after [=], as in the standard's attribute
    states. *)

From Stdlib Require Import String ZArith List Lia Bool SpecFloat.
From S2P Require Import Prelude JsString JsNumber Format Page Totals Ledger.
Import ListNotations.
Local Open Scope Z_scope.
Local Open Scope js_scope.

Definition cu_lf : Z := 10.
Definition cu_cr : Z := 13.
Definition cu_space : Z := 32.
Definition cu_quot : Z := 34.
Definition cu_amp : Z := 38.
Definition cu_apos : Z := 39.
Definition cu_hash : Z := 35.
Definition cu_semi : Z := 59.
Definition cu_eq : Z := 61.
Definition cu_bang : Z := 33.
Definition cu_lt : Z := 60.
Definition cu_gt : Z := 62.

(** ** The templates *)

Definition td_open : jsstr :=
  «"<td class="» ++ [cu_quot] ++ «"border px-4 py-2"» ++ [cu_quot] ++ «">"».
Definition td_close : jsstr := «"</td>"».

(** A line break and the indentation of the template's next line. *)
Definition indent (n : nat) : jsstr := cu_lf :: repeat cu_space n.

Definition cell_html (n : nat) (content : jsstr) : jsstr := indent n ++ td_open ++ content ++ td_close.

(** Lines 93-99: [${quantity}] is [Number::toString]. *)
Definition row_html (product grade : jsstr) (unitPrice quantity amount : num) : jsstr :=
  cell_html 4 product ++ cell_html 4 grade ++ cell_html 4 (cu_naira :: formatNumber unitPrice)
  ++ cell_html 4 (number_to_string quantity) ++ cell_html 4 (cu_naira :: formatNumber amount)
  ++ indent 4.

(** Lines 51-57. *)
Definition placeholder_html : jsstr := concat (repeat (cell_html 8 «"&nbsp;"») 5) ++ indent 6.

(** ** Input preprocessing: CR LF and lone CR become LF *)

Fixpoint normalize_newlines (s : jsstr) : jsstr :=
  match s with
  | c :: r =>
      if c =? cu_cr then
        match r with
        | d :: r' => if d =? cu_lf then cu_lf :: normalize_newlines r' else cu_lf :: normalize_newlines r
        | [] => [cu_lf]
        end
      else c :: normalize_newlines r
  | [] => []
  end.

(** ** Tokenizer *)

(** [Unmodelled] marks input whose tokenization needs the part of the
    standard left out (the full table of named references); tree
    construction turns it into [None]. *)
Inductive token := Chr (c : Z) | StartTag (name : jsstr) | EndTag (name : jsstr) | Unmodelled.

(** The states of a tag after its name (13.2.5.32-42), attribute names
    and values skipped: a quote opens a value only after [=]. *)
Inductive attr_state :=
  | BeforeAttrName | AttrName | AfterAttrName | BeforeAttrValue
  | AttrValueQuoted (q : Z) | AttrValueUnquoted | AfterAttrValueQuoted | SelfClosing.

(** The script data states (13.2.5.4, 13.2.5.15-31), with the buffer of
    the end tag name states and of the double-escape states. *)
Inductive script_state :=
  | SD | SDLt | SDEndOpen | SDEndName (buf : jsstr)
  | SDEscStart | SDEscStartDash
  | SDEsc | SDEscDash | SDEscDashDash | SDEscLt | SDEscEndOpen | SDEscEndName (buf : jsstr)
  | SDDblStart (buf : jsstr) | SDDbl | SDDblDash | SDDblDashDash | SDDblLt | SDDblEnd (buf : jsstr).

Inductive tok_state :=
  | Data
  | TagOpen
  | EndTagOpen
  | TagName (closing : bool) (name : jsstr)
  | InTag (closing : bool) (name : jsstr) (a : attr_state)
  | BogusComment
  | MarkupDecl (buf : jsstr)
  | CommentStart | CommentStartDash | Comment | CommentEndDash | CommentEnd | CommentEndBang
  | CharRef (ret : option jsstr) (name : jsstr)
  | RawText (rc : bool) (name : jsstr)
  | RawLt (rc : bool) (name : jsstr)
  | RawEndOpen (rc : bool) (name : jsstr)
  | RawEndName (rc : bool) (name : jsstr) (buf : jsstr)
  | PlainText
  | Script (ss : script_state)
  | NumRefStart (ret : option jsstr)
  | HexRefStart (ret : option jsstr) (x : Z)
  | NumRefDigits (ret : option jsstr) (hex : bool) (code : Z).

Definition is_ascii_alpha (c : Z) : bool := ((65 <=? c) && (c <=? 90)) || ((97 <=? c) && (c <=? 122)).
Definition ascii_lower (c : Z) : Z := if (65 <=? c) && (c <=? 90) then c + 32 else c.
Definition is_html_space (c : Z) : bool :=
  (c =? 9) || (c =? cu_lf) || (c =? 12) || (c =? cu_cr) || (c =? cu_space).

Definition named_ref (name : jsstr) : option Z :=
  if str_eqb name «"nbsp"» then Some cu_nbsp
  else if str_eqb name «"amp"» then Some cu_amp
  else if str_eqb name «"lt"» then Some cu_lt
  else if str_eqb name «"gt"» then Some cu_gt
  else if str_eqb name «"quot"» then Some cu_quot
  else None.

Definition is_hex_digit (c : Z) : bool :=
  is_digit c || ((65 <=? c) && (c <=? 70)) || ((97 <=? c) && (c <=? 102)).
Definition hex_val (c : Z) : Z :=
  if is_digit c then c - 48 else if c <=? 70 then c - 55 else c - 87.

(** The numeric character reference end state: the replacements of the
    C1 controls (the windows-1252 table of the standard). *)
Definition c1_remap (code : Z) : Z :=
  match code with
  | 128 => 8364 | 130 => 8218 | 131 => 402 | 132 => 8222 | 133 => 8230 | 134 => 8224
  | 135 => 8225 | 136 => 710 | 137 => 8240 | 138 => 352 | 139 => 8249 | 140 => 338
  | 142 => 381 | 145 => 8216 | 146 => 8217 | 147 => 8220 | 148 => 8221 | 149 => 8226
  | 150 => 8211 | 151 => 8212 | 152 => 732 | 153 => 8482 | 154 => 353 | 155 => 8250
  | 156 => 339 | 158 => 382 | 159 => 376
  | _ => code
  end.

(** The code point a numeric reference stands for, as UTF-16 code units:
    0, surrogates and values past U+10FFFF become U+FFFD. *)
Definition numeric_ref_chars (code : Z) : jsstr :=
  let cp := if (code =? 0) || (1114111 <? code) || ((55296 <=? code) && (code <=? 57343))
            then 65533 else c1_remap code in
  if cp <? 65536 then [cp]
  else [55296 + (cp - 65536) / 1024; 56320 + (cp - 65536) mod 1024].

Definition tag (closing : bool) (name : jsstr) : token :=
  if closing then EndTag name else StartTag name.

(** The before-attribute-name state, after the characters that end the
    tag: white space, [/] and anything else (an attribute name, [=]
    included). *)
Definition before_attr_name (c : Z) : attr_state :=
  if is_html_space c then BeforeAttrName
  else if c =? cu_slash then SelfClosing
  else AttrName.

(** One character inside a tag other than the [>] that ends it. *)
Definition attr_step (a : attr_state) (c : Z) : attr_state :=
  match a with
  | BeforeAttrName | SelfClosing => before_attr_name c
  | AttrName | AfterAttrName =>
      if is_html_space c then AfterAttrName
      else if c =? cu_slash then SelfClosing
      else if c =? cu_eq then BeforeAttrValue
      else AttrName
  | BeforeAttrValue =>
      if is_html_space c then BeforeAttrValue
      else if (c =? cu_quot) || (c =? cu_apos) then AttrValueQuoted c
      else AttrValueUnquoted
  | AttrValueQuoted q => if c =? q then AfterAttrValueQuoted else AttrValueQuoted q
  | AttrValueUnquoted => if is_html_space c then BeforeAttrName else AttrValueUnquoted
  | AfterAttrValueQuoted => before_attr_name c
  end.

(** Whether [>] ends the tag in that state. *)
Definition ends_tag (a : attr_state) : bool :=
  match a with AttrValueQuoted _ => false | _ => true end.

Definition data_char (c : Z) : tok_state * list token :=
  if c =? cu_lt then (TagOpen, [])
  else if c =? cu_amp then (CharRef None [], [])
  else (Data, [Chr c]).

(** The markup declaration open state (13.2.5.42), its look-ahead kept
    in [buf]: [--] opens a comment; [DOCTYPE] (any case) and [[CDATA[]
    outside foreign content read up to the next [>] as a bogus comment
    does (a DOCTYPE token is ignored in a table row and in a cell);
    anything else is a bogus comment. *)
Definition markup_decl (buf : jsstr) (c : Z) : tok_state :=
  let buf' := buf ++ [c] in
  let lower := map ascii_lower buf' in
  if str_eqb buf' «"--"» then CommentStart
  else if str_eqb lower «"doctype"» || str_eqb buf' «"[CDATA["» then BogusComment
  else if starts_with buf' «"--"» || starts_with lower «"doctype"» || starts_with buf' «"[CDATA["»
  then MarkupDecl buf'
  else if c =? cu_gt then Data else BogusComment.

(** The comment states (13.2.5.43-52); the less-than-sign states only
    report nested comments and are merged into [Comment]. *)
Definition comment_step (st : tok_state) (c : Z) : tok_state :=
  match st with
  | CommentStart => if c =? cu_minus then CommentStartDash else if c =? cu_gt then Data else Comment
  | CommentStartDash => if c =? cu_minus then CommentEnd else if c =? cu_gt then Data else Comment
  | CommentEndDash => if c =? cu_minus then CommentEnd else Comment
  | CommentEnd =>
      if c =? cu_gt then Data else if c =? cu_bang then CommentEndBang
      else if c =? cu_minus then CommentEnd else Comment
  | CommentEndBang => if c =? cu_minus then CommentEndDash else if c =? cu_gt then Data else Comment
  | _ => if c =? cu_minus then CommentEndDash else Comment
  end.

(** The elements whose start tag, in a cell, switches the tokenizer to
    the RAWTEXT state (13.2.6.4.7: [style], [xmp], [iframe], [noembed],
    [noframes], and [noscript] since scripting is enabled) and to the
    RCDATA state ([textarea], [title]). *)
Definition rawtext_tag (name : jsstr) : bool :=
  existsb (str_eqb name) [«"style"»; «"xmp"»; «"iframe"»; «"noembed"»; «"noframes"»; «"noscript"»].
Definition rcdata_tag (name : jsstr) : bool := str_eqb name «"textarea"» || str_eqb name «"title"».

(** The state after a tag is emitted. *)
Definition after_tag (closing : bool) (name : jsstr) : tok_state :=
  if closing then Data
  else if rawtext_tag name then RawText false name
  else if rcdata_tag name then RawText true name
  else if str_eqb name «"plaintext"» then PlainText
  else if str_eqb name «"script"» then Script SD
  else Data.

(** A character in the RAWTEXT state (13.2.5.3) or, when [rc], the RCDATA
    state (13.2.5.2), where [&] starts a character reference. *)
Definition rawtext_char (rc : bool) (name : jsstr) (c : Z) : tok_state * list token :=
  if c =? cu_lt then (RawLt rc name, [])
  else if rc && (c =? cu_amp) then (CharRef (Some name) [], [])
  else if c =? 0 then (RawText rc name, [Chr 65533])
  else (RawText rc name, [Chr c]).

(** ** Script data *)

Definition fffd (c : Z) : Z := if c =? 0 then 65533 else c.

(** A character read in the script data, escaped and double-escaped
    states. *)
Definition sd_char (c : Z) : tok_state * list token :=
  if c =? cu_lt then (Script SDLt, []) else (Script SD, [Chr (fffd c)]).
Definition esc_char (c : Z) : tok_state * list token :=
  if c =? cu_minus then (Script SDEscDash, [Chr cu_minus])
  else if c =? cu_lt then (Script SDEscLt, [])
  else (Script SDEsc, [Chr (fffd c)]).
Definition dbl_char (c : Z) : tok_state * list token :=
  if c =? cu_minus then (Script SDDblDash, [Chr cu_minus])
  else if c =? cu_lt then (Script SDDblLt, [Chr cu_lt])
  else (Script SDDbl, [Chr (fffd c)]).

Definition with_prefix (pre : list token) (r : tok_state * list token) : tok_state * list token :=
  (fst r, pre ++ snd r).

(** The end tag name states of script data: an appropriate end tag
    ([</script] in any case) ends the element, anything else is text
    read in [fallback]. *)
Definition script_end_name (esc : bool) (buf : jsstr) (c : Z) : tok_state * list token :=
  let appropriate := str_eqb (map ascii_lower buf) «"script"» in
  if appropriate && is_html_space c then (InTag true «"script"» BeforeAttrName, [])
  else if appropriate && (c =? cu_slash) then (InTag true «"script"» SelfClosing, [])
  else if appropriate && (c =? cu_gt) then (Data, [EndTag «"script"»])
  else if is_ascii_alpha c then (Script (if esc then SDEscEndName (buf ++ [c]) else SDEndName (buf ++ [c])), [])
  else with_prefix (map Chr (cu_lt :: cu_slash :: buf)) (if esc then esc_char c else sd_char c).

(** The end of the double-escape start and end states: white space,
    [/] or [>] after the word [script] switches between escaped and
    double-escaped. *)
Definition dbl_boundary (c : Z) : bool := is_html_space c || (c =? cu_slash) || (c =? cu_gt).

Definition script_step (ss : script_state) (c : Z) : tok_state * list token :=
  match ss with
  | SD => sd_char c
  | SDLt =>
      if c =? cu_slash then (Script SDEndOpen, [])
      else if c =? cu_bang then (Script SDEscStart, [Chr cu_lt; Chr cu_bang])
      else with_prefix [Chr cu_lt] (sd_char c)
  | SDEndOpen =>
      if is_ascii_alpha c then (Script (SDEndName [c]), [])
      else with_prefix [Chr cu_lt; Chr cu_slash] (sd_char c)
  | SDEndName buf => script_end_name false buf c
  | SDEscStart => if c =? cu_minus then (Script SDEscStartDash, [Chr cu_minus]) else sd_char c
  | SDEscStartDash => if c =? cu_minus then (Script SDEscDashDash, [Chr cu_minus]) else sd_char c
  | SDEsc => esc_char c
  | SDEscDash =>
      if c =? cu_minus then (Script SDEscDashDash, [Chr cu_minus])
      else if c =? cu_lt then (Script SDEscLt, [])
      else (Script SDEsc, [Chr (fffd c)])
  | SDEscDashDash =>
      if c =? cu_minus then (Script SDEscDashDash, [Chr cu_minus])
      else if c =? cu_lt then (Script SDEscLt, [])
      else if c =? cu_gt then (Script SD, [Chr cu_gt])
      else (Script SDEsc, [Chr (fffd c)])
  | SDEscLt =>
      if c =? cu_slash then (Script SDEscEndOpen, [])
      else if is_ascii_alpha c then (Script (SDDblStart [ascii_lower c]), [Chr cu_lt; Chr c])
      else with_prefix [Chr cu_lt] (esc_char c)
  | SDEscEndOpen =>
      if is_ascii_alpha c then (Script (SDEscEndName [c]), [])
      else with_prefix [Chr cu_lt; Chr cu_slash] (esc_char c)
  | SDEscEndName buf => script_end_name true buf c
  | SDDblStart buf =>
      if dbl_boundary c then (Script (if str_eqb buf «"script"» then SDDbl else SDEsc), [Chr c])
      else if is_ascii_alpha c then (Script (SDDblStart (buf ++ [ascii_lower c])), [Chr c])
      else esc_char c
  | SDDbl => dbl_char c
  | SDDblDash =>
      if c =? cu_minus then (Script SDDblDashDash, [Chr cu_minus])
      else if c =? cu_lt then (Script SDDblLt, [Chr cu_lt])
      else (Script SDDbl, [Chr (fffd c)])
  | SDDblDashDash =>
      if c =? cu_minus then (Script SDDblDashDash, [Chr cu_minus])
      else if c =? cu_lt then (Script SDDblLt, [Chr cu_lt])
      else if c =? cu_gt then (Script SD, [Chr cu_gt])
      else (Script SDDbl, [Chr (fffd c)])
  | SDDblLt => if c =? cu_slash then (Script (SDDblEnd []), [Chr cu_slash]) else dbl_char c
  | SDDblEnd buf =>
      if dbl_boundary c then (Script (if str_eqb buf «"script"» then SDEsc else SDDbl), [Chr c])
      else if is_ascii_alpha c then (Script (SDDblEnd (buf ++ [ascii_lower c])), [Chr c])
      else dbl_char c
  end.

Definition script_eof (ss : script_state) : list token :=
  match ss with
  | SDLt | SDEscLt => [Chr cu_lt]
  | SDEndOpen | SDEscEndOpen => [Chr cu_lt; Chr cu_slash]
  | SDEndName buf | SDEscEndName buf => map Chr (cu_lt :: cu_slash :: buf)
  | _ => []
  end.

(** The return state of a character reference: Data, or the RCDATA
    state of the element [name]. *)
Definition ref_return (ret : option jsstr) : tok_state :=
  match ret with None => Data | Some name => RawText true name end.

Definition return_char (ret : option jsstr) (c : Z) : tok_state * list token :=
  match ret with None => data_char c | Some name => rawtext_char true name c end.

Definition tok_step (st : tok_state) (c : Z) : tok_state * list token :=
  match st with
  | Data => data_char c
  | TagOpen =>
      if c =? cu_bang then (MarkupDecl [], [])
      else if c =? cu_slash then (EndTagOpen, [])
      else if is_ascii_alpha c then (TagName false [ascii_lower c], [])
      else if c =? 63 then (BogusComment, [])
      else let '(st', ts) := data_char c in (st', Chr cu_lt :: ts)
  | EndTagOpen =>
      if is_ascii_alpha c then (TagName true [ascii_lower c], [])
      else if c =? cu_gt then (Data, [])
      else (BogusComment, [])
  | TagName cl name =>
      if c =? cu_gt then (after_tag cl name, [tag cl name])
      else if is_html_space c || (c =? cu_slash) then (InTag cl name (before_attr_name c), [])
      else (TagName cl (name ++ [ascii_lower c]), [])
  | InTag cl name a =>
      if (c =? cu_gt) && ends_tag a then (after_tag cl name, [tag cl name])
      else (InTag cl name (attr_step a c), [])
  | BogusComment => if c =? cu_gt then (Data, []) else (BogusComment, [])
  | RawText rc name => rawtext_char rc name c
  | RawLt rc name =>
      if c =? cu_slash then (RawEndOpen rc name, [])
      else let '(st', ts) := rawtext_char rc name c in (st', Chr cu_lt :: ts)
  | RawEndOpen rc name =>
      if is_ascii_alpha c then (RawEndName rc name [c], [])
      else let '(st', ts) := rawtext_char rc name c in (st', Chr cu_lt :: Chr cu_slash :: ts)
  | RawEndName rc name buf =>
      let appropriate := str_eqb (map ascii_lower buf) name in
      if appropriate && is_html_space c then (InTag true name BeforeAttrName, [])
      else if appropriate && (c =? cu_slash) then (InTag true name SelfClosing, [])
      else if appropriate && (c =? cu_gt) then (Data, [EndTag name])
      else if is_ascii_alpha c then (RawEndName rc name (buf ++ [c]), [])
      else let '(st', ts) := rawtext_char rc name c in
           (st', map Chr (cu_lt :: cu_slash :: buf) ++ ts)
  | PlainText => (PlainText, [Chr (fffd c)])
  | Script ss => script_step ss c
  | MarkupDecl buf => (markup_decl buf c, [])
  | CommentStart | CommentStartDash | Comment | CommentEndDash | CommentEnd | CommentEndBang =>
      (comment_step st c, [])
  | CharRef ret name =>
      if is_ascii_alpha c || is_digit c then (CharRef ret (name ++ [c]), [])
      else match name with
           | [] => if c =? cu_hash then (NumRefStart ret, [])
                   else let '(st', ts) := return_char ret c in (st', Chr cu_amp :: ts)
           | _ :: _ =>
               match (if c =? cu_semi then named_ref name else None) with
               | Some r => (ref_return ret, [Chr r])
               | None => (ref_return ret, [Unmodelled])
               end
           end
  | NumRefStart ret =>
      if (c =? 120) || (c =? 88) then (HexRefStart ret c, [])
      else if is_digit c then (NumRefDigits ret false (c - 48), [])
      else let '(st', ts) := return_char ret c in (st', Chr cu_amp :: Chr cu_hash :: ts)
  | HexRefStart ret x =>
      if is_hex_digit c then (NumRefDigits ret true (hex_val c), [])
      else let '(st', ts) := return_char ret c in (st', Chr cu_amp :: Chr cu_hash :: Chr x :: ts)
  | NumRefDigits ret hex code =>
      if (if hex then is_hex_digit c else is_digit c)
      then (NumRefDigits ret hex (code * (if hex then 16 else 10) + hex_val c), [])
      else if c =? cu_semi then (ref_return ret, map Chr (numeric_ref_chars code))
      else let '(st', ts) := return_char ret c in (st', map Chr (numeric_ref_chars code) ++ ts)
  end.

Definition tok_eof (st : tok_state) : list token :=
  match st with
  | TagOpen => [Chr cu_lt]
  | EndTagOpen => [Chr cu_lt; Chr cu_slash]
  | CharRef _ [] => [Chr cu_amp]
  | CharRef _ (_ :: _) => [Unmodelled]
  | RawLt _ _ => [Chr cu_lt]
  | RawEndOpen _ _ => [Chr cu_lt; Chr cu_slash]
  | RawEndName _ _ buf => map Chr (cu_lt :: cu_slash :: buf)
  | Script ss => script_eof ss
  | NumRefStart _ => [Chr cu_amp; Chr cu_hash]
  | HexRefStart _ x => [Chr cu_amp; Chr cu_hash; Chr x]
  | NumRefDigits _ _ code => map Chr (numeric_ref_chars code)
  | _ => []
  end.

(** The state after a text and the tokens it emits. *)
Fixpoint tok_run (st : tok_state) (s : jsstr) : tok_state * list token :=
  match s with
  | [] => (st, [])
  | c :: r => let '(st1, ts1) := tok_step st c in
              let '(st2, ts2) := tok_run st1 r in (st2, ts1 ++ ts2)
  end.

Definition tokenize (s : jsstr) : list token :=
  let '(st, ts) := tok_run Data s in ts ++ tok_eof st.

(** ** Tree construction in a [tr] *)

(** [InCellSkipLF]: in a cell, just after a [textarea], [pre] or
    [listing] start tag, whose next token is dropped if it is a line
    feed. *)
Inductive row_mode := InRow | InCell (name : jsstr) (content : jsstr)
                    | InCellSkipLF (name : jsstr) (content : jsstr).

Definition cell_tag (name : jsstr) : bool := str_eqb name «"td"» || str_eqb name «"th"».

(** Start tags "in cell" closes the cell on, and "in row" then ignores
    (no [tr] is in table scope when parsing a fragment in a [tr]). *)
Definition cell_closing_tag (name : jsstr) : bool :=
  existsb (str_eqb name) [«"caption"»; «"col"»; «"colgroup"»; «"tbody"»; «"tfoot"»; «"thead"»;
                          «"tr"»].

(** Start tags "in row" ignores. *)
Definition table_tag (name : jsstr) : bool := cell_closing_tag name || str_eqb name «"table"».

(** End tags that "in body" turns into an element ([</p>], [</br>]):
    between cells it would become a child of the row. *)
Definition element_end_tag (name : jsstr) : bool := str_eqb name «"p"» || str_eqb name «"br"».

(** Start tags whose parsing is left out: [template], [select] and
    foreign content. *)
Definition unsupported_tag (name : jsstr) : bool :=
  existsb (str_eqb name) [«"template"»; «"select"»; «"svg"»; «"math"»].

Definition skip_lf_tag (name : jsstr) : bool :=
  existsb (str_eqb name) [«"textarea"»; «"pre"»; «"listing"»].

(** A token "in cell" (13.2.6.4.15, "in body" for what it does not
    handle). *)
Definition cell_step (cs : list jsstr) (n t : jsstr) (tok : token) : option (list jsstr * row_mode) :=
  match tok with
  | Unmodelled => None
  | Chr 0 => Some (cs, InCell n t)
  | Chr c => Some (cs, InCell n (t ++ [c]))
  | StartTag n' =>
      if cell_tag n' then Some (cs ++ [t], InCell n' [])
      else if cell_closing_tag n' then Some (cs ++ [t], InRow)
      else if str_eqb n' «"table"» || unsupported_tag n' then None
      else if skip_lf_tag n' then Some (cs, InCellSkipLF n t)
      else Some (cs, InCell n t)
  | EndTag n' => if str_eqb n' n then Some (cs ++ [t], InRow) else Some (cs, InCell n t)
  end.

(** The completed cells, in order, and the mode. *)
Definition tree_step (b : option (list jsstr * row_mode)) (tok : token) : option (list jsstr * row_mode) :=
  match b with
  | None => None
  | Some (cs, InRow) =>
      match tok with
      | Unmodelled => None
      | Chr _ => Some (cs, InRow)
      | StartTag n =>
          if cell_tag n then Some (cs, InCell n []) else if table_tag n then Some (cs, InRow) else None
      | EndTag n => if element_end_tag n then None else Some (cs, InRow)
      end
  | Some (cs, InCell n t) => cell_step cs n t tok
  | Some (cs, InCellSkipLF n t) =>
      match tok with Chr 10 => Some (cs, InCell n t) | _ => cell_step cs n t tok end
  end.

Definition tree_eof (b : option (list jsstr * row_mode)) : option (list jsstr) :=
  match b with
  | Some (cs, InCell _ t) | Some (cs, InCellSkipLF _ t) => Some (cs ++ [t])
  | Some (cs, InRow) => Some cs
  | None => None
  end.

(** [tr.innerHTML = s]: the [textContent] of each element child. *)
Definition parse_row_html (s : jsstr) : option (list jsstr) :=
  tree_eof (fold_left tree_step (tokenize (normalize_newlines s)) (Some ([], InRow))).

(** ** Text that reads as itself *)

(** A character of a text node that the parser passes through unchanged:
    no markup, no entity, no CR to normalise, no NUL to drop. *)
Definition html_text_char (c : Z) : bool :=
  negb (c =? cu_lt) && negb (c =? cu_amp) && negb (c =? cu_cr) && negb (c =? 0).

(** A character that starts a character reference after [&]. *)
Definition ref_start (c : Z) : bool := is_ascii_alpha c || is_digit c || (c =? cu_hash).

(** A character that starts a tag, a comment or a bogus comment after
    [<]. *)
Definition tag_start (c : Z) : bool :=
  is_ascii_alpha c || (c =? cu_slash) || (c =? cu_bang) || (c =? 63).

(** A character that is neither a CR to normalise nor a NUL. *)
Definition text_char (c : Z) : bool := negb (c =? cu_cr) && negb (c =? 0).

(** Text of a cell that the parser passes through unchanged: every
    character is a [text_char], an [&] is not followed by a letter, a
    digit or [#], and a [<] by a letter, [/], [!] or [?] (the character
    after the text is the [<] of [</td>]), so each is a literal
    character. *)
Fixpoint plain_text (s : jsstr) : bool :=
  match s with
  | [] => true
  | c :: r => text_char c && (negb (c =? cu_amp) || negb (ref_start (hd cu_lt r)))
              && (negb (c =? cu_lt) || negb (tag_start (hd cu_lt r))) && plain_text r
  end.

Lemma forallb_Forall (f : Z -> bool) s : forallb f s = true -> Forall (fun c => f c = true) s.
Proof. intros H. apply Forall_forall. intros c Hc. exact (proj1 (forallb_forall f s) H c Hc). Qed.

Lemma numeral_html c : numeral_char c = true -> html_text_char c = true.
Proof.
  unfold numeral_char, is_digit, html_text_char. intros H. apply orb_prop in H as [H|H].
  - apply andb_prop in H as [H1 H2]. apply Z.leb_le in H1. apply Z.leb_le in H2.
    unfold cu_lt, cu_amp, cu_cr. repeat (apply andb_true_intro; split);
      apply negb_true_iff, Z.eqb_neq; lia.
  - apply existsb_exists in H as (x & Hx & Hc). apply Z.eqb_eq in Hc. subst c.
    repeat (destruct Hx as [<-|Hx]; [reflexivity|]). destruct Hx.
Qed.

Lemma formatted_html x : Forall (fun c => html_text_char c = true) (cu_naira :: formatNumber x).
Proof.
  constructor; [reflexivity|]. eapply Forall_impl; [|apply insert_commas_numeral, toFixed_numeral].
  intros c. apply numeral_html.
Qed.

Lemma quantity_html x : Forall (fun c => html_text_char c = true) (number_to_string x).
Proof. eapply Forall_impl; [|apply number_to_string_numeral]. intros c. apply numeral_html. Qed.

Lemma indent_html n : Forall (fun c => html_text_char c = true) (indent n).
Proof.
  constructor; [reflexivity|]. apply Forall_forall. intros c Hc. apply repeat_spec in Hc. subst c.
  reflexivity.
Qed.

Lemma html_plain s : Forall (fun c => html_text_char c = true) s -> plain_text s = true.
Proof.
  induction 1 as [|c r Hc _ IH]; [reflexivity|]. cbn [plain_text]. rewrite IH.
  unfold html_text_char, text_char in *.
  destruct (c =? cu_lt), (c =? cu_amp), (c =? cu_cr), (c =? 0); try discriminate; reflexivity.
Qed.

Lemma plain_chars s : plain_text s = true -> Forall (fun c => text_char c = true) s.
Proof.
  induction s as [|c r IH]; intros H; constructor; cbn [plain_text] in H;
    apply andb_prop in H as [H Hr]; apply andb_prop in H as [H _]; apply andb_prop in H as [Hc _];
    auto.
Qed.

Lemma plain_not_cr s : plain_text s = true -> Forall (fun c => (c =? cu_cr) = false) s.
Proof.
  intros H. eapply Forall_impl; [|exact (plain_chars s H)]. intros c Hc. unfold text_char in Hc.
  destruct (c =? cu_cr); [discriminate | reflexivity].
Qed.

(** ** Preprocessing and tokenizing such text *)

Lemma normalize_plain s : Forall (fun c => (c =? cu_cr) = false) s -> normalize_newlines s = s.
Proof.
  induction 1 as [|c r Hc _ IH]; [reflexivity|]. cbn [normalize_newlines]. rewrite Hc, IH. reflexivity.
Qed.

Lemma html_not_cr s :
  Forall (fun c => html_text_char c = true) s -> Forall (fun c => (c =? cu_cr) = false) s.
Proof.
  apply Forall_impl. intros c H. unfold html_text_char in H.
  destruct (c =? cu_cr); [|reflexivity]. rewrite !andb_false_r in H. discriminate.
Qed.

Lemma tok_run_app st a b :
  tok_run st (a ++ b)
  = let '(st1, ts1) := tok_run st a in let '(st2, ts2) := tok_run st1 b in (st2, ts1 ++ ts2).
Proof.
  revert st. induction a as [|c a IH]; intros st; cbn [app tok_run].
  - destruct (tok_run st b). reflexivity.
  - destruct (tok_step st c) as [st1 ts1]. rewrite IH.
    destruct (tok_run st1 a) as [st2 ts2]. destruct (tok_run st2 b) as [st3 ts3].
    rewrite app_assoc. reflexivity.
Qed.

Lemma tok_run_text t :
  Forall (fun c => html_text_char c = true) t -> tok_run Data t = (Data, map Chr t).
Proof.
  induction 1 as [|c r Hc _ IH]; [reflexivity|]. cbn [tok_run tok_step map].
  unfold html_text_char in Hc. apply andb_prop in Hc as [Hc _]. apply andb_prop in Hc as [Hc _].
  apply andb_prop in Hc as [Hlt Hamp]. apply negb_true_iff in Hlt, Hamp.
  unfold data_char. rewrite Hlt, Hamp, IH. reflexivity.
Qed.

(** After [&], a character that starts no reference is reconsumed as
    text, with the [&] flushed before it. *)
Lemma tok_run_charref_nil d x :
  ref_start d = false ->
  tok_run (CharRef None []) (d :: x) = let '(st, ts) := tok_run Data (d :: x) in (st, Chr cu_amp :: ts).
Proof.
  unfold ref_start. intros H. apply orb_false_iff in H as [H Hh].
  cbn [tok_run tok_step return_char]. rewrite H, Hh.
  destruct (data_char d) as [st1 ts1]. destruct (tok_run st1 x). reflexivity.
Qed.

(** After [<], a character that starts no tag is reconsumed as text,
    with the [<] flushed before it. *)
Lemma tok_run_tagopen_lit d x :
  tag_start d = false ->
  tok_run TagOpen (d :: x) = let '(st, ts) := tok_run Data (d :: x) in (st, Chr cu_lt :: ts).
Proof.
  unfold tag_start. intros H. apply orb_false_iff in H as [H Hq]. apply orb_false_iff in H as [H Hb].
  apply orb_false_iff in H as [Ha Hs]. cbn [tok_run tok_step]. rewrite Hb, Hs, Ha, Hq.
  destruct (data_char d) as [st1 ts1]. destruct (tok_run st1 x). reflexivity.
Qed.

(** Either lemma where the next character is the head of [r], or the [<]
    that follows it. *)
Lemma literal_before st k (P : Z -> bool) r rest :
  (forall d x, P d = false -> tok_run st (d :: x) = let '(s, ts) := tok_run Data (d :: x) in (s, Chr k :: ts)) ->
  P (hd cu_lt r) = false ->
  tok_run st (r ++ cu_lt :: rest) = let '(s, ts) := tok_run Data (r ++ cu_lt :: rest) in (s, Chr k :: ts).
Proof. intros Hst Hp. destruct r as [|d r']; apply Hst; exact Hp. Qed.

(** Plain text followed by a [<] tokenizes to its characters. *)
Lemma tok_run_plain t rest :
  plain_text t = true ->
  tok_run Data (t ++ cu_lt :: rest) = let '(st, ts) := tok_run TagOpen rest in (st, map Chr t ++ ts).
Proof.
  induction t as [|c r IH]; intros H.
  - cbn [app tok_run]. replace (tok_step Data cu_lt) with (TagOpen, @nil token) by reflexivity.
    destruct (tok_run TagOpen rest). reflexivity.
  - cbn [plain_text] in H. apply andb_prop in H as [H Hr]. apply andb_prop in H as [H Hl].
    apply andb_prop in H as [_ Ha]. cbn [app tok_run tok_step map]. unfold data_char.
    destruct (c =? cu_lt) eqn:Hlt; cbn [negb orb] in Hl |- *.
    + apply negb_true_iff in Hl.
      rewrite (literal_before _ _ _ r rest tok_run_tagopen_lit Hl), (IH Hr).
      apply Z.eqb_eq in Hlt. rewrite Hlt. destruct (tok_run TagOpen rest). reflexivity.
    + destruct (c =? cu_amp) eqn:Hamp; cbn [negb orb] in Ha |- *.
      * apply negb_true_iff in Ha.
        rewrite (literal_before _ _ _ r rest tok_run_charref_nil Ha), (IH Hr).
        apply Z.eqb_eq in Hamp. rewrite Hamp. destruct (tok_run TagOpen rest). reflexivity.
      * rewrite (IH Hr). destruct (tok_run TagOpen rest). reflexivity.
Qed.

Lemma tok_cell n content :
  plain_text content = true ->
  tok_run Data (cell_html n content)
  = (Data, map Chr (indent n) ++ StartTag «"td"» :: map Chr content ++ [EndTag «"td"»]).
Proof.
  intros Hc. unfold cell_html.
  rewrite tok_run_app, (tok_run_text _ (indent_html n)). cbv beta iota.
  rewrite tok_run_app. replace (tok_run Data td_open) with (Data, [StartTag «"td"»]) by reflexivity.
  cbv beta iota. change td_close with (cu_lt :: «"/td>"»). rewrite (tok_run_plain _ _ Hc).
  replace (tok_run TagOpen «"/td>"») with (Data, [EndTag «"td"»]) by reflexivity.
  cbv beta iota. rewrite <- ?app_assoc. cbn [app]. rewrite <- ?app_assoc. reflexivity.
Qed.

(** ** Building the cells *)

Lemma tree_text cs n t content :
  Forall (fun c => text_char c = true) content ->
  fold_left tree_step (map Chr content) (Some (cs, InCell n t)) = Some (cs, InCell n (t ++ content)).
Proof.
  revert t. induction content as [|c r IH]; intros t H; [rewrite app_nil_r; reflexivity|].
  inv H. cbn [map fold_left].
  replace (tree_step (Some (cs, InCell n t)) (Chr c)) with (Some (cs, InCell n (t ++ [c]))).
  - rewrite IH by assumption. rewrite <- app_assoc. reflexivity.
  - destruct c; [|reflexivity..]. discriminate.
Qed.

Lemma tree_indent cs n :
  fold_left tree_step (map Chr (indent n)) (Some (cs, InRow)) = Some (cs, InRow).
Proof.
  unfold indent. cbn [map fold_left]. replace (tree_step (Some (cs, InRow)) (Chr cu_lf)) with (Some (cs, InRow))
    by reflexivity.
  induction n as [|n IH]; [reflexivity|]. cbn [repeat map fold_left]. exact IH.
Qed.

Lemma tree_cell cs n content :
  plain_text content = true ->
  fold_left tree_step (map Chr (indent n) ++ StartTag «"td"» :: map Chr content ++ [EndTag «"td"»])
            (Some (cs, InRow))
  = Some (cs ++ [content], InRow).
Proof.
  intros Hc. rewrite fold_left_app, tree_indent. cbn [fold_left].
  replace (tree_step (Some (cs, InRow)) (StartTag «"td"»)) with (Some (cs, InCell «"td"» [])) by reflexivity.
  rewrite fold_left_app, (tree_text _ _ _ _ (plain_chars _ Hc)). reflexivity.
Qed.

(** ** The rows the handlers write *)

Definition cell_tokens (n : nat) (content : jsstr) : list token :=
  map Chr (indent n) ++ StartTag «"td"» :: map Chr content ++ [EndTag «"td"»].

Lemma tok_cell_app n content rest :
  plain_text content = true ->
  tok_run Data (cell_html n content ++ rest)
  = (fst (tok_run Data rest), cell_tokens n content ++ snd (tok_run Data rest)).
Proof.
  intros Hc. rewrite tok_run_app, (tok_cell n content Hc). cbv beta iota.
  destruct (tok_run Data rest). reflexivity.
Qed.

Lemma tree_cell_app cs n content rest :
  plain_text content = true ->
  fold_left tree_step (cell_tokens n content ++ rest) (Some (cs, InRow))
  = fold_left tree_step rest (Some (cs ++ [content], InRow)).
Proof. intros Hc. unfold cell_tokens. rewrite fold_left_app, (tree_cell cs n content Hc). reflexivity. Qed.

Lemma cell_no_cr' n content :
  Forall (fun c => (c =? cu_cr) = false) content ->
  Forall (fun c => (c =? cu_cr) = false) (cell_html n content).
Proof.
  intros Hc. unfold cell_html.
  apply Forall_app; split; [apply html_not_cr, indent_html|].
  apply Forall_app; split; [repeat constructor|].
  apply Forall_app; split; [exact Hc | repeat constructor].
Qed.

Lemma cell_no_cr n content :
  plain_text content = true ->
  Forall (fun c => (c =? cu_cr) = false) (cell_html n content).
Proof. intros Hc. apply cell_no_cr', plain_not_cr, Hc. Qed.

(** C27: when the product and the grade hold no CR or NUL, every [&]
    in them is followed by neither a letter, a digit nor [#], and every
    [<] by neither a letter, [/], [!] nor [?] (as in [Salt & Pepper
    <5kg]), so that neither starts markup, the markup "Add Item"
    assigns to [row.innerHTML] (lines 93-99) gives the row exactly the
    five cells [render_row] models: the product, the grade, [₦] and the
    formatted unit price, the quantity as [Number::toString] prints it,
    [₦] and the formatted amount. *)
Theorem row_html_cells product grade unitPrice quantity amount :
  plain_text product = true -> plain_text grade = true ->
  parse_row_html (row_html product grade unitPrice quantity amount)
  = Some (render_row product grade unitPrice quantity amount).
Proof.
  intros Hp Hg.
  pose proof (html_plain _ (formatted_html unitPrice)) as Hu.
  pose proof (html_plain _ (quantity_html quantity)) as Hq.
  pose proof (html_plain _ (formatted_html amount)) as Ha.
  unfold parse_row_html, row_html.
  rewrite normalize_plain
    by (do 5 (apply Forall_app; split; [apply cell_no_cr; assumption|]); apply html_not_cr, indent_html).
  unfold tokenize. rewrite !tok_cell_app by assumption.
  rewrite (tok_run_text _ (indent_html 4)). cbn [fst snd tok_eof]. rewrite app_nil_r.
  rewrite !tree_cell_app by assumption. rewrite tree_indent. reflexivity.
Qed.

(** The blank row [updateTotals] assigns to [emptyRow.innerHTML]
    (lines 51-57) gives five cells of one no-break space each: the
    [placeholder_row] of [Totals]. *)
Example placeholder_html_cells : parse_row_html placeholder_html = Some placeholder_row.
Proof. vm_compute. reflexivity. Qed.

(** ** Markup in the product *)

Lemma tok_close content rest :
  plain_text content = true ->
  tok_run Data (content ++ td_close ++ rest)
  = (fst (tok_run Data rest), map Chr content ++ EndTag «"td"» :: snd (tok_run Data rest)).
Proof.
  intros Hc. change (td_close ++ rest) with (cu_lt :: («"/td>"» ++ rest)).
  rewrite (tok_run_plain _ _ Hc), tok_run_app.
  replace (tok_run TagOpen «"/td>"») with (Data, [EndTag «"td"»]) by reflexivity.
  cbv beta iota. destruct (tok_run Data rest). reflexivity.
Qed.

(** A cell opened by a bare [<td>], as a product ending in [</td><td>]
    leaves it. *)
Lemma tok_bare_cell content rest :
  plain_text content = true ->
  tok_run Data («"<td>"» ++ content ++ td_close ++ rest)
  = (fst (tok_run Data rest), StartTag «"td"» :: map Chr content ++ EndTag «"td"» :: snd (tok_run Data rest)).
Proof.
  intros Hc. rewrite tok_run_app.
  replace (tok_run Data «"<td>"») with (Data, [StartTag «"td"»]) by reflexivity.
  cbv beta iota. rewrite (tok_close _ _ Hc). reflexivity.
Qed.

Lemma tree_bare_cell cs content rest :
  plain_text content = true ->
  fold_left tree_step (StartTag «"td"» :: map Chr content ++ EndTag «"td"» :: rest) (Some (cs, InRow))
  = fold_left tree_step rest (Some (cs ++ [content], InRow)).
Proof.
  intros Hc. cbn [fold_left].
  replace (tree_step (Some (cs, InRow)) (StartTag «"td"»)) with (Some (cs, InCell «"td"» [])) by reflexivity.
  rewrite fold_left_app, (tree_text _ _ _ _ (plain_chars _ Hc)). reflexivity.
Qed.

(** C28: markup in the product shifts the cells.  For every plain
    product [a], grade [g] and plain [b], the product [a</td><td>b]
    makes a six-cell row [a; b; g; price; quantity; amount]: the fifth
    cell, the one [updateTotals] reads as the amount (line 20), is the
    quantity's text and not the amount's. *)
Theorem product_markup_shifts_amount a b g up q am :
  plain_text a = true -> plain_text b = true -> plain_text g = true ->
  parse_row_html (row_html (a ++ «"</td><td>"» ++ b) g up q am)
  = Some [a; b; g; cu_naira :: formatNumber up; number_to_string q; cu_naira :: formatNumber am].
Proof.
  intros Ha Hb Hg.
  pose proof (html_plain _ (formatted_html up)) as Hu.
  pose proof (html_plain _ (quantity_html q)) as Hq.
  pose proof (html_plain _ (formatted_html am)) as Hm.
  unfold parse_row_html, row_html.
  rewrite normalize_plain.
  2:{ apply Forall_app; split.
      { apply cell_no_cr'. apply Forall_app; split; [apply plain_not_cr, Ha|].
        apply Forall_app; split; [repeat constructor | apply plain_not_cr, Hb]. }
      do 4 (apply Forall_app; split; [apply cell_no_cr; assumption|]). apply html_not_cr, indent_html. }
  replace (cell_html 4 (a ++ «"</td><td>"» ++ b)) with (cell_html 4 a ++ «"<td>"» ++ b ++ td_close)
    by (unfold cell_html; rewrite <- !app_assoc; reflexivity).
  rewrite <- !app_assoc. unfold tokenize.
  rewrite tok_cell_app, tok_bare_cell, !tok_cell_app by assumption.
  rewrite (tok_run_text _ (indent_html 4)). cbn [fst snd tok_eof]. rewrite app_nil_r.
  rewrite tree_cell_app, tree_bare_cell, !tree_cell_app by assumption.
  rewrite tree_indent. reflexivity.
Qed.

(** A product [<b x=] and a double quote: the attribute value runs to
    the next double quote, in the grade cell's [<td class=], and the rest
    of that start tag is attributes of [b]. *)
Definition quote_swallowed : jsstr :=
  «"b x="» ++ [cu_quot] ++ td_close ++ indent 4 ++ td_open.

(** C29: markup in the product can remove the cells [updateTotals]
    reads.  For every plain product prefix [a] and plain grade [g], the
    product [a] followed by [<b x=] and a double quote opens a quoted
    attribute value that the template's next double quote closes, so the
    grade's cell is never opened: the row gets the four cells
    [a ++ g; price; quantity; amount], and [updateTotals] throws on every
    page whose items table holds that row, as it does on any page
    holding a row without a fifth cell; nothing in the script removes a
    row. *)
Theorem product_quote_drops_cell a g up q am :
  plain_text a = true -> plain_text g = true ->
  let row := [a ++ g; cu_naira :: formatNumber up; number_to_string q; cu_naira :: formatNumber am] in
  parse_row_html (row_html (a ++ «"<b x="» ++ [cu_quot]) g up q am) = Some row
  /\ forall p, In row (items_table p) -> updateTotals p = (Thrown no_fifth_cell, logged p).
Proof.
  intros Ha Hg row. split.
  - pose proof (html_plain _ (formatted_html up)) as Hu.
    pose proof (html_plain _ (quantity_html q)) as Hq.
    pose proof (html_plain _ (formatted_html am)) as Hm.
    unfold parse_row_html, row_html.
    rewrite normalize_plain.
    2:{ apply Forall_app; split.
        { apply cell_no_cr'. apply Forall_app; split; [apply plain_not_cr, Ha | repeat constructor]. }
        do 4 (apply Forall_app; split; [apply cell_no_cr; assumption|]). apply html_not_cr, indent_html. }
    assert (E : forall r, cell_html 4 (a ++ «"<b x="» ++ [cu_quot]) ++ cell_html 4 g ++ r
                          = indent 4 ++ td_open ++ a ++ cu_lt :: quote_swallowed ++ g ++ td_close ++ r)
      by (intros r; unfold cell_html, quote_swallowed; rewrite <- !app_assoc; reflexivity).
    rewrite E. unfold tokenize.
    rewrite tok_run_app, (tok_run_text _ (indent_html 4)). cbv beta iota.
    rewrite tok_run_app. replace (tok_run Data td_open) with (Data, [StartTag «"td"»]) by reflexivity.
    cbv beta iota. rewrite (tok_run_plain _ _ Ha), tok_run_app.
    replace (tok_run TagOpen quote_swallowed) with (Data, [StartTag «"b"»]) by (vm_compute; reflexivity).
    cbv beta iota. rewrite (tok_close _ _ Hg), !tok_cell_app by assumption.
    rewrite (tok_run_text _ (indent_html 4)). cbn [fst snd tok_eof].
    rewrite !app_nil_r, fold_left_app, tree_indent. cbn [fold_left app].
    replace (tree_step (Some ([], InRow)) (StartTag «"td"»)) with (Some ([] : list jsstr, InCell «"td"» []))
      by reflexivity.
    rewrite fold_left_app, (tree_text _ _ _ _ (plain_chars _ Ha)). cbn [fold_left app].
    replace (tree_step (Some ([], InCell «"td"» a)) (StartTag «"b"»)) with (Some ([] : list jsstr, InCell «"td"» a))
      by reflexivity.
    rewrite fold_left_app, (tree_text _ _ _ _ (plain_chars _ Hg)). cbn [fold_left].
    replace (tree_step (Some ([], InCell «"td"» (a ++ g))) (EndTag «"td"»)) with (Some ([a ++ g], InRow))
      by reflexivity.
    rewrite !tree_cell_app by assumption. rewrite tree_indent. reflexivity.
  - intros p Hin. apply updateTotals_thrown, sum_rows_short, Exists_exists.
    exists row. split; [exact Hin | cbn; lia].
Qed.

(** A product [<!--] opens a comment that runs to the end of the markup,
    leaving one empty cell; [updateTotals] then throws. *)
Example product_comment_drops_cells :
  let up := parseFloat «"50"» in let q := parseFloat «"2"» in
  parse_row_html (row_html «"<!--"» «"A"» up q (num_mul up q)) = Some [[]]
  /\ updateTotals (fixture_page (fun _ => []) [[]])
     = (Thrown no_fifth_cell, logged (fixture_page (fun _ => []) [[]])).
Proof. split; [vm_compute; reflexivity | apply updateTotals_thrown; reflexivity]. Qed.

(** Text after a cell's end tag is a text node of the row: the cells
    are unchanged. *)
Example stray_text_between_cells :
  parse_row_html «"<td>a</td>b<td>c</td>"» = Some [«"a"»; «"c"»].
Proof. vm_compute. reflexivity. Qed.

(** Raw text in cells: a [style] element's text runs to its end tag
    (any case) and keeps [</td>] as text; a [textarea] drops the line
    feed after its start tag and decodes references; [pre] drops only
    the first of two line feeds; a [title] decodes references; in a
    [script], [</script>] inside an escaped comment that opened a nested
    [<script>] does not end it, the next one does. *)
Example raw_text_cells :
  parse_row_html «"<td>a<style>b</td>c</STYLE >d</td><td>e</td>"»
  = Some [«"ab</td>cd"»; «"e"»]
  /\ parse_row_html («"<td><textarea>"» ++ [cu_lf] ++ «"a&amp;b<td>&#65</TEXTAREA>c</td>"»)
     = Some [«"a&b<td>Ac"»]
  /\ parse_row_html («"<td><pre>"» ++ [cu_lf; cu_lf] ++ «"x</td><td><title>&lt;</td></title></td>"»)
     = Some [cu_lf :: «"x"»; «"<</td>"»]
  /\ parse_row_html «"<td>a<script>x<!--<script></script>y</script>z--></script>b</td><td>c</td>"»
     = Some [«"ax<!--<script></script>yz-->b"»; «"c"»].
Proof. vm_compute. repeat split. Qed.

(** A cell with a decimal, a hexadecimal and a named reference, an
    unterminated one and a literal ampersand. *)
Example char_refs_decoded :
  parse_row_html «"<td>&#8358;1&#x2C;000 &amp; &#65</td>"»
  = Some [[8358; 49; 44; 48; 48; 48; 32; cu_amp; 32; 65]].
Proof. vm_compute. reflexivity. Qed.

Lemma row_html_cells_witness :
  (plain_text «"Salt & Pepper <5kg"» = true /\ plain_text «"A"» = true)
  /\ parse_row_html (row_html «"Salt & Pepper <5kg"» «"A"» (parseFloat «"50"») (parseFloat «"2"») (parseFloat «"100"»))
     = Some (render_row «"Salt & Pepper <5kg"» «"A"» (parseFloat «"50"») (parseFloat «"2"») (parseFloat «"100"»)).
Proof.
  assert (H1 : plain_text «"Salt & Pepper <5kg"» = true) by reflexivity.
  assert (H2 : plain_text «"A"» = true) by reflexivity.
  split; [split; assumption | exact (row_html_cells _ _ _ _ _ H1 H2)].
Defined.

Lemma product_markup_shifts_amount_witness :
  (plain_text «"Rice"» = true /\ plain_text «"X"» = true /\ plain_text «"A"» = true)
  /\ parse_row_html (row_html («"Rice"» ++ «"</td><td>"» ++ «"X"») «"A"» (parseFloat «"50"») (parseFloat «"2"») (parseFloat «"100"»))
     = Some [«"Rice"»; «"X"»; «"A"»; cu_naira :: formatNumber (parseFloat «"50"»);
             number_to_string (parseFloat «"2"»); cu_naira :: formatNumber (parseFloat «"100"»)].
Proof.
  assert (H1 : plain_text «"Rice"» = true) by reflexivity.
  assert (H2 : plain_text «"X"» = true) by reflexivity.
  assert (H3 : plain_text «"A"» = true) by reflexivity.
  split; [repeat split; assumption | exact (product_markup_shifts_amount _ _ _ _ _ _ H1 H2 H3)].
Defined.

Lemma product_quote_drops_cell_witness :
  (plain_text «"Rice"» = true /\ plain_text «"A"» = true)
  /\ parse_row_html (row_html («"Rice"» ++ «"<b x="» ++ [cu_quot]) «"A"» (parseFloat «"50"») (parseFloat «"2"») (parseFloat «"100"»))
     = Some [«"Rice"» ++ «"A"»; cu_naira :: formatNumber (parseFloat «"50"»);
             number_to_string (parseFloat «"2"»); cu_naira :: formatNumber (parseFloat «"100"»)].
Proof.
  assert (H1 : plain_text «"Rice"» = true) by reflexivity.
  assert (H2 : plain_text «"A"» = true) by reflexivity.
  split; [split; assumption | exact (proj1 (product_quote_drops_cell _ _ _ _ _ H1 H2))].
Defined.
