(* ===== verification/Navigation.v ===== *)
(** * The "Preview" and "Back" handlers (src/script.js lines 114-151)

    "Preview" copies the client fields and the invoice number into the
    invoice view, prints today's date and the due date ten days later,
    calls [updateTotals] and switches the layout to the preview; "Back"
    switches the layout back to the form.  The display mode of the
    specification (Editing / Previewing) is read off the inline [display]
    of the two panels. *)

From Stdlib Require Import String ZArith List Lia Bool.
From S2P Require Import Prelude JsString JsNumber Dates Format Page Totals.
Import ListNotations.
Local Open Scope Z_scope.
Local Open Scope js_scope.

(** Line 120: [invoiceNumberInput.value.trim() || '0001']. *)
Definition invoice_number (input : jsstr) : jsstr :=
  let t := trim input in if str_falsy t then «"0001"» else t.

Section Handlers.
Context `{R : TotalsRenderer}.
(** The browser's time zone. *)
Variable tz : time_zone.

(** Lines 115-129, with [now] the time value of [new Date()]. *)
Definition fill_invoice_view (now : Z) (p : page) : page :=
  let today := Some now in
  let p := set_text clientName (text p clientNameInput) p in
  let p := set_text clientAddress (text p clientAddressInput) p in
  let p := set_text clientPhone (text p clientPhoneInput) p in
  let p := set_text invoiceNo (invoice_number (text p invoiceNumberInput)) p in
  let p := set_text invoiceDate (formatDate tz today) p in
  set_text dueDate (formatDate tz (due_date tz today)) p.

(** Lines 133-139. *)
Definition show_preview_layout (p : page) : page :=
  set_style BodyJustifyContent «"unset"» (set_style BodyAlignItems «"unset"»
    (set_style BodyDisplay «"block"» (set_style StepPreviewDisplay «"block"»
      (set_style StepClientDisplay «"none"» p)))).

Definition toPreview_click (now : Z) : js_m app_state unit :=
  modify (fun a => mk_app (fill_invoice_view now (pg a)) (itemCount a)) ;;
  on_page render_totals ;;
  modify (fun a => mk_app (show_preview_layout (pg a)) (itemCount a)).

(** Lines 144-150. *)
Definition show_form_layout (p : page) : page :=
  set_style BodyJustifyContent «"center"» (set_style BodyAlignItems «"center"»
    (set_style BodyDisplay «"flex"» (set_style StepClientDisplay «"block"»
      (set_style StepPreviewDisplay «"none"» p)))).

Definition backToItems_click : js_m app_state unit :=
  modify (fun a => mk_app (show_form_layout (pg a)) (itemCount a)).
End Handlers.


(** ** The display mode *)

Inductive mode := Editing | Previewing.

(** The mode the page shows: the preview when the form is hidden and
    the preview shown (lines 133-134, 176-177), the form when the form
    is shown and the preview hidden (lines 144-145), or when neither
    inline style is set, as on the initial page, whose CSS (index.html,
    not under src/) shows the form, as the specification's initial
    [Editing] state says.  Any other pair of styles is no mode. *)
Definition mode_of (p : page) : option mode :=
  let client := style p StepClientDisplay in
  let preview := style p StepPreviewDisplay in
  if str_eqb client «"none"» && str_eqb preview «"block"» then Some Previewing
  else if (str_eqb client «"block"» && str_eqb preview «"none"»)
          || (str_eqb client [] && str_eqb preview [])
  then Some Editing
  else None.

(** ** Runs of the handlers *)

Section Runs.
Context `{R : TotalsRenderer}.
Variable tz : time_zone.

(** The state after "Preview": the layout switches only when
    [updateTotals] completes. *)
Lemma toPreview_exec now a :
  let P := fill_invoice_view tz now (pg a) in
  exec (toPreview_click tz now) a
  = mk_app (match fst (render_totals P) with
            | Normal _ => show_preview_layout (exec render_totals P)
            | Thrown _ => exec render_totals P
            end) (itemCount a).
Proof.
  intros P. unfold toPreview_click. rewrite exec_bind. cbn [modify pg itemCount].
  rewrite exec_bind. unfold on_page. cbn [pg itemCount]. fold P.
  unfold exec. destruct (render_totals P) as [[u|e] P']; reflexivity.
Qed.

Lemma fill_invoice_view_items now p :
  items_table (fill_invoice_view tz now p) = items_table p.
Proof. reflexivity. Qed.

Lemma show_layout_frame_items p :
  items_table (show_preview_layout p) = items_table p.
Proof. reflexivity. Qed.

Lemma show_layout_frame p :
  items_table (show_preview_layout p) = items_table p /\ text (show_preview_layout p) = text p
  /\ items_table (show_form_layout p) = items_table p /\ text (show_form_layout p) = text p.
Proof. repeat split. Qed.

Lemma toPreview_normal now a :
  Forall row_ok (items_table (pg a)) -> fst (toPreview_click tz now a) = Normal tt.
Proof.
  intros Hok. unfold toPreview_click, bind, modify, on_page. cbn [pg itemCount].
  pose proof (render_normal (fill_invoice_view tz now (pg a))) as Hn.
  rewrite fill_invoice_view_items in Hn. specialize (Hn Hok).
  destruct (render_totals _) as [[u|e] p']; cbn in Hn |- *; [reflexivity | discriminate].
Qed.

(** On rows [updateTotals] can read, "Preview" shows the preview. *)
Lemma toPreview_mode now a :
  Forall row_ok (items_table (pg a)) ->
  mode_of (pg (exec (toPreview_click tz now) a)) = Some Previewing.
Proof.
  intros Hok. rewrite toPreview_exec. cbn [pg].
  rewrite render_normal by (rewrite fill_invoice_view_items; exact Hok).
  unfold mode_of, show_preview_layout. page_simpl. reflexivity.
Qed.

Lemma toPreview_frame now a :
  items_table (pg (exec (toPreview_click tz now) a)) = items_table (pg a)
  /\ itemCount (exec (toPreview_click tz now) a) = itemCount a.
Proof.
  rewrite toPreview_exec. cbn [pg itemCount]. split; [|reflexivity].
  destruct (fst _); rewrite ?show_layout_frame_items, render_items; reflexivity.
Qed.
End Runs.

Section Theorems.
Context `{R : TotalsRenderer}.
Variable tz : time_zone.

(** C17: navigating to the preview and back keeps the ledger: no item
    is added, removed or reordered, and [itemCount] is unchanged, whether
    or not [updateTotals] completes. *)
Theorem preview_back_keeps_ledger now a :
  let a' := exec backToItems_click (exec (toPreview_click tz now) a) in
  items_table (pg a') = items_table (pg a) /\ itemCount a' = itemCount a.
Proof.
  intros a'. subst a'. unfold backToItems_click. rewrite exec_modify. cbn [pg itemCount].
  rewrite toPreview_exec. cbn [pg itemCount]. split; [|reflexivity].
  rewrite (proj1 (proj2 (proj2 (show_layout_frame _)))).
  destruct (fst _); rewrite ?(proj1 (show_layout_frame _)), render_items; reflexivity.
Qed.

(** C18: "Preview" on rows [updateTotals] can read fills the invoice
    view: the client fields as typed, the trimmed invoice number or
    [0001], today's date and the date [setDate] gives ten local days
    later, and shows the preview. *)
Theorem preview_fills_view now a :
  Forall row_ok (items_table (pg a)) ->
  let p' := pg (exec (toPreview_click tz now) a) in
  text p' clientName = text (pg a) clientNameInput
  /\ text p' clientAddress = text (pg a) clientAddressInput
  /\ text p' clientPhone = text (pg a) clientPhoneInput
  /\ text p' invoiceNo = invoice_number (text (pg a) invoiceNumberInput)
  /\ text p' invoiceDate = formatDate tz (Some now)
  /\ text p' dueDate = formatDate tz (time_clip (utc_of_local tz (local_time tz now + 10 * msPerDay)))
  /\ mode_of p' = Some Previewing.
Proof.
  intros Hok p'. subst p'. rewrite toPreview_exec. cbn [pg].
  rewrite render_normal by (rewrite fill_invoice_view_items; exact Hok).
  rewrite (proj1 (proj2 (show_layout_frame _))).
  replace (time_clip (utc_of_local tz (local_time tz now + 10 * msPerDay))) with (due_date tz (Some now))
    by (apply setDate_add_days).
  repeat split; try (rewrite render_text by reflexivity; unfold fill_invoice_view; page_simpl; reflexivity).
Qed.

(** "Back" always shows the form. *)
Lemma back_mode a : mode_of (pg (exec backToItems_click a)) = Some Editing.
Proof. unfold backToItems_click, mode_of, show_form_layout. cbn. page_simpl. reflexivity. Qed.
End Theorems.

Lemma preview_fills_view_witness :
  let a := mk_app (fixture_page (fun e => match e with
                                          | clientNameInput => «"Ada"»
                                          | invoiceNumberInput => «"  "»
                                          | _ => [] end) []) 0 in
  Forall row_ok (items_table (pg a))
  /\ let p' := pg (exec (toPreview_click utc 0) a) in
     text p' clientName = text (pg a) clientNameInput
     /\ text p' clientAddress = text (pg a) clientAddressInput
     /\ text p' clientPhone = text (pg a) clientPhoneInput
     /\ text p' invoiceNo = invoice_number (text (pg a) invoiceNumberInput)
     /\ text p' invoiceDate = formatDate utc (Some 0)
     /\ text p' dueDate = formatDate utc (time_clip (utc_of_local utc (local_time utc 0 + 10 * msPerDay)))
     /\ mode_of p' = Some Previewing.
Proof.
  intros a. assert (H : Forall row_ok (items_table (pg a))) by constructor.
  split; [exact H | exact (preview_fills_view utc 0 a H)].
Defined.
