(* ===== verification/Export.v ===== *)
(** * The "Download" handler (src/script.js lines 154-225)

    An [async] handler with two [await]s, modelled as three phases that
    the event loop runs at different times:
    - [download_start], lines 155-191: log [Generating PDF…], run
      [updateTotals], capture six layout properties in [originalStyles],
      rewrite the layout for printing and scroll to the top; then
      [await] a 1500 ms timer;
    - lines 195-213: build [opt] and call [html2pdf().set(opt).from(invoice)
      .save()], which renders the page as it is at that moment; then
      [await] the returned promise;
    - [finish_download], lines 215-224, only if that promise fulfils:
      [restore_layout] and the log [PDF saved]; a rejection ends the
      handler there, so the layout stays as printed.
    Other events may run while the handler is suspended ([App]). *)

From Stdlib Require Import String ZArith List Lia Bool SpecFloat.
From S2P Require Import Prelude JsString JsNumber Page.
Import ListNotations.
Local Open Scope Z_scope.
Local Open Scope js_scope.

(** Lines 166-173: [originalStyles]. *)
Record saved_styles := mk_saved {
  bodyClass : jsstr; bodyPadding : jsstr; bodyMargin : jsstr;
  invoiceWidth : jsstr; invoiceMargin : jsstr; invoicePadding : jsstr
}.

Definition capture_styles (p : page) : saved_styles :=
  mk_saved (style p BodyClassName) (style p BodyPadding) (style p BodyMargin)
           (style p InvoiceWidth) (style p InvoiceMargin) (style p InvoicePadding).

(** Lines 176-188. *)
Definition print_layout (p : page) : page :=
  set_style InvoicePadding «"0 20px 20px 20px"» (set_style InvoiceMargin «"0 auto"»
    (set_style InvoiceWidth «"794px"» (set_style BodyDisplay «"block"»
      (set_style BodyMargin «"0"» (set_style BodyPadding «"0"»
        (set_style BodyClassName [] (set_style StepPreviewDisplay «"block"»
          (set_style StepClientDisplay «"none"» p)))))))).

(** Line 155: [console.log('Generating PDF…')]. *)
Definition log_generating (p : page) : page :=
  console_log [LogStr («"Generating PDF"» ++ [8230])] p.

Section Download.
Context `{R : TotalsRenderer}.

(** Lines 155-191, up to the first [await]; the result is
    [originalStyles], which the rest of the handler keeps. *)
Definition download_start : js_m app_state saved_styles :=
  modify (fun a => mk_app (log_generating (pg a)) (itemCount a)) ;;
  on_page render_totals ;;
  a <- get ;;
  let originalStyles := capture_styles (pg a) in
  put (mk_app (scroll_to 0 0 (print_layout (pg a))) (itemCount a)) ;;
  ret originalStyles.
End Download.

(** Lines 195-211: the options handed to html2pdf. *)
Record pdf_options := mk_opt {
  opt_margin : Z; opt_filename : jsstr;
  opt_image_type : jsstr; opt_image_quality : num;
  opt_scale : Z; opt_useCORS : bool; opt_allowTaint : bool;
  opt_backgroundColor : jsstr; opt_logging : bool;
  opt_unit : jsstr; opt_format : jsstr; opt_orientation : jsstr
}.

Definition opt : pdf_options :=
  mk_opt 0 «"Hillsville_Farms_Invoice.pdf"» «"jpeg"» (round_decimal false 98 (-2))
         2 true true «"#ffffff"» false «"mm"» «"a4"» «"portrait"».

(** Lines 216-222: [body.style.display] is reset to the empty string,
    not to a captured value. *)
Definition restore_layout (originalStyles : saved_styles) (p : page) : page :=
  set_style InvoicePadding (invoicePadding originalStyles)
    (set_style InvoiceMargin (invoiceMargin originalStyles)
      (set_style InvoiceWidth (invoiceWidth originalStyles)
        (set_style BodyDisplay []
          (set_style BodyMargin (bodyMargin originalStyles)
            (set_style BodyPadding (bodyPadding originalStyles)
              (set_style BodyClassName (bodyClass originalStyles) p)))))).

(** Lines 215-224: what runs once the html2pdf promise fulfils. *)
Definition finish_download (originalStyles : saved_styles) (p : page) : page :=
  console_log [LogStr «"PDF saved"»] (restore_layout originalStyles p).

(** The six properties [restore_layout] puts back. *)
Definition restored_keys : list style_key :=
  [BodyClassName; BodyPadding; BodyMargin; InvoiceWidth; InvoiceMargin; InvoicePadding].

(** ** Runs of the phases *)

Section Runs.
Context `{R : TotalsRenderer}.

Lemma download_start_run a :
  let P := exec render_totals (log_generating (pg a)) in
  fst (render_totals (log_generating (pg a))) = Normal tt ->
  download_start a = (Normal (capture_styles P), mk_app (scroll_to 0 0 (print_layout P)) (itemCount a)).
Proof.
  intros P H. subst P. unfold download_start, bind, modify, on_page, get, put, ret, exec. cbn [pg itemCount].
  destruct (render_totals (log_generating (pg a))) as [[u|e] P']; cbn in H; [reflexivity | discriminate].
Qed.

Lemma download_start_frame a :
  items_table (pg (snd (download_start a))) = items_table (pg a)
  /\ itemCount (snd (download_start a)) = itemCount a
  /\ alerts (pg (snd (download_start a))) = alerts (pg a).
Proof.
  unfold download_start, bind, modify, on_page, get, put, ret. cbn [pg itemCount].
  pose proof (render_items (log_generating (pg a))) as Hi.
  pose proof (render_alerts (log_generating (pg a))) as Ha.
  unfold exec in Hi, Ha. destruct (render_totals (log_generating (pg a))) as [[u|e] P'];
    cbn in *; rewrite ?Hi, ?Ha; auto.
Qed.

Lemma print_layout_frame p :
  let q := scroll_to 0 0 (print_layout p) in
  items_table q = items_table p /\ text q = text p /\ invoice_table q = invoice_table p.
Proof. repeat split. Qed.

(** The console entry and the scroll leave every style where it was. *)
Lemma finish_download_style o p : style (finish_download o p) = style (restore_layout o p).
Proof. reflexivity. Qed.

Lemma scroll_to_style x y p : style (scroll_to x y p) = style p.
Proof. reflexivity. Qed.

Lemma log_generating_style p : style (log_generating p) = style p.
Proof. reflexivity. Qed.

(** Putting back what [capture_styles] took restores those six
    properties, whatever happened to them in between. *)
Lemma restore_captured p q k :
  In k restored_keys -> style (restore_layout (capture_styles p) q) k = style p k.
Proof.
  unfold restored_keys. intros Hk.
  repeat (destruct Hk as [<-|Hk]; [unfold restore_layout, capture_styles; cbn; page_simpl; reflexivity|]).
  destruct Hk.
Qed.
End Runs.
