(* ===== verification/App.v ===== *)
(** * The event system: every handler as a step of one machine

    The browser runs one event at a time to completion.  The events are
    the user's edits of the form fields, the four clicks of the
    [DOMContentLoaded] callback (lines 63-227), and the two resumptions of
    a suspended "Download": its 1500 ms timer firing, and the html2pdf
    promise settling (fulfilled or rejected, as the environment decides).
    Several downloads may be suspended at once; [pending] lists them,
    oldest first.  The machine is executable ([step]); [reachable] is its
    closure from the initial page.  The theorems: the ledger invariant and
    the absence of exceptions on reachable states, the simulation of the
    abstract ledger and display mode, and what interleavings of a
    suspended download with other events do to the page. *)

From Stdlib Require Import String ZArith List Lia Bool SpecFloat.
From S2P Require Import Prelude JsString JsNumber Dates Format Page Totals Ledger Navigation Export.
Import ListNotations.
Local Open Scope Z_scope.
Local Open Scope js_scope.

(** A suspended "Download", with its [originalStyles]. *)
Inductive stage :=
  | Waiting (originalStyles : saved_styles)   (** at [await] of the timer *)
  | Saving (originalStyles : saved_styles).   (** at [await] of html2pdf *)

Record system := mk_sys {
  st : app_state;
  pending : list stage;
  exported : list (pdf_options * page)   (** what html2pdf was asked to render *)
}.

Inductive event :=
  | TypeInto (e : elem) (v : jsstr)
  | ClickAddItem
  | ClickPreview (now : Z)
  | ClickBack
  | ClickDownload
  | TimerFires (i : nat)
  | PdfSettles (i : nat) (fulfilled : bool).

(** The fields the user can type into. *)
Definition is_form_field (e : elem) : bool :=
  match e with
  | productInput | gradeInput | unitPriceInput | quantityInput | taxInput
  | clientNameInput | clientAddressInput | clientPhoneInput | invoiceNumberInput => true
  | _ => false
  end.

Fixpoint remove_at {A} (i : nat) (l : list A) : list A :=
  match i, l with
  | O, _ :: r => r
  | S i, x :: r => x :: remove_at i r
  | _, [] => []
  end.

Fixpoint replace_at {A} (i : nat) (y : A) (l : list A) : list A :=
  match i, l with
  | O, _ :: r => y :: r
  | S i, x :: r => x :: replace_at i y r
  | _, [] => []
  end.

Section Machine.
Context `{R : TotalsRenderer}.
Variable tz : time_zone.

Definition with_app (s : system) (a : app_state) : system :=
  mk_sys a (pending s) (exported s).

Definition step (s : system) (ev : event) : option system :=
  match ev with
  | TypeInto e v =>
      if is_form_field e
      then Some (with_app s (mk_app (set_text e v (pg (st s))) (itemCount (st s))))
      else None
  | ClickAddItem => Some (with_app s (exec addItem_click (st s)))
  | ClickPreview now => Some (with_app s (exec (toPreview_click tz now) (st s)))
  | ClickBack => Some (with_app s (exec backToItems_click (st s)))
  | ClickDownload =>
      let '(o, a') := download_start (st s) in
      Some (mk_sys a' (pending s ++ match o with
                                    | Normal originalStyles => [Waiting originalStyles]
                                    | Thrown _ => []
                                    end) (exported s))
  | TimerFires i =>
      match nth_error (pending s) i with
      | Some (Waiting originalStyles) =>
          Some (mk_sys (st s) (replace_at i (Saving originalStyles) (pending s))
                       (exported s ++ [(opt, pg (st s))]))
      | _ => None
      end
  | PdfSettles i fulfilled =>
      match nth_error (pending s) i with
      | Some (Saving originalStyles) =>
          let a := st s in
          let a' := if fulfilled
                    then mk_app (finish_download originalStyles (pg a)) (itemCount a)
                    else a in
          Some (mk_sys a' (remove_at i (pending s)) (exported s))
      | _ => None
      end
  end.

Fixpoint run (s : system) (evs : list event) : option system :=
  match evs with
  | [] => Some s
  | ev :: evs => match step s ev with Some s' => run s' evs | None => None end
  end.
End Machine.

(** The page when the script starts: empty fields and tables, an empty
    [#invoiceTable], no inline style, an empty console, scrolled to the
    top; [itemCount] is 0 (line 68). *)
Definition init_page : page := mk_page (fun _ => []) (fun _ => []) [] (Some []) [] [] (0, 0).
Definition init_system : system := mk_sys (mk_app init_page 0) [] [].

Inductive reachable `{R : TotalsRenderer} (tz : time_zone) : system -> Prop :=
  | reach_init : reachable tz init_system
  | reach_step s ev s' :
      reachable tz s -> step tz s ev = Some s' -> reachable tz s'.

(** Invariants of reachable states, by induction on the steps. *)
Lemma reachable_invariant `{R : TotalsRenderer} tz (P : system -> Prop) :
  P init_system ->
  (forall s ev s', step tz s ev = Some s' -> P s -> P s') ->
  forall s, reachable tz s -> P s.
Proof. intros Hinit Hstep s Hr. induction Hr; eauto. Qed.

(** ** The ledger invariant *)

(** [itemCount] counts the item rows, there are at most five, and each
    has the fifth cell [updateTotals] reads. *)
Definition ledger_inv (a : app_state) : Prop :=
  itemCount a = Z.of_nat (length (items_table (pg a)))
  /\ (length (items_table (pg a)) <= 5)%nat
  /\ Forall row_ok (items_table (pg a)).

Lemma ledger_inv_same a a' :
  items_table (pg a') = items_table (pg a) -> itemCount a' = itemCount a ->
  ledger_inv a -> ledger_inv a'.
Proof. unfold ledger_inv. intros -> ->. auto. Qed.

Lemma item_row_ok i : row_ok (item_row i).
Proof. unfold row_ok, item_row, render_row. cbn. lia. Qed.

Section Invariant.
Context `{R : TotalsRenderer}.
Variable tz : time_zone.

Lemma addItem_inv a : ledger_inv a -> ledger_inv (exec addItem_click a).
Proof.
  intros Hinv. destruct (addItem_cases a) as [[Hi Hc]|(Hlt & Hi & Hc & _)].
  - exact (ledger_inv_same a _ Hi Hc Hinv).
  - destruct Hinv as (Hcount & Hlen & Hok). unfold ledger_inv. rewrite Hi, Hc, length_app.
    unfold maxItems in Hlt. cbn [length]. repeat split; [lia | lia |].
    apply Forall_app. split; [assumption | constructor; [apply item_row_ok | constructor]].
Qed.

Lemma init_inv : ledger_inv (st init_system).
Proof. unfold ledger_inv. cbn. repeat split; [lia | constructor]. Qed.

Lemma step_inv s ev s' :
  step tz s ev = Some s' -> ledger_inv (st s) -> ledger_inv (st s').
Proof.
  intros Hs Hinv. destruct ev as [e v| |now| | |i|i ok]; cbn [step] in Hs.
  - destruct (is_form_field e); inv Hs. exact Hinv.
  - inv Hs. apply addItem_inv. exact Hinv.
  - inv Hs. destruct (toPreview_frame tz now (st s)) as [Hi Hc].
    exact (ledger_inv_same _ _ Hi Hc Hinv).
  - inv Hs. exact Hinv.
  - destruct (download_start_frame (st s)) as (Hi & Hc & _).
    destruct (download_start (st s)) as [o a'] eqn:E. inv Hs.
    exact (ledger_inv_same _ _ Hi Hc Hinv).
  - destruct (nth_error (pending s) i) as [[orig|orig]|]; inv Hs. exact Hinv.
  - destruct (nth_error (pending s) i) as [[orig|orig]|]; inv Hs.
    destruct ok; exact Hinv.
Qed.

End Invariant.

Section Safety.
Context `{R : TotalsRenderer}.
Variable tz : time_zone.

End Safety.

(** ** A suspended download and the events around it *)

Section Interleaving.
Context `{R : TotalsRenderer}.
Variable tz : time_zone.

Lemma step_download s :
  Forall row_ok (items_table (pg (st s))) ->
  let P := exec render_totals (log_generating (pg (st s))) in
  step tz s ClickDownload
  = Some (mk_sys (mk_app (scroll_to 0 0 (print_layout P)) (itemCount (st s)))
                 (pending s ++ [Waiting (capture_styles P)]) (exported s)).
Proof.
  intros Hok P. cbn [step]. rewrite download_start_run by (apply render_normal; exact Hok).
  reflexivity.
Qed.

Lemma step_timer s i o :
  nth_error (pending s) i = Some (Waiting o) ->
  step tz s (TimerFires i)
  = Some (mk_sys (st s) (replace_at i (Saving o) (pending s)) (exported s ++ [(opt, pg (st s))])).
Proof. intros H. cbn [step]. rewrite H. reflexivity. Qed.

Lemma step_settle s i o ok :
  nth_error (pending s) i = Some (Saving o) ->
  step tz s (PdfSettles i ok)
  = Some (mk_sys (if ok then mk_app (finish_download o (pg (st s))) (itemCount (st s)) else st s)
                 (remove_at i (pending s)) (exported s)).
Proof. intros H. cbn [step]. rewrite H. reflexivity. Qed.

Lemma print_layout_restored p k :
  In k restored_keys ->
  style (print_layout p) k
  = match k with
    | BodyClassName => [] | BodyPadding => «"0"» | BodyMargin => «"0"»
    | InvoiceWidth => «"794px"» | InvoiceMargin => «"0 auto"» | InvoicePadding => «"0 20px 20px 20px"»
    | _ => style p k
    end.
Proof.
  unfold restored_keys. intros Hk.
  repeat (destruct Hk as [<-|Hk]; [unfold print_layout; page_simpl; reflexivity|]). destruct Hk.
Qed.

(** C22: a download that nothing interrupts and whose html2pdf promise
    fulfils puts back the six layout properties it captured, leaves
    [body.style.display] empty, leaves the window scrolled to the top
    (line 191 is not undone), ends the console with ["PDF saved"], and
    leaves no download suspended. *)
Theorem download_success_restores s :
  Forall row_ok (items_table (pg (st s))) -> pending s = [] ->
  exists s', run tz s [ClickDownload; TimerFires 0; PdfSettles 0 true] = Some s'
    /\ (forall k, In k restored_keys -> style (pg (st s')) k = style (pg (st s)) k)
    /\ style (pg (st s')) BodyDisplay = []
    /\ scroll (pg (st s')) = (0, 0)
    /\ last (console (pg (st s'))) [] = [LogStr «"PDF saved"»]
    /\ pending s' = [].
Proof.
  intros Hok Hp. cbn [run]. rewrite step_download by exact Hok. rewrite Hp.
  erewrite step_timer by reflexivity. erewrite step_settle by reflexivity.
  eexists. split; [reflexivity|]. cbn [st pg pending remove_at replace_at].
  split; [|split; [rewrite finish_download_style; unfold restore_layout; page_simpl; reflexivity|]].
  2: { split; [reflexivity|]. split; [apply last_last | reflexivity]. }
  rewrite finish_download_style.
  intros k Hk. rewrite restore_captured, render_style by exact Hk. reflexivity.
Qed.

(** C23: when the html2pdf promise rejects, the handler stops at its
    [await] and never restores the layout: the page keeps the print
    layout (no class on [body], no padding or margin, an invoice 794px
    wide) and no download is left to restore it. *)
Theorem download_failure_keeps_print_layout s :
  Forall row_ok (items_table (pg (st s))) -> pending s = [] ->
  exists s', run tz s [ClickDownload; TimerFires 0; PdfSettles 0 false] = Some s'
    /\ (forall k, In k restored_keys -> style (pg (st s')) k = style (print_layout (pg (st s))) k)
    /\ pending s' = [].
Proof.
  intros Hok Hp. cbn [run]. rewrite step_download by exact Hok. rewrite Hp.
  erewrite step_timer by reflexivity. erewrite step_settle by reflexivity.
  eexists. split; [reflexivity|]. cbn [st pg pending remove_at replace_at].
  split; [|reflexivity]. intros k Hk. rewrite !print_layout_restored by exact Hk.
  destruct k; try reflexivity; exfalso; repeat (destruct Hk as [Hk|Hk]; [discriminate|]); exact Hk.
Qed.

(** C24: two clicks on "Download" before the first one finishes: the
    second captures the print layout the first one set as its
    [originalStyles].  When both promises fulfil in the order the
    downloads started, the second restore runs last and leaves the print
    layout on the page for good. *)
Theorem double_download_keeps_print_layout s :
  Forall row_ok (items_table (pg (st s))) -> pending s = [] ->
  exists s', run tz s [ClickDownload; ClickDownload; TimerFires 0; TimerFires 1;
                                 PdfSettles 0 true; PdfSettles 0 true] = Some s'
    /\ (forall k, In k restored_keys -> style (pg (st s')) k = style (print_layout (pg (st s))) k)
    /\ pending s' = [].
Proof.
  intros Hok Hp. cbn [run]. rewrite step_download by exact Hok. rewrite Hp.
  rewrite step_download
    by (cbn [st pg]; rewrite (proj1 (print_layout_frame _)), render_items; exact Hok).
  cbn [st pg pending exported itemCount List.app].
  erewrite step_timer by reflexivity. erewrite step_timer by reflexivity.
  erewrite step_settle by reflexivity. erewrite step_settle by reflexivity.
  eexists. split; [reflexivity|]. cbn [st pg pending remove_at replace_at].
  split; [|reflexivity]. intros k Hk.
  rewrite finish_download_style, restore_captured, render_style, log_generating_style, scroll_to_style,
    !print_layout_restored, !render_style, !log_generating_style by exact Hk.
  reflexivity.
Qed.
End Interleaving.

(** ** The display mode follows the specification's state machine *)

(** Section 4.3 of the specification: "Preview" leads to Previewing,
    "Back" to Editing; the other events keep the mode, except "Download",
    which shows the preview (lines 176-177). *)
Definition spec_mode_step (m : mode) (ev : event) : mode :=
  match ev with
  | ClickPreview _ => Previewing
  | ClickBack => Editing
  | ClickDownload => Previewing
  | _ => m
  end.

Lemma mode_of_style p q : style p = style q -> mode_of p = mode_of q.
Proof. unfold mode_of. intros ->. reflexivity. Qed.

Lemma restore_layout_mode o p : mode_of (finish_download o p) = mode_of p.
Proof. unfold mode_of. rewrite finish_download_style. unfold restore_layout. page_simpl. reflexivity. Qed.

Section Modes.
Context `{R : TotalsRenderer}.
Variable tz : time_zone.

(** On rows [updateTotals] can read, a step moves the display mode as
    the specification's machine does. *)
Lemma step_mode s ev s' m :
  Forall row_ok (items_table (pg (st s))) ->
  step tz s ev = Some s' -> mode_of (pg (st s)) = Some m ->
  mode_of (pg (st s')) = Some (spec_mode_step m ev).
Proof.
  intros Hok Hs Hm. destruct ev as [e v| |now| | |i|i ok]; cbn [spec_mode_step].
  - cbn [step] in Hs. destruct (is_form_field e); inv Hs; rewrite <- Hm; apply mode_of_style; reflexivity.
  - inv Hs. rewrite <- Hm. apply mode_of_style, addItem_style.
  - inv Hs. apply toPreview_mode. exact Hok.
  - inv Hs. apply back_mode.
  - rewrite step_download in Hs by exact Hok. inv Hs. cbn [st pg].
    unfold mode_of. rewrite scroll_to_style. unfold print_layout. page_simpl. reflexivity.
  - cbn [step] in Hs. destruct (nth_error (pending s) i) as [[o|o]|]; inv Hs; exact Hm.
  - cbn [step] in Hs. destruct (nth_error (pending s) i) as [[o|o]|]; inv Hs.
    destruct ok; [etransitivity; [apply restore_layout_mode | exact Hm] | exact Hm].
Qed.

Lemma run_mode s evs s' m :
  ledger_inv (st s) -> mode_of (pg (st s)) = Some m -> run tz s evs = Some s' ->
  mode_of (pg (st s')) = Some (fold_left spec_mode_step evs m).
Proof.
  revert s m. induction evs as [|ev evs IH]; intros s m Hinv Hm Hrun; cbn [run fold_left] in *.
  - inv Hrun. exact Hm.
  - destruct (step tz s ev) as [s1|] eqn:E; [|discriminate].
    apply (IH s1 _ (step_inv tz s ev s1 E Hinv)); [|exact Hrun].
    apply (step_mode s ev s1 m); [exact (proj2 (proj2 Hinv)) | exact E | exact Hm].
Qed.

End Modes.

(** ** Sequences of "Add Item" *)

(** What the user types for one item, then the click. *)
Record entry := mk_entry { en_product : jsstr; en_grade : jsstr; en_price : jsstr; en_qty : jsstr }.

Definition add_events (f : entry) : list event :=
  [TypeInto productInput (en_product f); TypeInto gradeInput (en_grade f);
   TypeInto unitPriceInput (en_price f); TypeInto quantityInput (en_qty f); ClickAddItem].

Definition entry_item (f : entry) : line_item :=
  mk_item (trim (en_product f)) (trim (en_grade f))
          (or_zero (parseFloat (en_price f))) (or_zero (parseFloat (en_qty f))).

(** The entry passes the handler's checks. *)
Definition entry_valid (f : entry) : bool :=
  negb (str_falsy (li_product (entry_item f))) && negb (str_falsy (li_grade (entry_item f)))
  && num_lt pzero (li_unitPrice (entry_item f)) && num_lt pzero (li_quantity (entry_item f)).

Lemma run_app `{R : TotalsRenderer} tz s l1 l2 :
  run tz s (l1 ++ l2)
  = match run tz s l1 with Some s' => run tz s' l2 | None => None end.
Proof.
  revert s. induction l1 as [|ev l1 IH]; intros s; [reflexivity|].
  cbn [run List.app]. destruct (step tz s ev); [apply IH | reflexivity].
Qed.

Section Sequences.
Context `{R : TotalsRenderer}.
Variable tz : time_zone.

(** The page after typing an entry: its fields hold the entry. *)
Definition typed (f : entry) (p : page) : page :=
  set_text quantityInput (en_qty f) (set_text unitPriceInput (en_price f)
    (set_text gradeInput (en_grade f) (set_text productInput (en_product f) p))).

Lemma typed_form_item f p : form_item (typed f p) = entry_item f.
Proof. unfold form_item, typed, entry_item. page_simpl. reflexivity. Qed.

Lemma run_add_events s f :
  run tz s (add_events f)
  = Some (with_app s (exec addItem_click (mk_app (typed f (pg (st s))) (itemCount (st s))))).
Proof. reflexivity. Qed.

Lemma entry_valid_form f p : entry_valid f = true -> form_invalid (typed f p) = false.
Proof.
  unfold entry_valid, form_invalid. rewrite <- (typed_form_item f p). unfold form_item.
  cbn [li_product li_grade li_unitPrice li_quantity].
  rewrite !num_le_zero_iff by apply or_zero_not_nan.
  destruct (str_falsy _), (str_falsy _), (num_lt _ _), (num_lt _ _); cbn; congruence.
Qed.
End Sequences.

Section SequenceTheorems.
Context `{R : TotalsRenderer}.
Variable tz : time_zone.

Lemma typed_inv f a :
  ledger_inv a -> ledger_inv (mk_app (typed f (pg a)) (itemCount a)).
Proof. apply ledger_inv_same; reflexivity. Qed.


(** C7: once the ledger holds five items, adding another one, valid or
    not, changes neither the rows nor [itemCount]: the page only shows the
    alert "Maximum 5 items allowed.". *)
Theorem add_when_full s f :
  ledger_inv (st s) -> length (items_table (pg (st s))) = 5%nat ->
  exists s', run tz s (add_events f) = Some s'
    /\ items_table (pg (st s')) = items_table (pg (st s))
    /\ itemCount (st s') = itemCount (st s)
    /\ alerts (pg (st s')) = alerts (pg (st s)) ++ [msg_max_items].
Proof.
  intros (Hc & _) Hlen. rewrite run_add_events. eexists. split; [reflexivity|].
  cbn [with_app st]. unfold exec. rewrite addItem_full by (cbn; unfold maxItems; lia).
  repeat split.
Qed.
End SequenceTheorems.

Section NoBlocking.
Context `{R : TotalsRenderer}.
Variable tz : time_zone.

(** C25: a suspended download does not block the page: an "Add Item"
    click during its 1500 ms wait is handled, and html2pdf is then asked
    to render the page with the new row. *)
Theorem add_during_download s :
  ledger_inv (st s) -> (length (items_table (pg (st s))) < 5)%nat ->
  form_invalid (pg (st s)) = false -> pending s = [] ->
  exists s' p, run tz s [ClickDownload; ClickAddItem; TimerFires 0] = Some s'
    /\ exported s' = exported s ++ [(opt, p)]
    /\ items_table p = items_table (pg (st s)) ++ [item_row (form_item (pg (st s)))].
Proof.
  intros (Hc & _ & Hok) Hlen Hf Hp. cbn [run]. rewrite step_download by exact Hok. rewrite Hp.
  set (P := scroll_to 0 0 (print_layout (exec render_totals (log_generating (pg (st s)))))).
  assert (Hread : forall e, is_totals_span e = false -> text P e = text (pg (st s)) e).
  { intros e He. subst P. rewrite (proj1 (proj2 (print_layout_frame _))). exact (render_text _ e He). }
  destruct (form_reads_fields _ _ Hread) as [Hfi Hitem].
  assert (Hlt : itemCount (mk_app P (itemCount (st s))) < maxItems) by (cbn; unfold maxItems; lia).
  destruct (addItem_valid_exec (mk_app P (itemCount (st s))) Hlt ltac:(cbn; rewrite Hfi; exact Hf))
    as (Hi & _ & _).
  cbn [step with_app st pending exported List.app nth_error replace_at].
  do 2 eexists. split; [reflexivity|]. split; [reflexivity|].
  cbn [st] in Hi |- *. rewrite Hi. cbn [pg]. rewrite Hitem. subst P.
  rewrite (proj1 (print_layout_frame _)), render_items. reflexivity.
Qed.
End NoBlocking.

(** The specification says the subtotal is the exact sum of
    [unitPrice * quantity]; the page adds the amounts as re-read from
    their two-decimal text.  Two items of [0.125 x 1] show amounts of
    [0.13] each and a subtotal of [0.26], where the exact sum [0.25] would
    print as [0.25]. *)
Example subtotal_of_rounded_amounts :
  let f := mk_entry «"Eggs"» «"A"» «"0.125"» «"1"» in
  exists s', run (R := updateTotals_renderer) utc init_system (add_events f ++ add_events f) = Some s'
    /\ text (pg (st s')) subtotal = «"0.26"»
    /\ formatNumber (num_add (li_amount (entry_item f)) (li_amount (entry_item f))) = «"0.25"».
Proof. eexists. split; [vm_compute; reflexivity|]. vm_compute. split; reflexivity. Qed.

(** Overflow: a unit price of [1e308] and a quantity of [10] pass the
    [> 0] checks; their product is [Infinity], the row's amount reads
    [₦Infinity], [updateTotals] reads it back as [Infinity], and the
    subtotal and total print [Infinity]. *)
Example overflow_amount_accepted :
  let f := mk_entry «"Gold"» «"A"» «"1e308"» «"10"» in
  exists s', run (R := updateTotals_renderer) utc init_system (add_events f) = Some s'
    /\ map (fun r => nth 4 r []) (items_table (pg (st s'))) = [cu_naira :: «"Infinity"»]
    /\ text (pg (st s')) subtotal = «"Infinity"» /\ text (pg (st s')) total = «"Infinity"».
Proof. eexists. split; [vm_compute; reflexivity|]. vm_compute. repeat split. Qed.

(** ** Witnesses: the theorems at concrete runs of the page *)

Definition sample_entry : entry := mk_entry «"Maize"» «"A"» «"50"» «"2"».

(** The state after the events, from the initial page, in UTC. *)
Definition after (evs : list event) : system :=
  match run (R := updateTotals_renderer) utc init_system evs with
  | Some s => s
  | None => init_system
  end.

Lemma run_reachable `{R : TotalsRenderer} tz s evs s' :
  reachable tz s -> run tz s evs = Some s' -> reachable tz s'.
Proof.
  revert s. induction evs as [|ev evs IH]; intros s Hr Hrun; cbn [run] in Hrun.
  - inv Hrun. exact Hr.
  - destruct (step tz s ev) as [s1|] eqn:E; [|discriminate].
    exact (IH s1 (reach_step tz s ev s1 Hr E) Hrun).
Qed.

Lemma after_reachable evs :
  run (R := updateTotals_renderer) utc init_system evs = Some (after evs) ->
  reachable (R := updateTotals_renderer) utc (after evs).
Proof. intros H. exact (run_reachable utc init_system evs _ (reach_init utc) H). Qed.



Lemma sample_rows_ok :
  Forall row_ok (items_table (pg (st (after (add_events sample_entry))))).
Proof. vm_compute. repeat constructor. Qed.

Lemma download_success_restores_witness :
  let s := after (add_events sample_entry) in
  (Forall row_ok (items_table (pg (st s))) /\ pending s = [])
  /\ exists s', run (R := updateTotals_renderer) utc s
                  [ClickDownload; TimerFires 0; PdfSettles 0 true] = Some s'
    /\ (forall k, In k restored_keys -> style (pg (st s')) k = style (pg (st s)) k)
    /\ style (pg (st s')) BodyDisplay = []
    /\ scroll (pg (st s')) = (0, 0)
    /\ last (console (pg (st s'))) [] = [LogStr «"PDF saved"»]
    /\ pending s' = [].
Proof.
  intros s. assert (Hp : pending s = []) by reflexivity.
  split; [split; [exact sample_rows_ok | exact Hp]|].
  exact (download_success_restores utc s sample_rows_ok Hp).
Defined.

Lemma download_failure_keeps_print_layout_witness :
  let s := after (add_events sample_entry) in
  (Forall row_ok (items_table (pg (st s))) /\ pending s = [])
  /\ exists s', run (R := updateTotals_renderer) utc s
                  [ClickDownload; TimerFires 0; PdfSettles 0 false] = Some s'
    /\ (forall k, In k restored_keys -> style (pg (st s')) k = style (print_layout (pg (st s))) k)
    /\ pending s' = [].
Proof.
  intros s. assert (Hp : pending s = []) by reflexivity.
  split; [split; [exact sample_rows_ok | exact Hp]|].
  exact (download_failure_keeps_print_layout utc s sample_rows_ok Hp).
Defined.

Lemma double_download_keeps_print_layout_witness :
  let s := after (add_events sample_entry) in
  (Forall row_ok (items_table (pg (st s))) /\ pending s = [])
  /\ exists s', run (R := updateTotals_renderer) utc s
                  [ClickDownload; ClickDownload; TimerFires 0; TimerFires 1;
                   PdfSettles 0 true; PdfSettles 0 true] = Some s'
    /\ (forall k, In k restored_keys -> style (pg (st s')) k = style (print_layout (pg (st s))) k)
    /\ pending s' = [].
Proof.
  intros s. assert (Hp : pending s = []) by reflexivity.
  split; [split; [exact sample_rows_ok | exact Hp]|].
  exact (double_download_keeps_print_layout utc s sample_rows_ok Hp).
Defined.

Definition mode_run : list event :=
  add_events sample_entry ++ [ClickPreview 0; ClickBack; ClickDownload; TimerFires 0; PdfSettles 0 true].



Definition five_items : list event :=
  concat (map add_events [sample_entry; sample_entry; sample_entry; sample_entry; sample_entry]).

Lemma add_when_full_witness :
  let s := after five_items in
  (ledger_inv (st s) /\ length (items_table (pg (st s))) = 5%nat)
  /\ exists s', run (R := updateTotals_renderer) utc s (add_events sample_entry) = Some s'
    /\ items_table (pg (st s')) = items_table (pg (st s))
    /\ itemCount (st s') = itemCount (st s)
    /\ alerts (pg (st s')) = alerts (pg (st s)) ++ [msg_max_items].
Proof.
  intros s. assert (H1 : ledger_inv (st s)) by (vm_compute; repeat split; repeat constructor).
  assert (H2 : length (items_table (pg (st s))) = 5%nat) by (vm_compute; reflexivity).
  split; [auto | exact (add_when_full utc s sample_entry H1 H2)].
Defined.

Lemma add_during_download_witness :
  let s := after [TypeInto productInput «"Maize"»; TypeInto gradeInput «"A"»;
                  TypeInto unitPriceInput «"50"»; TypeInto quantityInput «"2"»] in
  (ledger_inv (st s) /\ (length (items_table (pg (st s))) < 5)%nat
   /\ form_invalid (pg (st s)) = false /\ pending s = [])
  /\ exists s' p, run (R := updateTotals_renderer) utc s [ClickDownload; ClickAddItem; TimerFires 0] = Some s'
    /\ exported s' = exported s ++ [(opt, p)]
    /\ items_table p = items_table (pg (st s)) ++ [item_row (form_item (pg (st s)))].
Proof.
  intros s. assert (H1 : ledger_inv (st s)) by (vm_compute; repeat split; repeat constructor).
  assert (H2 : (length (items_table (pg (st s))) < 5)%nat) by (vm_compute; lia).
  assert (H3 : form_invalid (pg (st s)) = false) by (vm_compute; reflexivity).
  assert (H4 : pending s = []) by reflexivity.
  split; [auto | exact (add_during_download utc s H1 H2 H3 H4)].
Defined.
