(* ===== verification/Refinement.v ===== *)
(** * The page refines the specification's ledger, over every run

    The specification's view of the program (spec.md sections 3, 4.1 and
    6) as a machine of its own: the ledger of line items, the four item
    fields of the input surface, and the validation errors reported so
    far.  Typing changes a field; "Add Item" runs [spec_addItem] on the
    item the fields describe and, on success, clears the fields (as lines
    105-108 do); every other event leaves it alone.  [spec_rel] says a
    page shows such a state: its rows are the rendered items, [itemCount]
    their number, its item fields the spec's fields and its alerts the
    messages of the errors.  The theorems: every step of [App.step]
    preserves [spec_rel] for the matching abstract step, so every run
    from the initial page shows the ledger the specification computes
    from the same events, and every reachable page shows a ledger of at
    most five valid items. *)

From Stdlib Require Import String ZArith List Lia Bool SpecFloat.
From S2P Require Import Prelude JsString JsNumber Dates Format Page Totals Ledger Navigation Export App.
Import ListNotations.
Local Open Scope Z_scope.
Local Open Scope js_scope.

(** ** The abstract machine *)

Record spec_state := mk_spec {
  sp_ledger : list line_item;
  sp_product : jsstr; sp_grade : jsstr; sp_price : jsstr; sp_qty : jsstr;
  sp_errors : list validation_error
}.

Definition spec_init : spec_state := mk_spec [] [] [] [] [] [].

(** The item the fields describe: trimmed texts, numbers as [parseFloat]
    reads them, [0] when they do not parse. *)
Definition spec_item (σ : spec_state) : line_item :=
  mk_item (trim (sp_product σ)) (trim (sp_grade σ))
          (or_zero (parseFloat (sp_price σ))) (or_zero (parseFloat (sp_qty σ))).

Definition spec_type (e : elem) (v : jsstr) (σ : spec_state) : spec_state :=
  let '(mk_spec l pr gr up q errs) := σ in
  match e with
  | productInput => mk_spec l v gr up q errs
  | gradeInput => mk_spec l pr v up q errs
  | unitPriceInput => mk_spec l pr gr v q errs
  | quantityInput => mk_spec l pr gr up v errs
  | _ => σ
  end.

Definition spec_event (σ : spec_state) (ev : event) : spec_state :=
  match ev with
  | TypeInto e v => spec_type e v σ
  | ClickAddItem =>
      match spec_addItem (sp_ledger σ) (spec_item σ) with
      | inl l' => mk_spec l' [] [] [] [] (sp_errors σ)
      | inr err => mk_spec (sp_ledger σ) (sp_product σ) (sp_grade σ) (sp_price σ) (sp_qty σ)
                           (sp_errors σ ++ [err])
      end
  | _ => σ
  end.

Definition spec_run (σ : spec_state) (evs : list event) : spec_state :=
  fold_left spec_event evs σ.

(** A valid item, as [addItem] requires it. *)
Definition item_valid (i : line_item) : bool :=
  negb (str_falsy (li_product i)) && negb (str_falsy (li_grade i))
  && num_lt pzero (li_unitPrice i) && num_lt pzero (li_quantity i).

(** The page shows the abstract state. *)
Definition spec_rel (σ : spec_state) (a : app_state) : Prop :=
  ledger_rel (sp_ledger σ) a
  /\ item_inputs (pg a) = [sp_product σ; sp_grade σ; sp_price σ; sp_qty σ]
  /\ alerts (pg a) = map error_message (sp_errors σ).

(** What [spec_rel] looks at. *)
Definition ledger_view (a : app_state) :=
  (items_table (pg a), itemCount a, item_inputs (pg a), alerts (pg a)).

(** ** Handlers that leave the view alone *)

Lemma spec_rel_view σ a a' :
  ledger_view a' = ledger_view a -> spec_rel σ a -> spec_rel σ a'.
Proof.
  unfold ledger_view, spec_rel, ledger_rel. intros H ((Hr & Hc) & Hin & Ha).
  injection H as E1 E2. unfold item_inputs in *. repeat split; congruence.
Qed.

Section Frames.
Context `{R : TotalsRenderer}.
Variable tz : time_zone.

Lemma render_view p :
  ledger_view (mk_app (exec render_totals p) 0) = ledger_view (mk_app p 0).
Proof.
  unfold ledger_view, item_inputs. cbn [pg itemCount].
  rewrite render_items, render_alerts, !render_text by reflexivity. reflexivity.
Qed.

Lemma toPreview_view now a :
  ledger_view (exec (toPreview_click tz now) a) = ledger_view a.
Proof.
  rewrite toPreview_exec. unfold ledger_view, item_inputs.
  destruct (fst _); cbn [pg itemCount show_preview_layout set_style items_table text alerts];
    rewrite render_items, render_alerts, !render_text by reflexivity;
    unfold fill_invoice_view; page_simpl; reflexivity.
Qed.

Lemma download_view a : ledger_view (snd (download_start a)) = ledger_view a.
Proof.
  pose proof (render_view (log_generating (pg a))) as HR.
  unfold download_start, bind, modify, on_page, get, put, ret.
  unfold ledger_view, item_inputs, exec in *. cbn [pg itemCount] in *.
  destruct (render_totals (log_generating (pg a))) as [[u|e] P']; cbn in *; congruence.
Qed.

Lemma restore_view o a :
  ledger_view (mk_app (finish_download o (pg a)) (itemCount a)) = ledger_view a.
Proof. reflexivity. Qed.

Lemma back_view a : ledger_view (exec backToItems_click a) = ledger_view a.
Proof. reflexivity. Qed.
End Frames.

(** ** The simulation *)

Section Simulation.
Context `{R : TotalsRenderer}.
Variable tz : time_zone.

Lemma spec_rel_form σ a : spec_rel σ a -> form_item (pg a) = spec_item σ.
Proof.
  intros (_ & Hin & _). unfold item_inputs in Hin. injection Hin as E1 E2 E3 E4.
  unfold form_item, spec_item. rewrite E1, E2, E3, E4. reflexivity.
Qed.

Lemma spec_type_rel e v σ a :
  is_form_field e = true -> spec_rel σ a ->
  spec_rel (spec_type e v σ) (mk_app (set_text e v (pg a)) (itemCount a)).
Proof.
  intros He ((Hr & Hc) & Hin & Ha). destruct σ as [l pr gr up q errs].
  unfold item_inputs in Hin. injection Hin as E1 E2 E3 E4.
  unfold spec_rel, ledger_rel, item_inputs in *. cbn in *.
  destruct e; try discriminate He; cbn; repeat split; congruence.
Qed.

Lemma addItem_spec σ a :
  spec_rel σ a -> spec_rel (spec_event σ ClickAddItem) (exec addItem_click a).
Proof.
  intros Hrel. pose proof (addItem_outcome (sp_ledger σ) a (proj1 Hrel)) as H. cbv zeta in H.
  rewrite (spec_rel_form σ a Hrel) in H. destruct Hrel as (_ & Hin & Ha). cbn [spec_event].
  destruct (spec_addItem _ _) as [l'|err]; destruct H as (Hl & Hal & Hi);
    unfold spec_rel; cbn [sp_ledger sp_product sp_grade sp_price sp_qty sp_errors];
    rewrite ?map_app; cbn [map]; repeat split; first [apply Hl | exact Hi | congruence].
Qed.

Lemma step_spec s ev s' σ :
  step tz s ev = Some s' -> spec_rel σ (st s) -> spec_rel (spec_event σ ev) (st s').
Proof.
  intros Hs Hrel. destruct ev as [e v| |now| | |i|i ok]; cbn [step spec_event] in *.
  - destruct (is_form_field e) eqn:He; inv Hs. apply spec_type_rel; assumption.
  - inv Hs. apply addItem_spec. exact Hrel.
  - inv Hs. exact (spec_rel_view σ _ _ (toPreview_view tz now (st s)) Hrel).
  - inv Hs. exact (spec_rel_view σ _ _ (back_view (st s)) Hrel).
  - pose proof (download_view (st s)) as Hv.
    destruct (download_start (st s)) as [o a'] eqn:E. inv Hs.
    exact (spec_rel_view σ _ _ Hv Hrel).
  - destruct (nth_error (pending s) i) as [[o|o]|]; inv Hs. exact Hrel.
  - destruct (nth_error (pending s) i) as [[o|o]|]; inv Hs.
    destruct ok; [exact (spec_rel_view σ _ _ (restore_view o (st s)) Hrel) | exact Hrel].
Qed.

Lemma run_spec s evs s' σ :
  run tz s evs = Some s' -> spec_rel σ (st s) -> spec_rel (spec_run σ evs) (st s').
Proof.
  revert s σ. induction evs as [|ev evs IH]; intros s σ Hrun Hrel; cbn [run] in Hrun.
  - inv Hrun. exact Hrel.
  - destruct (step tz s ev) as [s1|] eqn:E; [|discriminate].
    exact (IH s1 (spec_event σ ev) Hrun (step_spec s ev s1 σ E Hrel)).
Qed.

Lemma spec_rel_init : spec_rel spec_init (st init_system).
Proof. repeat split. Qed.

(** C2: every run of the page from its initial state, whatever the
    events (typing, clicks, timers, html2pdf settling), shows the state
    the specification's machine reaches on the same events: the rows are
    the specification's ledger rendered in order, [itemCount] is its
    length, the item fields are the specification's fields, and the
    alerts are the messages of the validation errors it reported. *)
Theorem page_refines_spec evs s' :
  run tz init_system evs = Some s' -> spec_rel (spec_run spec_init evs) (st s').
Proof. intros Hrun. exact (run_spec init_system evs s' spec_init Hrun spec_rel_init). Qed.
End Simulation.

(** ** Reachable pages show valid ledgers *)

Lemma spec_addItem_inl l i l' :
  spec_addItem l i = inl l' -> l' = l ++ [i] /\ item_valid i = true /\ (length l < 5)%nat.
Proof.
  unfold spec_addItem, item_valid. destruct (Nat.leb_spec 5 (length l)); [discriminate|].
  destruct (str_falsy _), (str_falsy _), (num_lt _ _), (num_lt _ _); cbn; intros Heq; inv Heq; auto.
Qed.

(** The specification's ledger holds at most five valid items. *)
Definition spec_ledger_ok (σ : spec_state) : Prop :=
  (length (sp_ledger σ) <= 5)%nat /\ Forall (fun i => item_valid i = true) (sp_ledger σ).

Lemma spec_event_ok σ ev : spec_ledger_ok σ -> spec_ledger_ok (spec_event σ ev).
Proof.
  intros [Hlen Hval]. destruct ev as [e v| |now| | |i|i ok]; cbn [spec_event];
    try (split; assumption).
  - destruct σ as [l pr gr up q errs]. destruct e; split; assumption.
  - destruct (spec_addItem _ _) as [l'|err] eqn:E; [|split; assumption].
    apply spec_addItem_inl in E as (-> & Hi & Hl). split; cbn [sp_ledger].
    + rewrite length_app. cbn. lia.
    + apply Forall_app. auto.
Qed.

Lemma spec_run_ok σ evs : spec_ledger_ok σ -> spec_ledger_ok (spec_run σ evs).
Proof.
  unfold spec_run. revert σ. induction evs as [|ev evs IH]; intros σ H; [exact H|].
  cbn [fold_left]. apply IH, spec_event_ok, H.
Qed.

Lemma reachable_run `{R : TotalsRenderer} tz s :
  reachable tz s -> exists evs, run tz init_system evs = Some s.
Proof.
  induction 1 as [|s ev s' _ [evs Hr] Hs].
  - exists []. reflexivity.
  - exists (evs ++ [ev]). rewrite run_app, Hr. cbn [run]. rewrite Hs. reflexivity.
Qed.

Section Valid.
Context `{R : TotalsRenderer}.
Variable tz : time_zone.

(** C5: every reachable page shows a ledger of at most five items, each
    valid as the specification's [addItem] requires: a non-empty trimmed
    product and grade, a unit price and a quantity above zero. *)
Theorem reachable_valid_ledger s :
  reachable tz s ->
  exists l, ledger_rel l (st s) /\ (length l <= 5)%nat /\ Forall (fun i => item_valid i = true) l.
Proof.
  intros Hr. destruct (reachable_run tz s Hr) as [evs Hrun].
  destruct (run_spec tz init_system evs s spec_init Hrun spec_rel_init) as (Hrel & _).
  destruct (spec_run_ok spec_init evs (conj (le_0_n 5) (Forall_nil _))) as [Hlen Hval].
  exists (sp_ledger (spec_run spec_init evs)). auto.
Qed.
End Valid.

(** ** Witnesses *)

Definition sample_run : list event := add_events sample_entry ++ [TypeInto productInput «" "»; ClickAddItem].

Lemma page_refines_spec_witness :
  run (R := updateTotals_renderer) utc init_system sample_run = Some (after sample_run)
  /\ spec_rel (spec_run spec_init sample_run) (st (after sample_run)).
Proof.
  assert (H : run (R := updateTotals_renderer) utc init_system sample_run = Some (after sample_run))
    by (vm_compute; reflexivity).
  split; [exact H | exact (page_refines_spec utc sample_run _ H)].
Defined.

Lemma reachable_valid_ledger_witness :
  reachable (R := updateTotals_renderer) utc (after sample_run)
  /\ exists l, ledger_rel l (st (after sample_run)) /\ (length l <= 5)%nat
               /\ Forall (fun i => item_valid i = true) l.
Proof.
  assert (H : reachable (R := updateTotals_renderer) utc (after sample_run))
    by (apply after_reachable; vm_compute; reflexivity).
  split; [exact H | exact (reachable_valid_ledger utc _ H)].
Defined.
