(* ===== verification/Liveness.v ===== *)
(** * Suspended downloads finish

    A "Download" handler suspended at one of its two [await]s (the
    1500 ms timer of line 193, the html2pdf promise of line 213) is resumed
    by an event of the environment: [TimerFires i] or [PdfSettles i ok]
    for the [i]-th pending download.  These events alone cannot go on for
    ever: each one lowers the weight of [pending] (2 for a download still
    waiting for its timer, 1 for one waiting for html2pdf) by exactly one.
    Hence the environment's steps are well-founded, every run of them
    has length at most that weight, and, once the user stops clicking,
    every state eventually has no download pending, whatever order the
    timers fire and the promises settle in. *)

From Stdlib Require Import String ZArith List Lia Bool Wellfounded.
From S2P Require Import Prelude JsString JsNumber Dates Format Page Totals Ledger Navigation Export App.
Import ListNotations.
Local Open Scope js_scope.

Definition stage_weight (st : stage) : nat :=
  match st with Waiting _ => 2 | Saving _ => 1 end.

Fixpoint pending_weight (l : list stage) : nat :=
  match l with [] => 0 | st :: l => stage_weight st + pending_weight l end.

(** The events only the environment produces. *)
Definition is_env_event (ev : event) : bool :=
  match ev with TimerFires _ | PdfSettles _ _ => true | _ => false end.

Section Environment.
Context `{R : TotalsRenderer}.
Variable tz : time_zone.

(** One step of the environment: a timer fires or a promise settles. *)
Definition env_step (s s' : system) : Prop :=
  exists ev, is_env_event ev = true /\ step tz s ev = Some s'.

(** As [eventually] of coqutil's small-step combinators, for the
    environment's steps: [P] holds now, or some step is possible and
    every possible step leads to a state where [P] eventually holds. *)
Inductive eventually (P : system -> Prop) : system -> Prop :=
  | eventually_done s : P s -> eventually P s
  | eventually_step s :
      (exists s', env_step s s') ->
      (forall s', env_step s s' -> eventually P s') -> eventually P s.
End Environment.

(** ** The weight of the pending downloads *)

Lemma weight_replace i o o' l :
  nth_error l i = Some (Waiting o) -> S (pending_weight (replace_at i (Saving o') l)) = pending_weight l.
Proof.
  revert i. induction l as [|x l IH]; intros [|i] H; cbn [nth_error] in H; try discriminate.
  - inv H. reflexivity.
  - cbn [replace_at remove_at pending_weight]. rewrite <- (IH i H). lia.
Qed.

Lemma weight_remove i o l :
  nth_error l i = Some (Saving o) -> S (pending_weight (remove_at i l)) = pending_weight l.
Proof.
  revert i. induction l as [|x l IH]; intros [|i] H; cbn [nth_error] in H; try discriminate.
  - inv H. reflexivity.
  - cbn [replace_at remove_at pending_weight]. rewrite <- (IH i H). lia.
Qed.

Section Weight.
Context `{R : TotalsRenderer}.
Variable tz : time_zone.

Lemma env_step_weight s ev s' :
  is_env_event ev = true -> step tz s ev = Some s' ->
  S (pending_weight (pending s')) = pending_weight (pending s).
Proof.
  destruct ev as [e v| |now| | |i|i ok]; try discriminate; intros _; cbn [step].
  - destruct (nth_error (pending s) i) as [[o|o]|] eqn:E; intros H; inv H.
    cbn [pending]. exact (weight_replace i o o _ E).
  - destruct (nth_error (pending s) i) as [[o|o]|] eqn:E; intros H; inv H.
    cbn [pending]. exact (weight_remove i o _ E).
Qed.

(** The first pending download can always be resumed. *)
Lemma env_progress s : pending s <> [] -> exists s', env_step tz s s'.
Proof.
  destruct (pending s) as [|[o|o] l] eqn:E; intros Hne; [contradiction| |].
  - eexists. exists (TimerFires 0). split; [reflexivity|]. apply step_timer. rewrite E. reflexivity.
  - eexists. exists (PdfSettles 0 true). split; [reflexivity|]. apply step_settle. rewrite E. reflexivity.
Qed.
End Weight.

Section Theorems.
Context `{R : TotalsRenderer}.
Variable tz : time_zone.

Lemma env_step_lt s s' :
  env_step tz s s' -> pending_weight (pending s') < pending_weight (pending s).
Proof. intros (ev & He & Hs). rewrite <- (env_step_weight tz s ev s' He Hs). lia. Qed.

(** The environment cannot resume suspended downloads for ever:
    the relation "[s'] follows [s] by a timer firing or an html2pdf
    promise settling" is well-founded. *)
Theorem env_steps_terminate : well_founded (fun s' s => env_step tz s s').
Proof.
  apply (wf_incl _ _ (ltof _ (fun s => pending_weight (pending s)))).
  - intros s' s H. exact (env_step_lt s s' H).
  - apply well_founded_ltof.
Qed.

(** C21: a run of environment events from [s] has exactly as many steps
    as the weight it removes from [pending]: at most two per suspended
    download, two for one still waiting for its timer, one for one
    waiting for html2pdf. *)
Theorem env_run_length s evs s' :
  forallb is_env_event evs = true -> run tz s evs = Some s' ->
  length evs + pending_weight (pending s') = pending_weight (pending s).
Proof.
  revert s. induction evs as [|ev evs IH]; intros s Henv Hrun; cbn [run] in Hrun.
  - inv Hrun. reflexivity.
  - apply andb_prop in Henv as [He Henv].
    destruct (step tz s ev) as [s1|] eqn:E; [|discriminate].
    rewrite <- (env_step_weight tz s ev s1 He E), <- (IH s1 Henv Hrun). cbn. lia.
Qed.

(** C20: once the user stops interacting, every suspended download
    finishes: from any state, whatever order the timers fire and the
    promises settle in, the environment reaches a state with no
    download pending, and until then it can always take a step. *)
Theorem downloads_finish s : eventually tz (fun s => pending s = []) s.
Proof.
  remember (pending_weight (pending s)) as n eqn:Hn. revert s Hn.
  induction n as [n IH] using lt_wf_ind. intros s ->.
  destruct (pending s) as [|p ps] eqn:E.
  - apply eventually_done. exact E.
  - apply eventually_step.
    + apply env_progress. rewrite E. discriminate.
    + intros s' Hs'. pose proof (env_step_lt s s' Hs') as Hlt. rewrite E in Hlt.
      exact (IH _ Hlt s' eq_refl).
Qed.
End Theorems.

Lemma env_run_length_witness :
  let s := after [ClickDownload; ClickDownload] in
  let evs := [TimerFires 1; TimerFires 0; PdfSettles 1 true] in
  let s' := after ([ClickDownload; ClickDownload] ++ evs) in
  (forallb is_env_event evs = true /\ run (R := updateTotals_renderer) utc s evs = Some s')
  /\ length evs + pending_weight (pending s') = pending_weight (pending s).
Proof.
  intros s evs s'.
  assert (H1 : forallb is_env_event evs = true) by reflexivity.
  assert (H2 : run (R := updateTotals_renderer) utc s evs = Some s') by (vm_compute; reflexivity).
  split; [split; assumption | exact (env_run_length utc s evs s' H1 H2)].
Defined.
