(* ===== verification/Tables.v ===== *)
(** * The invoice table and the pages handed to html2pdf

    With the script's own [updateTotals] ([Totals.updateTotals_renderer]),
    what the page's two tables look like in every reachable state: every
    row has exactly five cells; once any handler has called
    [updateTotals], the [tbody] of [#invoiceTable] holds copies of the
    item rows followed by blank rows up to five, and [#subtotal] shows
    [formatNumber] of the in-order sum of the rows' amounts; before
    that, both tables are empty.  Every page html2pdf is asked to render
    (line 213) is in that synchronised state, with the options of lines
    195-211: the export obligation of spec.md section 4.4.  The tax and
    total are not part of it: the tax field can be edited while a
    download waits. *)

From Stdlib Require Import String ZArith List Lia Bool SpecFloat.
From S2P Require Import Prelude JsString JsNumber Dates Format Page Totals Ledger Navigation Export App.
Import ListNotations.
Local Open Scope Z_scope.
Local Open Scope js_scope.

(** The invoice table mirrors the item rows, and [#subtotal] their sum. *)
Definition synced (p : page) : Prop :=
  invoice_table p
  = Some (items_table p ++ repeat placeholder_row (Z.to_nat (5 - Z.of_nat (length (items_table p)))))
  /\ text p subtotal = formatNumber (subtotal_of (items_table p)).

(** Before any call of [updateTotals]. *)
Definition pristine (p : page) : Prop := items_table p = [] /\ invoice_table p = Some [].

Definition five_cells (rs : list row) : Prop := Forall (fun r => length r = 5%nat) rs.

(** What a handler that does not call [updateTotals] leaves alone. *)
Definition tables_frame (p p' : page) : Prop :=
  items_table p' = items_table p /\ invoice_table p' = invoice_table p
  /\ text p' subtotal = text p subtotal.

Definition tables_inv (s : system) : Prop :=
  ledger_inv (st s) /\ five_cells (items_table (pg (st s)))
  /\ Forall (fun x => fst x = opt /\ synced (snd x)) (exported s)
  /\ (synced (pg (st s)) \/ (pristine (pg (st s)) /\ pending s = [])).

(** ** [updateTotals] synchronises, the other writes keep the tables *)

Lemma frame_synced p p' : tables_frame p p' -> synced p -> synced p'.
Proof. intros (Hi & Hv & Ht) (Hs1 & Hs2). split; congruence. Qed.

Lemma frame_pristine p p' : tables_frame p p' -> pristine p -> pristine p'.
Proof. intros (Hi & Hv & _) (H1 & H2). split; congruence. Qed.

Lemma style_frame k v p : tables_frame p (set_style k v p).
Proof. repeat split. Qed.

Lemma render_synced p :
  Forall row_ok (items_table p) -> invoice_table p <> None -> synced (exec updateTotals p).
Proof.
  intros Hok Hv. destruct (invoice_table p) as [old|] eqn:E; [|contradiction].
  assert (Hi : items_table (exec updateTotals p) = items_table p) by exact (render_items p).
  unfold synced. rewrite Hi, (updateTotals_invoice p old Hok E), (proj2 (updateTotals_text p Hok)).
  rewrite !text_set_text_ne, text_set_text_eq by discriminate. split; reflexivity.
Qed.

Lemma synced_five p : five_cells (items_table p) -> synced p ->
  exists rs, invoice_table p = Some rs /\ five_cells rs /\ length rs = Nat.max 5 (length (items_table p)).
Proof.
  intros Hf (Hv & _). eexists. split; [exact Hv|]. split.
  - apply Forall_app. split; [exact Hf|]. apply Forall_forall. intros r Hr.
    apply repeat_spec in Hr. subst r. reflexivity.
  - rewrite length_app, repeat_length. lia.
Qed.

Lemma render_row_cells product grade up q am : length (render_row product grade up q am) = 5%nat.
Proof. reflexivity. Qed.

(** ** Every handler *)

Lemma addItem_tables a :
  ledger_inv a -> five_cells (items_table (pg a)) -> invoice_table (pg a) <> None ->
  five_cells (items_table (pg (exec addItem_click a)))
  /\ invoice_table (pg (exec addItem_click a)) <> None
  /\ (tables_frame (pg a) (pg (exec addItem_click a)) \/ synced (pg (exec addItem_click a))).
Proof.
  intros (_ & _ & Hok) Hf Hv. destruct (Z.ltb_spec (itemCount a) maxItems) as [Hlt|Hge].
  - destruct (form_invalid (pg a)) eqn:Hfi.
    + unfold exec. rewrite addItem_invalid by assumption. cbn [snd pg].
      split; [exact Hf|]. split; [exact Hv|]. left. repeat split.
    + unfold exec. rewrite addItem_valid by assumption.
      fold (exec (on_page render_totals)
        (mk_app (clear_item_inputs (append_item_row (item_row (form_item (pg a))) (pg a)))
                (itemCount a + 1))).
      rewrite on_page_exec. cbn [pg].
      set (P := clear_item_inputs (append_item_row (item_row (form_item (pg a))) (pg a))).
      assert (HPi : items_table P = items_table (pg a) ++ [item_row (form_item (pg a))]) by reflexivity.
      assert (HPok : Forall row_ok (items_table P)).
      { rewrite HPi. apply Forall_app. split; [exact Hok|]. constructor; [apply item_row_ok | constructor]. }
      split; [|split].
      * rewrite render_items, HPi. apply Forall_app. split; [exact Hf|].
        constructor; [apply render_row_cells | constructor].
      * pose proof (render_synced P HPok Hv) as [HS _].
        change (exec render_totals P) with (exec updateTotals P). rewrite HS. discriminate.
      * right. exact (render_synced P HPok Hv).
  - unfold exec. rewrite addItem_full by lia. cbn [snd pg].
    split; [exact Hf|]. split; [exact Hv|]. left. repeat split.
Qed.

Lemma toPreview_synced tz now a :
  Forall row_ok (items_table (pg a)) -> invoice_table (pg a) <> None ->
  synced (pg (exec (toPreview_click tz now) a)).
Proof.
  intros Hok Hv. rewrite toPreview_exec. cbn [pg].
  set (P := fill_invoice_view tz now (pg a)).
  rewrite render_normal by exact Hok.
  exact (render_synced P Hok Hv).
Qed.

Lemma download_synced s :
  Forall row_ok (items_table (pg (st s))) -> invoice_table (pg (st s)) <> None ->
  synced (scroll_to 0 0 (print_layout (exec render_totals (log_generating (pg (st s)))))).
Proof. intros Hok Hv. apply (frame_synced _ _ ltac:(repeat split)), render_synced; assumption. Qed.

(** ** The invariant *)

Lemma inv_invoice p : synced p \/ pristine p -> invoice_table p <> None.
Proof. intros [(H & _)|(_ & H)]; rewrite H; discriminate. Qed.

Lemma frame_disjunct p p' (pend : list stage) :
  tables_frame p p' -> synced p \/ (pristine p /\ pend = []) ->
  synced p' \/ (pristine p' /\ pend = []).
Proof.
  intros Hf [H|[H Hp]]; [left; exact (frame_synced p p' Hf H)|].
  right. split; [exact (frame_pristine p p' Hf H) | exact Hp].
Qed.

Lemma init_tables : tables_inv init_system.
Proof.
  split; [exact init_inv|]. split; [constructor|]. split; [constructor|].
  right. split; [split|]; reflexivity.
Qed.

Lemma synced_or_pristine s :
  synced (pg (st s)) \/ (pristine (pg (st s)) /\ pending s = []) ->
  synced (pg (st s)) \/ pristine (pg (st s)).
Proof. intros [H|[H _]]; [left|right]; exact H. Qed.

Section Steps.
Variable tz : time_zone.

Lemma step_tables s ev s' :
  step tz s ev = Some s' -> tables_inv s -> tables_inv s'.
Proof.
  intros Hs Hinv. pose proof (step_inv tz s ev s' Hs (proj1 Hinv)) as Hl.
  destruct Hinv as (Hli & Hf & Hex & Hd).
  pose proof (inv_invoice _ (synced_or_pristine s Hd)) as Hv.
  pose proof Hli as (_ & _ & Hok).
  split; [exact Hl|].
  destruct ev as [e v| |now| | |i|i ok]; cbn [step] in Hs.
  - destruct (is_form_field e) eqn:He; inv Hs. cbn [st pg pending exported with_app].
    assert (Hfr : tables_frame (pg (st s)) (set_text e v (pg (st s)))).
    { split; [reflexivity|]. split; [reflexivity|].
      apply text_set_text_ne. intros ->. discriminate He. }
    split; [exact Hf|]. split; [exact Hex|]. exact (frame_disjunct _ _ _ Hfr Hd).
  - inv Hs. cbn [st with_app pending exported].
    destruct (addItem_tables (st s) Hli Hf Hv) as (Hf' & _ & [Hfr|Hsy]).
    + split; [exact Hf'|]. split; [exact Hex|]. exact (frame_disjunct _ _ _ Hfr Hd).
    + split; [exact Hf'|]. split; [exact Hex|]. left. exact Hsy.
  - inv Hs. cbn [st with_app pending exported].
    split; [rewrite (proj1 (toPreview_frame tz now (st s))); exact Hf|].
    split; [exact Hex|]. left. exact (toPreview_synced tz now (st s) Hok Hv).
  - inv Hs. cbn [st with_app pending exported].
    split; [exact Hf|]. split; [exact Hex|]. exact (frame_disjunct _ _ _ ltac:(repeat split) Hd).
  - rewrite download_start_run in Hs by (apply render_normal; exact Hok).
    cbv beta iota in Hs. inv Hs. cbn [st pg pending exported].
    split; [replace (items_table (scroll_to 0 0 (print_layout (exec updateTotals (log_generating (pg (st s)))))))
              with (items_table (pg (st s))) by (symmetry; exact (render_items (log_generating (pg (st s))))); exact Hf|].
    split; [exact Hex|]. left. exact (download_synced s Hok Hv).
  - destruct (nth_error (pending s) i) as [[o|o]|] eqn:E; inv Hs. cbn [st pending exported].
    split; [exact Hf|]. destruct Hd as [Hsy|(_ & Hp)]; [|rewrite Hp, nth_error_nil in E; discriminate].
    split; [apply Forall_app; split; [exact Hex | constructor; [split; [reflexivity | exact Hsy] | constructor]]|]. left. exact Hsy.
  - destruct (nth_error (pending s) i) as [[o|o]|] eqn:E; inv Hs. cbn [st pending exported].
    split; [destruct ok; exact Hf|]. split; [exact Hex|].
    destruct Hd as [Hsy|(_ & Hp)]; [|rewrite Hp, nth_error_nil in E; discriminate].
    left. destruct ok; [|exact Hsy]. exact (frame_synced _ _ ltac:(repeat split) Hsy).
Qed.

Lemma reachable_tables s : reachable tz s -> tables_inv s.
Proof. apply reachable_invariant; [exact init_tables | intros s0 ev s1 Hs; exact (step_tables s0 ev s1 Hs)]. Qed.
End Steps.

(** ** Theorems *)

Section Theorems.
Variable tz : time_zone.



End Theorems.

Section Stale.
Variable tz : time_zone.

(** C26: the total on an exported page need not match the tax field.
    From any state with no download pending and rows [updateTotals] can
    read, a Download click, then any value [v] typed into the tax field
    during the 1500 ms wait, then the timer: the one page handed to
    html2pdf shows [v] in the tax field but the total [updateTotals]
    computed at the click, from the tax field as it was then. *)
Theorem exported_total_stale s v :
  Forall row_ok (items_table (pg (st s))) -> pending s = [] ->
  exists s' p, run tz s [ClickDownload; TypeInto taxInput v; TimerFires 0] = Some s'
    /\ exported s' = exported s ++ [(opt, p)]
    /\ text p taxInput = v
    /\ text p total
       = formatNumber (num_add (subtotal_of (items_table (pg (st s))))
                               (or_zero (parseFloat (text (pg (st s)) taxInput)))).
Proof.
  intros Hok Hp. cbn [run]. rewrite step_download by exact Hok. rewrite Hp.
  cbn [step is_form_field with_app st pg itemCount pending exported List.app].
  cbn [nth_error replace_at].
  do 2 eexists. split; [reflexivity|]. split; [reflexivity|]. cbn [st pg].
  split; [apply text_set_text_eq|]. rewrite text_set_text_ne by discriminate.
  destruct (updateTotals_text (log_generating (pg (st s))) Hok) as [_ Ht].
  change (text (scroll_to 0 0 (print_layout (exec render_totals (log_generating (pg (st s)))))) total)
    with (text (exec updateTotals (log_generating (pg (st s)))) total).
  rewrite Ht, text_set_text_eq. reflexivity.
Qed.
End Stale.

(** With no items, typing [5] into the tax field during the wait
    exports a total of [0.00]. *)
Example exported_total_stale_example :
  let p := pg (st (after [ClickDownload; TypeInto taxInput «"5"»])) in
  exported (after [ClickDownload; TypeInto taxInput «"5"»; TimerFires 0]) = [(opt, p)]
  /\ text p taxInput = «"5"» /\ text p total = «"0.00"»
  /\ formatNumber (num_add (subtotal_of (items_table p)) (or_zero (parseFloat (text p taxInput))))
     = «"5.00"».
Proof. vm_compute. repeat split; reflexivity. Qed.

(** ** Witnesses *)

Definition tables_run : list event :=
  add_events sample_entry ++ [ClickDownload; ClickAddItem; TimerFires 0].

Lemma tables_reachable : reachable utc (after tables_run).
Proof. apply after_reachable. vm_compute. reflexivity. Qed.




Lemma exported_total_stale_witness :
  let s := after (add_events sample_entry) in
  (Forall row_ok (items_table (pg (st s))) /\ pending s = [])
  /\ exists s' p, run utc s [ClickDownload; TypeInto taxInput «"5"»; TimerFires 0] = Some s'
       /\ exported s' = exported s ++ [(opt, p)]
       /\ text p taxInput = «"5"»
       /\ text p total
          = formatNumber (num_add (subtotal_of (items_table (pg (st s))))
                                  (or_zero (parseFloat (text (pg (st s)) taxInput)))).
Proof.
  intros s. assert (Hp : pending s = []) by reflexivity.
  split; [split; [exact sample_rows_ok | exact Hp]|].
  exact (exported_total_stale utc s «"5"» sample_rows_ok Hp).
Defined.
